(** * A1 Tools: availability supervisor and privacy injector

    A shallow embedding of

      - [service_helper/a1_service_helper.cpp]  (the availability supervisor,
        its entry point and its two lock files),
      - [windows/runner/privacy_injector.cpp]   (the remote injector and the
        hidden-process bookkeeping),
      - [windows/privacy_payload/privacy_payload.cpp]  (the payload that runs
        in the target process),
      - [windows/runner/flutter_window.cpp]     (the method channel in front
        of the injector), and
      - [windows/runner/main.cpp]               (the application's entry
        point),

    followed by their properties.

    Conventions.  Machine integers ([DWORD], [ULONGLONG], [DWORD_PTR],
    [wchar_t], handles, addresses) are [Z] with the wrap-around written out
    where the source computes on them; a pointer is 64 bits wide, as in the
    x64 build of the runner.  A [std::wstring] is a [list Z] of
    code units.  A [std::map] is a [gmap]; where the source iterates one, the
    keys are visited in the order of [std::less].  Every call into the
    operating system is answered from an explicit description of the machine
    (the files, the process table, the windows, the outcome of remote
    threads) and is appended to a trace, so that "what the code did" is a
    statement about that trace. *)

From Stdlib Require Import ZArith List Lia Bool String Ascii DecimalString.
From stdpp Require Import gmap list sorting.

Local Open Scope Z_scope.

(** ** Wide strings and the C runtime pieces both programs use *)

Module Win32.

(** [L "text"] is the wide literal [L"text"]. *)
Definition L (s : string) : list Z :=
  List.map (fun a => Z.of_N (N_of_ascii a)) (list_ascii_of_string s).
Arguments L s%_string : simpl never.

(** The double quote, as a one-character wide string. *)
Definition dquote : list Z := [34].

(** [towlower] in the "C" locale, the only locale either program runs in
    (neither calls [setlocale]): the letters A..Z move to a..z, every other
    code unit is returned as it is. *)
Definition towlower (c : Z) : Z :=
  if (65 <=? c) && (c <=? 90) then c + 32 else c.

(** [for (auto& c : s) c = towlower(c);] and the [ToLowerCase] helper of
    the injector. *)
Definition ToLowerCase (str : list Z) : list Z := List.map towlower str.

(** Does [needle] start [hay]? *)
Fixpoint starts_with (needle hay : list Z) : bool :=
  match needle, hay with
  | [], _ => true
  | _ :: _, [] => false
  | a :: needle', b :: hay' => (a =? b) && starts_with needle' hay'
  end.

(** [hay.find(needle)]: the first position at which [needle] occurs,
    [None] for [npos].  The empty needle is found at position 0. *)
Fixpoint find (hay needle : list Z) : option nat :=
  if starts_with needle hay then Some 0%nat
  else match hay with
       | [] => None
       | _ :: hay' => option_map S (find hay' needle)
       end.

(** [hay.find(needle) != npos] *)
Definition contains (hay needle : list Z) : bool :=
  match find hay needle with Some _ => true | None => false end.

(** [a == b] on wide strings. *)
Definition wstr_eqb (a b : list Z) : bool := bool_decide (a = b).

(** [_wcsicmp(a, b) == 0]: equal after lower-casing both. *)
Definition wcsicmp_eq (a b : list Z) : bool :=
  wstr_eqb (ToLowerCase a) (ToLowerCase b).

(** Unsigned wrap-around at 32 and 64 bits. *)
Definition u32 (z : Z) : Z := z mod 2 ^ 32.
Definition u64 (z : Z) : Z := z mod 2 ^ 64.

(** ["%lu"], ["%zu"]: an unsigned value in decimal. *)
Definition fmt_unsigned (z : Z) : list Z :=
  L (NilZero.string_of_uint (N.to_uint (Z.to_N z))).

(** The order of [std::less<std::wstring>]: lexicographic on code units. *)
Fixpoint wstr_leb (a b : list Z) : bool :=
  match a, b with
  | [], _ => true
  | _ :: _, [] => false
  | x :: a', y :: b' => (x <? y) || ((x =? y) && wstr_leb a' b')
  end.

End Win32.

(** ** Sequencing

    Both programs are straight-line code over mutable state; they are
    written in a state monad, generic in the state. *)

Module StateMonad.

Definition M (S A : Type) : Type := S -> A * S.
Definition ret {S A} (a : A) : M S A := fun s => (a, s).
Definition bind {S A B} (c : M S A) (k : A -> M S B) : M S B :=
  fun s => let (a, s') := c s in k a s'.
Definition get {S} : M S S := fun s => (s, s).
Definition modify {S} (f : S -> S) : M S unit := fun s => (tt, f s).

Notation "x <- c ;; k" := (bind c (fun x => k))
  (at level 20, c at level 99, k at level 200, only parsing).
Notation "c ;; k" := (bind c (fun _ => k))
  (at level 100, k at level 200, only parsing, right associativity).

End StateMonad.

(** ** The availability supervisor (a1_service_helper.cpp) *)

Module ServiceHelper.
Import Win32 StateMonad.

(** *** Configuration *)

Definition CHECK_INTERVAL_MS : Z := 2 * 60 * 1000.
Definition UPDATE_LOCK_TIMEOUT_MINUTES : Z := 10.
Definition RESTART_LOCK_TIMEOUT_SECONDS : Z := 30.
Definition APP_EXE_NAME : list Z := L "a1_tools.exe".
Definition UPDATE_LOCK_FILE : list Z := L ".update_in_progress".
Definition RESTART_LOCK_FILE : list Z := L ".restart_pending".

(** *** The machine the supervisor runs on *)

(** What [CreateProcessW] will do when it is called. *)
Inductive LaunchOutcome :=
| LaunchFails (last_error : Z)
| LaunchStarts (pid : Z) (alive : bool).
    (* [alive]: the new process is up (mutex held, listed) when looked for *)

(** The calls that leave the process.  [Log] appends a line to the log
    file (after rotating it when it has grown over 1 MiB); the line's
    timestamp prefix is left out of the event. *)
Inductive event :=
| EvLog (message : list Z)
| EvCreateFileW (path : list Z)           (* CREATE_ALWAYS, then WriteFile *)
| EvDeleteFileW (path : list Z)
| EvCreateProcessW (cmdLine : list Z)
| EvSleep (ms : Z).

(** Globals of the program, the part of the machine it looks at, and the
    trace of what it has done.  A file is its last-write time (a FILETIME,
    in 100 ns ticks); its content is never read back by this program. *)
Record Sys := mkSys {
  g_appDataDir : list Z;
  g_logFilePath : list Z;
  clock : Z;                               (* GetSystemTimeAsFileTime *)
  files : gmap (list Z) Z;                 (* path -> last-write time *)
  can_create : bool;                       (* CreateFileW will succeed *)
  app_mutex_exists : bool;                 (* OpenMutexW(APP_MUTEX_NAME) *)
  snapshot : option (list (Z * list Z));   (* the process table: pid, exe;
                                              None: the snapshot fails *)
  launch : LaunchOutcome;
  trace : list event
}.

Definition set_files (f : gmap (list Z) Z) (s : Sys) : Sys :=
  mkSys (g_appDataDir s) (g_logFilePath s) (clock s) f (can_create s)
        (app_mutex_exists s) (snapshot s) (launch s) (trace s).
Definition set_clock (c : Z) (s : Sys) : Sys :=
  mkSys (g_appDataDir s) (g_logFilePath s) c (files s) (can_create s)
        (app_mutex_exists s) (snapshot s) (launch s) (trace s).
Definition set_trace (t : list event) (s : Sys) : Sys :=
  mkSys (g_appDataDir s) (g_logFilePath s) (clock s) (files s) (can_create s)
        (app_mutex_exists s) (snapshot s) (launch s) t.
Definition set_running (m : bool) (p : option (list (Z * list Z))) (s : Sys) : Sys :=
  mkSys (g_appDataDir s) (g_logFilePath s) (clock s) (files s) (can_create s)
        m p (launch s) (trace s).

Definition emit (e : event) : M Sys unit :=
  fun s => (tt, set_trace (trace s ++ [e]) s).

(** *** The operating system calls *)

Definition GetFileAttributesExW (path : list Z) : M Sys (option Z) :=
  fun s => (files s !! path, s).

(** [GetFileAttributesW(path) != INVALID_FILE_ATTRIBUTES] *)
Definition file_present (path : list Z) : M Sys bool :=
  fun s => (bool_decide (is_Some (files s !! path)), s).

Definition GetSystemTimeAsFileTime : M Sys Z := fun s => (clock s, s).

(** The return value of [DeleteFileW] is not looked at by the program; a
    delete that the system refuses is outside this description. *)
Definition DeleteFileW (path : list Z) : M Sys unit :=
  emit (EvDeleteFileW path) ;;
  modify (fun s => set_files (delete path (files s)) s).

(** [CreateFileW(.., CREATE_ALWAYS, ..) != INVALID_HANDLE_VALUE]; a file
    that is created is written and closed at once, which stamps it with
    the current time. *)
Definition CreateFileW_always (path : list Z) : M Sys bool :=
  emit (EvCreateFileW path) ;;
  fun s => if can_create s
           then (true, set_files (<[path := clock s]> (files s)) s)
           else (false, s).

Definition Sleep (ms : Z) : M Sys unit :=
  emit (EvSleep ms) ;;
  modify (fun s => set_clock (clock s + ms * 10000) s).

Definition OpenMutexW_app : M Sys bool := fun s => (app_mutex_exists s, s).

Definition CreateToolhelp32Snapshot : M Sys (option (list (Z * list Z))) :=
  fun s => (snapshot s, s).

(** [CreateProcessW]: [Some pid] when the process was created.  A process
    that comes up is listed under the name of the executable and holds the
    application mutex. *)
Definition CreateProcessW (cmdLine : list Z) : M Sys (option Z) :=
  emit (EvCreateProcessW cmdLine) ;;
  fun s => match launch s with
           | LaunchFails _ => (None, s)
           | LaunchStarts pid alive =>
               (Some pid,
                if alive
                then set_running true
                       (option_map (fun ps => ps ++ [(pid, APP_EXE_NAME)]) (snapshot s)) s
                else s)
           end.

Definition GetLastError : M Sys Z :=
  fun s => (match launch s with LaunchFails e => e | _ => 0 end, s).

(** *** The program

    [wWinMain] sets the two globals, takes the single-instance mutex and
    calls [PerformCheck], once or every [CHECK_INTERVAL_MS]; one call of
    [PerformCheck] is one cycle of the supervisor. *)

(** [Log] stands for the whole call: the size test and the rotation of
    the log file, the time stamp and the appended line are inside the one
    event.  The log file and its backup are not among [files]: no other
    function touches them, and [Log] touches no other file. *)
Definition Log (message : list Z) : M Sys unit :=
  s <- get ;;
  match g_logFilePath s with
  | [] => ret tt
  | _ => emit (EvLog message)
  end.

Definition IsUpdateInProgress : M Sys bool :=
  s <- get ;;
  let lockPath := g_appDataDir s ++ L "\" ++ UPDATE_LOCK_FILE in
  fileInfo <- GetFileAttributesExW lockPath ;;
  match fileInfo with
  | None => ret false
  | Some ftLastWriteTime =>
      now <- GetSystemTimeAsFileTime ;;
      let lockTime := ftLastWriteTime in
      let currentTime := now in
      let diffMinutes := u64 (currentTime - lockTime) / (10000000 * 60) in
      if diffMinutes >? UPDATE_LOCK_TIMEOUT_MINUTES then
        Log (L "Update lock file is stale, removing") ;;
        DeleteFileW lockPath ;;
        ret false
      else
        Log (L "Update in progress detected") ;;
        ret true
  end.

Definition IsRestartPending : M Sys bool :=
  s <- get ;;
  let lockPath := g_appDataDir s ++ L "\" ++ RESTART_LOCK_FILE in
  fileInfo <- GetFileAttributesExW lockPath ;;
  match fileInfo with
  | None => ret false
  | Some ftLastWriteTime =>
      now <- GetSystemTimeAsFileTime ;;
      let lockTime := ftLastWriteTime in
      let currentTime := now in
      let diffSeconds := u64 (currentTime - lockTime) / 10000000 in
      if diffSeconds >? RESTART_LOCK_TIMEOUT_SECONDS then
        Log (L "Restart lock file is stale, removing") ;;
        DeleteFileW lockPath ;;
        ret false
      else
        ret true
  end.

Definition installerNames : list (list Z) :=
  [ L "a1-tools-setup"; L "a1tools_update"; L "a1_tools_setup"; L "A1-Tools-Setup" ].

Definition IsInstallerRunning : M Sys bool :=
  hSnapshot <- CreateToolhelp32Snapshot ;;
  match hSnapshot with
  | None => ret false
  | Some entries =>
      if existsb (fun pe32 =>
                    let procName := ToLowerCase (snd pe32) in
                    existsb (fun installer =>
                               let installerLower := ToLowerCase installer in
                               contains procName installerLower)
                            installerNames)
                 entries
      then Log (L "Found installer process running") ;; ret true
      else ret false
  end.

Definition IsAppRunning : M Sys bool :=
  hMutex <- OpenMutexW_app ;;
  if hMutex : bool then
    Log (L "App detected via mutex") ;; ret true
  else
    hSnapshot <- CreateToolhelp32Snapshot ;;
    match hSnapshot with
    | None => ret false
    | Some entries =>
        if existsb (fun pe32 => wcsicmp_eq (snd pe32) APP_EXE_NAME) entries
        then Log (L "App detected via process list") ;; ret true
        else Log (L "App not detected by any method") ;; ret false
    end.

Definition CreateRestartLock : M Sys unit :=
  s <- get ;;
  let lockPath := g_appDataDir s ++ L "\" ++ RESTART_LOCK_FILE in
  _ <- CreateFileW_always lockPath ;;
  ret tt.

Definition RemoveRestartLock : M Sys unit :=
  s <- get ;;
  let lockPath := g_appDataDir s ++ L "\" ++ RESTART_LOCK_FILE in
  DeleteFileW lockPath.

Definition RecoverApp : M Sys unit :=
  CreateRestartLock ;;
  s <- get ;;
  let appPath := g_appDataDir s ++ L "\" ++ APP_EXE_NAME in
  present <- file_present appPath ;;
  if negb present then
    Log (L "App executable not found at: " ++ appPath) ;;
    RemoveRestartLock
  else
    Log (L "Starting app: " ++ appPath) ;;
    let cmdLine := dquote ++ appPath ++ dquote ++ L " --auto-start --service-restart" in
    pi <- CreateProcessW cmdLine ;;
    match pi with
    | Some dwProcessId =>
        Log (L "App started with PID: " ++ fmt_unsigned dwProcessId) ;;
        Sleep 5000 ;;
        running <- IsAppRunning ;;
        (if running : bool
         then Log (L "App recovery successful")
         else Log (L "App may not have started properly"))
    | None =>
        error <- GetLastError ;;
        Log (L "Failed to start app, error: " ++ fmt_unsigned error)
    end ;;
    RemoveRestartLock.

Definition PerformCheck : M Sys unit :=
  Log (L "Performing availability check...") ;;
  updating <- IsUpdateInProgress ;;
  if updating : bool then
    Log (L "Update in progress, skipping check")
  else
    pending <- IsRestartPending ;;
    if pending : bool then
      Log (L "Restart already pending, skipping")
    else
      installing <- IsInstallerRunning ;;
      if installing : bool then
        Log (L "Installer is running, skipping check")
      else
        running <- IsAppRunning ;;
        if negb running then
          Log (L "App is NOT running, initiating recovery...") ;;
          RecoverApp
        else
          Log (L "App is running normally").

(** *** Vocabulary for the properties *)

(** The two kinds of marker, and the check the program has for each. *)
Inductive MarkerKind := UpdateMarker | RestartMarker.

Definition marker_file (kind : MarkerKind) : list Z :=
  match kind with
  | UpdateMarker => UPDATE_LOCK_FILE
  | RestartMarker => RESTART_LOCK_FILE
  end.

Definition marker_path (kind : MarkerKind) (s : Sys) : list Z :=
  g_appDataDir s ++ L "\" ++ marker_file kind.

Definition isActive (kind : MarkerKind) : M Sys bool :=
  match kind with
  | UpdateMarker => IsUpdateInProgress
  | RestartMarker => IsRestartPending
  end.

(** FILETIME ticks (100 ns) in a second and in a minute. *)
Definition ticks_per_second : Z := 10000000.
Definition ticks_per_minute : Z := 60 * ticks_per_second.

(** The threshold of a kind as a duration: 10 minutes, 30 seconds. *)
Definition threshold_ticks (kind : MarkerKind) : Z :=
  match kind with
  | UpdateMarker => UPDATE_LOCK_TIMEOUT_MINUTES * ticks_per_minute
  | RestartMarker => RESTART_LOCK_TIMEOUT_SECONDS * ticks_per_second
  end.

(** The unit in which the program measures the age of a kind. *)
Definition unit_ticks (kind : MarkerKind) : Z :=
  match kind with
  | UpdateMarker => ticks_per_minute
  | RestartMarker => ticks_per_second
  end.

(** What the program did between two states: the events added. *)
Definition new_events (before after : Sys) : list event :=
  drop (length (trace before)) (trace after).

Definition is_create_of (path : list Z) (e : event) : bool :=
  match e with EvCreateFileW p => bool_decide (p = path) | _ => false end.
Definition is_delete_of (path : list Z) (e : event) : bool :=
  match e with EvDeleteFileW p => bool_decide (p = path) | _ => false end.
Definition is_launch (e : event) : bool :=
  match e with EvCreateProcessW _ => true | _ => false end.
Definition is_log (e : event) : bool :=
  match e with EvLog _ => true | _ => false end.

Definition count (p : event -> bool) (evs : list event) : nat :=
  length (List.filter p evs).

Definition add_events (evs : list event) (s : Sys) : Sys :=
  set_trace (trace s ++ evs) s.

(** What [Log message] adds to the trace: nothing while the log path is
    not set. *)
Definition logline (s : Sys) (message : list Z) : list event :=
  match g_logFilePath s with [] => [] | _ => [EvLog message] end.

(** The executable [RecoverApp] starts, and whether it is on disk. *)
Definition app_exe_path (s : Sys) : list Z :=
  g_appDataDir s ++ L "\" ++ APP_EXE_NAME.
Definition exe_present (s : Sys) : bool :=
  bool_decide (is_Some (files s !! app_exe_path s)).

(** The answers of [IsAppRunning] and [IsInstallerRunning], as functions
    of the machine. *)
Definition app_detected (s : Sys) : bool :=
  app_mutex_exists s ||
  match snapshot s with
  | None => false
  | Some entries => existsb (fun pe32 => wcsicmp_eq (snd pe32) APP_EXE_NAME) entries
  end.

Definition installer_listed (s : Sys) : bool :=
  match snapshot s with
  | None => false
  | Some entries =>
      existsb (fun pe32 =>
                 existsb (fun installer =>
                            contains (ToLowerCase (snd pe32)) (ToLowerCase installer))
                         installerNames) entries
  end.

(** The answer of [isActive]: the marker is there, and the unsigned
    64-bit difference between now and its last write is short of the
    first whole unit past the limit (11 minutes, 31 seconds). *)
Definition marker_active (kind : MarkerKind) (s : Sys) : bool :=
  match files s !! marker_path kind s with
  | None => false
  | Some t => negb (threshold_ticks kind + unit_ticks kind <=? u64 (clock s - t))
  end.

(** *** Sample machines *)

Definition sample_dir : list Z := L "C:\Users\kim\AppData\Local\A1 Tools".

(** A FILETIME in the year 2022. *)
Definition sample_time : Z := 133000000000000000.

(** A desktop on which the application is not running. *)
Definition desktop (fs : gmap (list Z) Z) (now : Z) (la : LaunchOutcome) : Sys :=
  mkSys sample_dir (sample_dir ++ L "\service_helper.log") now fs true false
        (Some [(4, L "System"); (812, L "explorer.exe")]) la [].

(** No marker, and no executable to start. *)
Definition desktop_without_exe : Sys :=
  desktop ∅ sample_time (LaunchFails 2).

(** No marker, the executable in place. *)
Definition desktop_with_exe : Sys :=
  desktop {[ sample_dir ++ L "\a1_tools.exe" := sample_time - 864000000000 ]}
          sample_time (LaunchStarts 4242 true).

(** A marker of the given kind, written [age] ticks ago. *)
Definition desktop_with_marker (kind : MarkerKind) (age : Z) : Sys :=
  desktop {[ sample_dir ++ L "\" ++ marker_file kind := sample_time ]}
          (sample_time + age) (LaunchStarts 4242 true).

End ServiceHelper.

(** ** The remote injector (privacy_injector.cpp) *)

Module PrivacyInjector.
Import Win32 StateMonad.

(** *** The machine the injector runs on *)

(** A remote thread, seen five seconds after it was started: it has
    exited with a code, or it is still running. *)
Inductive ThreadOutcome :=
| Exited (code : Z)
| StillRunning.

(** [GetExitCodeThread] on a thread that has not terminated. *)
Definition STILL_ACTIVE : Z := 259.
Definition WAIT_OBJECT_0 : Z := 0.
Definition WAIT_TIMEOUT : Z := 258.

(** The answers of the operating system during one operation of the
    injector.  Addresses and handles are [Z]; [0] is the null value. *)
Record Machine := mkMachine {
  file_exists : list Z -> bool;
  process_snapshot : option (list (Z * list Z));
      (* the process table: pid, exe; None: the snapshot fails *)
  top_level_windows : list (Z * (Z * bool));
      (* EnumWindows: hwnd, owning pid, IsWindowVisible *)
  can_open : Z -> bool;                    (* OpenProcess(pid) *)
  remote_alloc : Z -> Z -> Z;              (* VirtualAllocEx(pid, size) *)
  can_write : Z -> bool;                   (* WriteProcessMemory(pid) *)
  LoadLibraryW_address : Z;                (* in kernel32.dll *)
  remote_thread : Z -> Z -> Z -> option ThreadOutcome;
      (* CreateRemoteThread(pid, start, parameter); None: not created *)
  process_modules : Z -> option (list (Z * option (list Z)));
      (* EnumProcessModules(pid): base and, where GetModuleFileNameExW
         succeeds, file name; None: the enumeration fails.  The source
         reads them into an array of 1024 handles; a target with more
         modules than that is outside this description. *)
  local_module : list Z -> Z;              (* LoadLibraryW(path), here *)
  HideAllProcessWindows_address : Z -> Z;  (* GetProcAddress(module, ..) *)
  last_error : Z
}.

Inductive handle :=
| HProcess (pid : Z)
| HThread (pid : Z).

(** The calls that leave the process. *)
Inductive event :=
| EvOutputDebugStringW (message : list Z)
| EvOpenProcess (pid : Z)
| EvVirtualAllocEx (pid size : Z)
| EvWriteProcessMemory (pid address : Z) (data : list Z) (size : Z)
| EvVirtualFreeEx (pid address : Z)
| EvCreateRemoteThread (pid start parameter : Z)
| EvWaitForSingleObject (thread : handle) (ms : Z)
| EvCloseHandle (h : handle)
| EvLoadLibraryW (path : list Z)
| EvFreeLibrary (module : Z).

(** The members of the class, and the trace of what it has done. *)
Record Sys := mkSys {
  payload_dll_path_ : list Z;
  injected_processes_ : gmap Z Z;          (* PID -> remote DLL handle *)
  hidden_process_names_ : gmap (list Z) bool;
                                           (* lowercase name -> hidden state *)
  initialized_ : bool;
  trace : list event
}.

(** [PrivacyInjector::PrivacyInjector()] *)
Definition constructed : Sys := mkSys [] ∅ ∅ false [].

Definition emit (e : event) : M Sys unit :=
  modify (fun s => mkSys (payload_dll_path_ s) (injected_processes_ s)
                         (hidden_process_names_ s) (initialized_ s)
                         (trace s ++ [e])).

Definition nl : list Z := [10].

Definition OutputDebugStringW (message : list Z) : M Sys unit :=
  emit (EvOutputDebugStringW message).

(** *** Key order of [std::map<std::wstring, bool>] *)

Definition key_le (p q : list Z * bool) : Prop :=
  wstr_leb (fst p) (fst q) = true.

#[global] Instance key_le_dec : RelDecision key_le :=
  fun p q => decide (wstr_leb (fst p) (fst q) = true).

(** The entries of the map from [begin()] to [end()]. *)
Definition in_key_order (m : gmap (list Z) bool) : list (list Z * bool) :=
  merge_sort key_le (map_to_list m).

Section Operations.
Variable env : Machine.

(** *** The operating system calls *)

(** [GetFileAttributesW(path) != INVALID_FILE_ATTRIBUTES]; the empty
    path names no file. *)
Definition file_found (path : list Z) : bool :=
  match path with
  | [] => false
  | _ => file_exists env path
  end.

Definition OpenProcess (pid : Z) : M Sys bool :=
  emit (EvOpenProcess pid) ;; ret (can_open env pid).

Definition VirtualAllocEx (pid size : Z) : M Sys Z :=
  emit (EvVirtualAllocEx pid size) ;; ret (remote_alloc env pid size).

Definition WriteProcessMemory (pid address : Z) (data : list Z) (size : Z)
  : M Sys bool :=
  emit (EvWriteProcessMemory pid address data size) ;; ret (can_write env pid).

Definition VirtualFreeEx (pid address : Z) : M Sys unit :=
  emit (EvVirtualFreeEx pid address).

Definition CloseHandle (h : handle) : M Sys unit :=
  emit (EvCloseHandle h).

Definition CreateRemoteThread (pid start parameter : Z)
  : M Sys (option ThreadOutcome) :=
  emit (EvCreateRemoteThread pid start parameter) ;;
  ret (remote_thread env pid start parameter).

Definition WaitForSingleObject (pid : Z) (hThread : ThreadOutcome) (ms : Z)
  : M Sys Z :=
  emit (EvWaitForSingleObject (HThread pid) ms) ;;
  ret (match hThread with
       | Exited _ => WAIT_OBJECT_0
       | StillRunning => WAIT_TIMEOUT
       end).

(** [DWORD exitCode = 0; GetExitCodeThread(hThread, &exitCode);] *)
Definition GetExitCodeThread (hThread : ThreadOutcome) : Z :=
  match hThread with
  | Exited code => u32 code
  | StillRunning => STILL_ACTIVE
  end.

Definition LoadLibraryW (path : list Z) : M Sys Z :=
  emit (EvLoadLibraryW path) ;; ret (local_module env path).

Definition FreeLibrary (module : Z) : M Sys unit :=
  emit (EvFreeLibrary module).

(** *** The class *)

Definition Initialize (payloadDllPath : list Z) : M Sys bool :=
  if negb (file_found payloadDllPath) then
    OutputDebugStringW (L "[PrivacyInjector] Payload DLL not found" ++ nl) ;;
    ret false
  else
    modify (fun s => mkSys payloadDllPath (injected_processes_ s)
                           (hidden_process_names_ s) true (trace s)) ;;
    OutputDebugStringW (L "[PrivacyInjector] Initialized" ++ nl) ;;
    ret true.

Definition GetProcessIdsByName (processName : list Z) : list Z :=
  let lowerName := ToLowerCase processName in
  let lowerName :=
    if contains lowerName (L ".exe") then lowerName
    else lowerName ++ L ".exe" in
  match process_snapshot env with
  | None => []
  | Some entries =>
      List.map fst
        (List.filter
           (fun pe32 =>
              let exeName := ToLowerCase (snd pe32) in
              wstr_eqb exeName lowerName || contains exeName lowerName)
           entries)
  end.

Definition GetProcessWindows (pid : Z) : list Z :=
  List.map fst
    (List.filter (fun w => (fst (snd w) =? pid) && snd (snd w))
                 (top_level_windows env)).

Definition InjectDll (pid : Z) : M Sys bool :=
  s <- get ;;
  match payload_dll_path_ s with
  | [] => ret false
  | _ :: _ =>
  if bool_decide (is_Some (injected_processes_ s !! pid)) then ret true else
  hProcess <- OpenProcess pid ;;
  if negb hProcess then
    OutputDebugStringW (L "[PrivacyInjector] Failed to open process" ++ nl) ;;
    ret false
  else
  let dllPathSize := (Z.of_nat (length (payload_dll_path_ s)) + 1) * 2 in
  remotePath <- VirtualAllocEx pid dllPathSize ;;
  if remotePath =? 0 then
    CloseHandle (HProcess pid) ;;
    ret false
  else
  written <- WriteProcessMemory pid remotePath (payload_dll_path_ s) dllPathSize ;;
  if negb written then
    VirtualFreeEx pid remotePath ;;
    CloseHandle (HProcess pid) ;;
    ret false
  else
  let loadLibrary := LoadLibraryW_address env in
  if loadLibrary =? 0 then
    VirtualFreeEx pid remotePath ;;
    CloseHandle (HProcess pid) ;;
    ret false
  else
  hThread <- CreateRemoteThread pid loadLibrary remotePath ;;
  match hThread with
  | None =>
      VirtualFreeEx pid remotePath ;;
      CloseHandle (HProcess pid) ;;
      ret false
  | Some hThread =>
      _ <- WaitForSingleObject pid hThread 5000 ;;
      let exitCode := GetExitCodeThread hThread in
      let remoteModule := exitCode in
      CloseHandle (HThread pid) ;;
      VirtualFreeEx pid remotePath ;;
      CloseHandle (HProcess pid) ;;
      if negb (remoteModule =? 0) then
        modify (fun s => mkSys (payload_dll_path_ s)
                               (<[pid := remoteModule]> (injected_processes_ s))
                               (hidden_process_names_ s) (initialized_ s)
                               (trace s)) ;;
        OutputDebugStringW (L "[PrivacyInjector] DLL injected successfully" ++ nl) ;;
        ret true
      else
        ret false
  end
  end.

(** The loop over [hMods]: the first module whose file name contains
    [privacy_payload.dll], [0] when there is none. *)
Fixpoint find_payload_module (hMods : list (Z * option (list Z))) : Z :=
  match hMods with
  | [] => 0
  | (hMod, modName) :: rest =>
      match modName with
      | Some modNameStr =>
          if contains modNameStr (L "privacy_payload.dll") then hMod
          else find_payload_module rest
      | None => find_payload_module rest
      end
  end.

Definition CallSetWindowVisibility (pid hwnd : Z) (hide : bool) : M Sys bool :=
  injected <- InjectDll pid ;;
  if negb injected then
    OutputDebugStringW (L "[PrivacyInjector] Failed to inject DLL" ++ nl) ;;
    ret false
  else
  hProcess <- OpenProcess pid ;;
  if negb hProcess then
    OutputDebugStringW
      (L "[PrivacyInjector] Failed to open process for remote call" ++ nl) ;;
    ret false
  else
  let targetModule :=
    match process_modules env pid with
    | Some hMods => find_payload_module hMods
    | None => 0
    end in
  if targetModule =? 0 then
    OutputDebugStringW
      (L "[PrivacyInjector] Could not find injected DLL in target process" ++ nl) ;;
    CloseHandle (HProcess pid) ;;
    ret false
  else
  s <- get ;;
  localDll <- LoadLibraryW (payload_dll_path_ s) ;;
  if localDll =? 0 then
    OutputDebugStringW (L "[PrivacyInjector] Failed to load DLL locally" ++ nl) ;;
    CloseHandle (HProcess pid) ;;
    ret false
  else
  let localHideAll := HideAllProcessWindows_address env localDll in
  if localHideAll =? 0 then
    OutputDebugStringW
      (L "[PrivacyInjector] HideAllProcessWindows not found in DLL" ++ nl) ;;
    FreeLibrary localDll ;;
    CloseHandle (HProcess pid) ;;
    ret false
  else
  let hideAllOffset := u64 (localHideAll - localDll) in
  FreeLibrary localDll ;;
  let remoteHideAll := u64 (targetModule + hideAllOffset) in
  hThread <- CreateRemoteThread pid remoteHideAll (if hide then 1 else 0) ;;
  match hThread with
  | None =>
      OutputDebugStringW
        (L "[PrivacyInjector] CreateRemoteThread failed: "
           ++ fmt_unsigned (last_error env) ++ nl) ;;
      CloseHandle (HProcess pid) ;;
      ret false
  | Some hThread =>
      _ <- WaitForSingleObject pid hThread 5000 ;;
      let exitCode := GetExitCodeThread hThread in
      CloseHandle (HThread pid) ;;
      CloseHandle (HProcess pid) ;;
      OutputDebugStringW
        (L "[PrivacyInjector] Remote call completed, windows affected: "
           ++ fmt_unsigned exitCode ++ nl) ;;
      ret (exitCode >? 0)
  end.

Definition HideProcessWindowsByPid (pid : Z) (hide : bool) : M Sys bool :=
  let windows := GetProcessWindows pid in
  match windows with
  | [] =>
      OutputDebugStringW
        (L "[PrivacyInjector] No visible windows found for PID "
           ++ fmt_unsigned pid ++ nl) ;;
      ret false
  | hwnd0 :: _ =>
      OutputDebugStringW
        (L "[PrivacyInjector] Found " ++ fmt_unsigned (Z.of_nat (length windows))
           ++ L " windows for PID " ++ fmt_unsigned pid
           ++ L ", attempting injection" ++ nl) ;;
      CallSetWindowVisibility pid hwnd0 hide
  end.

(** [for (DWORD pid : pids) if (HideProcessWindowsByPid(pid, hide)) totalAffected++;] *)
Fixpoint for_each_pid (pids : list Z) (hide : bool) (totalAffected : Z)
  : M Sys Z :=
  match pids with
  | [] => ret totalAffected
  | pid :: rest =>
      affected <- HideProcessWindowsByPid pid hide ;;
      for_each_pid rest hide
        (if affected : bool then totalAffected + 1 else totalAffected)
  end.

Definition HideProcessWindows (processName : list Z) (hide : bool) : M Sys Z :=
  s <- get ;;
  if negb (initialized_ s) then ret 0 else
  let lowerName := ToLowerCase processName in
  let pids := GetProcessIdsByName processName in
  totalAffected <- for_each_pid pids hide 0 ;;
  (if totalAffected >? 0 then
     modify (fun s => mkSys (payload_dll_path_ s) (injected_processes_ s)
                            (<[lowerName := hide]> (hidden_process_names_ s))
                            (initialized_ s) (trace s))
   else ret tt) ;;
  ret totalAffected.

Definition GetHiddenProcesses (s : Sys) : list (list Z) :=
  List.map fst
    (List.filter (fun pair => snd pair) (in_key_order (hidden_process_names_ s))).

Definition IsProcessHidden (processName : list Z) (s : Sys) : bool :=
  let lowerName := ToLowerCase processName in
  match hidden_process_names_ s !! lowerName with
  | Some second => second
  | None => false
  end.

(** The loop of [RestoreAll] walks the live map while its body may
    assign [hidden_process_names_[ToLowerCase(key)] = false].  Nothing
    is erased inside the loop, and an entry added or changed inside it
    holds [false], for which the body does nothing.  So the loop does
    what this does: visit the keys present at [begin()], in order, and
    act on the value each one holds when it is reached. *)
Fixpoint restore_each (keys : list (list Z)) : M Sys unit :=
  match keys with
  | [] => ret tt
  | first :: rest =>
      s <- get ;;
      (if bool_decide (hidden_process_names_ s !! first = Some true)
       then _ <- HideProcessWindows first false ;; ret tt
       else ret tt) ;;
      restore_each rest
  end.

Definition RestoreAll : M Sys unit :=
  s <- get ;;
  restore_each (List.map fst (in_key_order (hidden_process_names_ s))) ;;
  modify (fun s => mkSys (payload_dll_path_ s) ∅ ∅ (initialized_ s) (trace s)).

End Operations.

(** *** Histories

    The object is driven through its public interface, and the machine
    may be different at every call. *)

Inductive call :=
| Call_Initialize (payloadDllPath : list Z)
| Call_HideProcessWindows (processName : list Z) (hide : bool)
| Call_HideProcessWindowsByPid (pid : Z) (hide : bool)
| Call_GetHiddenProcesses
| Call_IsProcessHidden (processName : list Z)
| Call_RestoreAll.

Inductive result :=
| RBool (b : bool)
| RInt (n : Z)
| RNames (names : list (list Z))
| RVoid.

Definition perform (env : Machine) (c : call) : M Sys result :=
  match c with
  | Call_Initialize p => b <- Initialize env p ;; ret (RBool b)
  | Call_HideProcessWindows n h => k <- HideProcessWindows env n h ;; ret (RInt k)
  | Call_HideProcessWindowsByPid p h =>
      b <- HideProcessWindowsByPid env p h ;; ret (RBool b)
  | Call_GetHiddenProcesses => s <- get ;; ret (RNames (GetHiddenProcesses s))
  | Call_IsProcessHidden n => s <- get ;; ret (RBool (IsProcessHidden n s))
  | Call_RestoreAll => RestoreAll env ;; ret RVoid
  end.

(** Run a script of calls; the log pairs each call with what it returned. *)
Fixpoint run (script : list (Machine * call)) (s : Sys)
  : list (call * result) * Sys :=
  match script with
  | [] => ([], s)
  | (env, c) :: rest =>
      let (r, s') := perform env c s in
      let (log, s'') := run rest s' in
      ((c, r) :: log, s'')
  end.

(** The states the object can be in. *)
Definition reachable (s : Sys) : Prop :=
  exists script, snd (run script constructed) = s.

Definition new_events (before after : Sys) : list event :=
  drop (length (trace before)) (trace after).

(** *** Vocabulary for the properties *)

Definition add_events (evs : list event) (s : Sys) : Sys :=
  mkSys (payload_dll_path_ s) (injected_processes_ s) (hidden_process_names_ s)
        (initialized_ s) (trace s ++ evs).

(** The last two statements of [RestoreAll]. *)
Definition cleared (s : Sys) : Sys :=
  mkSys (payload_dll_path_ s) ∅ ∅ (initialized_ s) (trace s).

(** [HideProcessWindows(name, false)], for its effect. *)
Definition show_again (env : Machine) (st : Sys) (name : list Z) : Sys :=
  snd (HideProcessWindows env name false st).

(** The name [GetProcessIdsByName] searches for: the query in lower case,
    with [.exe] appended when [.exe] does not occur in it. *)
Definition search_key (processName : list Z) : list Z :=
  let lowerName := ToLowerCase processName in
  if contains lowerName (L ".exe") then lowerName else lowerName ++ L ".exe".

(** The base of the payload module as [EnumProcessModules] reports it for
    the target at the time of the call, [0] when it is not listed. *)
Definition payload_module_in (env : Machine) (pid : Z) : Z :=
  match process_modules env pid with
  | Some hMods => find_payload_module hMods
  | None => 0
  end.

(** The offset of [HideAllProcessWindows] in a fresh local load. *)
Definition hide_all_offset (env : Machine) (s : Sys) : Z :=
  let localDll := local_module env (payload_dll_path_ s) in
  u64 (HideAllProcessWindows_address env localDll - localDll).

Definition remote_hide_all (env : Machine) (pid : Z) (s : Sys) : Z :=
  u64 (payload_module_in env pid + hide_all_offset env s).

(** [hide ? TRUE : FALSE] *)
Definition flag_word (hide : bool) : Z := if hide then 1 else 0.

(** An operation that leaves the path, the hidden names and the
    initialised flag alone ... *)
Definition keeps {A} (c : M Sys A) : Prop :=
  forall s, payload_dll_path_ (snd (c s)) = payload_dll_path_ s /\
            hidden_process_names_ (snd (c s)) = hidden_process_names_ s /\
            initialized_ (snd (c s)) = initialized_ s.

(** ... and that records no injection while no path is set. *)
Definition steady {A} (c : M Sys A) : Prop :=
  forall s, payload_dll_path_ (snd (c s)) = payload_dll_path_ s /\
            hidden_process_names_ (snd (c s)) = hidden_process_names_ s /\
            initialized_ (snd (c s)) = initialized_ s /\
            (payload_dll_path_ s = [] ->
             injected_processes_ (snd (c s)) = injected_processes_ s).

(** What holds of every state the object can be in. *)
Definition consistent (s : Sys) : Prop :=
  (payload_dll_path_ s = [] -> injected_processes_ s = ∅) /\
  (forall key, is_Some (hidden_process_names_ s !! key) -> ToLowerCase key = key).

(** *** Sample machines *)

Definition sample_dll : list Z := L "C:\Program Files\A1 Tools\privacy_payload.dll".

(** Where the payload ends up in a 64-bit target. *)
Definition sample_base : Z := 0x7FFB12340000.

(** Notepad (pid 42) with one visible window; every call succeeds, the
    loader thread exits with the module base and the hide thread with the
    number of windows it toggled. *)
Definition desktop : Machine :=
  mkMachine
    (fun path => bool_decide (path = sample_dll))
    (Some [(4, L "System"); (42, L "Notepad.exe"); (43, L "notepad2.exe")])
    [(1001, (42, true)); (1002, (42, false)); (1003, (43, true))]
    (fun _ => true)
    (fun _ _ => 0x20000)
    (fun _ => true)
    0x7FFA00001000
    (fun _ start _ =>
       if start =? 0x7FFA00001000 then Some (Exited sample_base) else Some (Exited 1))
    (fun _ => Some [(0x400000, Some (L "C:\Windows\notepad.exe"));
                    (sample_base, Some sample_dll)])
    (fun _ => 0x7FF900000000)
    (fun localDll => localDll + 0x1000)
    5.

(** The same desktop after Notepad has closed its windows. *)
Definition desktop_no_windows : Machine :=
  mkMachine (file_exists desktop) (process_snapshot desktop) []
            (can_open desktop) (remote_alloc desktop) (can_write desktop)
            (LoadLibraryW_address desktop) (remote_thread desktop)
            (process_modules desktop) (local_module desktop)
            (HideAllProcessWindows_address desktop) (last_error desktop).

(** The same desktop with a target in which no remote thread finishes
    within the five seconds. *)
Definition desktop_hung : Machine :=
  mkMachine (file_exists desktop) (process_snapshot desktop)
            (top_level_windows desktop)
            (can_open desktop) (remote_alloc desktop) (can_write desktop)
            (LoadLibraryW_address desktop) (fun _ _ _ => Some StillRunning)
            (process_modules desktop) (local_module desktop)
            (HideAllProcessWindows_address desktop) (last_error desktop).

Definition hide_notepad : list (Machine * call) :=
  [ (desktop, Call_Initialize sample_dll);
    (desktop, Call_HideProcessWindows (L "notepad") true) ].

(** The object after Notepad has been hidden. *)
Definition notepad_hidden : Sys := snd (run hide_notepad constructed).

(** The object after [Initialize] alone. *)
Definition initialized : Sys := snd (Initialize desktop sample_dll constructed).

End PrivacyInjector.

(** ** The application's own entry point (windows/runner/main.cpp) *)

Module AppMain.
Import Win32 StateMonad.

Definition SW_MINIMIZE : Z := 6.
Definition SW_RESTORE : Z := 9.
Definition EXIT_SUCCESS : Z := 0.
Definition EXIT_FAILURE : Z := 1.

(** [CreateMutexW(nullptr, FALSE, kMutexName)] and the [GetLastError()]
    after it: no handle; a handle to a mutex that existed already; a
    handle to a new one. *)
Inductive MutexResult :=
| NoHandle
| ExistingMutex
| NewMutex.

(** The answers of the system during one run.  [FindWindowW] is called at
    most once in a run, so one answer is enough; the loop over [GetMessage]
    is followed for the messages that arrive before [WM_QUIT]. *)
Record Machine := mkMachine {
  CreateMutexW : MutexResult;
  FindWindowW : Z;              (* FindWindowW(nullptr, L"A1 Tools"); 0: none *)
  AttachConsole : bool;         (* AttachConsole(ATTACH_PARENT_PROCESS) *)
  IsDebuggerPresent : bool;
  Create : bool;                (* window.Create(L"A1 Tools", origin, size) *)
  messages : list Z
}.

(** The calls that leave the function.  Building the project and its
    arguments has no effect outside it and is left out. *)
Inductive event :=
| EvShowWindow (hwnd nCmdShow : Z)
| EvSetForegroundWindow (hwnd : Z)
| EvCloseHandle                                   (* the mutex handle *)
| EvCreateAndAttachConsole
| EvCoInitializeEx
| EvCreate (title : list Z) (x y width height : Z)
| EvSetQuitOnClose (quit_on_close : bool)
| EvDispatchMessage (msg : Z)                     (* TranslateMessage, DispatchMessage *)
| EvCoUninitialize.

Definition emit (e : event) : M (list event) unit :=
  modify (fun trace => trace ++ [e]).

Record LaunchSource := mkLaunchSource {
  autoStart : bool;
  crashRestart : bool;
  serviceRestart : bool
}.

(** [wcsstr(command_line, flag) != nullptr], for each of the three flags;
    all false when [command_line] is null. *)
Definition detect_launch_source (command_line : option (list Z)) : LaunchSource :=
  match command_line with
  | None => mkLaunchSource false false false
  | Some command_line =>
      mkLaunchSource (contains command_line (L "--auto-start"))
                     (contains command_line (L "--crash-restart"))
                     (contains command_line (L "--service-restart"))
  end.

(** [while (::GetMessage(&msg, nullptr, 0, 0)) { ... }] *)
Fixpoint message_loop (msgs : list Z) : M (list event) unit :=
  match msgs with
  | [] => ret tt
  | msg :: rest => emit (EvDispatchMessage msg) ;; message_loop rest
  end.

Section Run.
Variable env : Machine.

Definition wWinMain (command_line : option (list Z)) : M (list event) Z :=
  let hMutex := CreateMutexW env in
  match hMutex with
  | ExistingMutex =>
      let existing := FindWindowW env in
      (if negb (existing =? 0) then
         emit (EvShowWindow existing SW_RESTORE) ;;
         emit (EvSetForegroundWindow existing)
       else ret tt) ;;
      emit EvCloseHandle ;;
      ret 0
  | _ =>
  let source := detect_launch_source command_line in
  (if negb (AttachConsole env) && IsDebuggerPresent env
   then emit EvCreateAndAttachConsole else ret tt) ;;
  emit EvCoInitializeEx ;;
  created <- (emit (EvCreate (L "A1 Tools") 10 10 1280 720) ;; ret (Create env)) ;;
  if negb created then
    emit EvCoUninitialize ;;
    (match hMutex with NoHandle => ret tt | _ => emit EvCloseHandle end) ;;
    ret EXIT_FAILURE
  else
  emit (EvSetQuitOnClose true) ;;
  (if autoStart source || crashRestart source || serviceRestart source then
     let hwnd := FindWindowW env in
     if negb (hwnd =? 0) then emit (EvShowWindow hwnd SW_MINIMIZE) else ret tt
   else ret tt) ;;
  message_loop (messages env) ;;
  emit EvCoUninitialize ;;
  (match hMutex with NoHandle => ret tt | _ => emit EvCloseHandle end) ;;
  ret EXIT_SUCCESS
  end.

End Run.

(** *** Vocabulary for the properties *)

Definition launch_flags : list (list Z) :=
  [L "--auto-start"; L "--crash-restart"; L "--service-restart"].

End AppMain.

(** ** More vocabulary for the supervisor *)

Module Supervision.
Import Win32 StateMonad ServiceHelper.

(** The command line [RecoverApp] builds. *)
Definition restart_command_line (s : Sys) : list Z :=
  dquote ++ app_exe_path s ++ dquote ++ L " --auto-start --service-restart".

(** Its first part, the quoted path of the executable. *)
Definition quoted_program (s : Sys) : list Z :=
  dquote ++ app_exe_path s ++ dquote.

(** The globals as [wWinMain] sets them before the first check: the log
    is [service_helper.log] in the directory of the markers. *)
Definition log_beside_markers (s : Sys) : Prop :=
  g_logFilePath s = g_appDataDir s ++ L "\" ++ L "service_helper.log".

(** The executable in place, and an update marker stamped one second
    ahead of the clock. *)
Definition desktop_with_future_marker : Sys :=
  desktop (<[ sample_dir ++ L "\" ++ UPDATE_LOCK_FILE := sample_time + ticks_per_second ]>
             {[ sample_dir ++ L "\a1_tools.exe" := sample_time - 864000000000 ]})
          sample_time (LaunchStarts 4242 true).

End Supervision.

(** ** More vocabulary for the injector *)

Module InjectorNotions.
Import Win32 StateMonad PrivacyInjector.

(** What an operation of the injector takes from the system and has to
    give back. *)
Inductive resource :=
| ProcessHandle      (* OpenProcess / CloseHandle *)
| RemoteMemory       (* VirtualAllocEx / VirtualFreeEx *)
| ThreadHandle       (* CreateRemoteThread / CloseHandle *)
| LocalLibrary.      (* LoadLibraryW / FreeLibrary *)

(** What a call adds to the number of resources of a kind that are held:
    one for a call that acquires (when it succeeds on this machine), minus
    one for a call that releases. *)
Definition delta (env : Machine) (r : resource) (e : event) : Z :=
  match r, e with
  | ProcessHandle, EvOpenProcess pid => if can_open env pid then 1 else 0
  | ProcessHandle, EvCloseHandle (HProcess _) => -1
  | RemoteMemory, EvVirtualAllocEx pid size =>
      if remote_alloc env pid size =? 0 then 0 else 1
  | RemoteMemory, EvVirtualFreeEx _ _ => -1
  | ThreadHandle, EvCreateRemoteThread pid start parameter =>
      match remote_thread env pid start parameter with Some _ => 1 | None => 0 end
  | ThreadHandle, EvCloseHandle (HThread _) => -1
  | LocalLibrary, EvLoadLibraryW path => if local_module env path =? 0 then 0 else 1
  | LocalLibrary, EvFreeLibrary _ => -1
  | _, _ => 0
  end.

(** The number of resources of a kind held after a run of events that
    started with [n] of them; [None] when at some point more were
    released than were held. *)
Fixpoint balance (env : Machine) (r : resource) (n : Z) (evs : list event) : option Z :=
  match evs with
  | [] => Some n
  | e :: rest =>
      let n' := n + delta env r e in
      if n' <? 0 then None else balance env r n' rest
  end.

(** An operation that extends the trace, releases only what it has
    acquired and ends holding nothing. *)
Definition settled (env : Machine) {A} (c : M Sys A) : Prop :=
  forall s, exists evs,
    trace (snd (c s)) = trace s ++ evs /\ forall r, balance env r 0 evs = Some 0.

Definition is_debug (e : event) : bool :=
  match e with EvOutputDebugStringW _ => true | _ => false end.

(** Every record holds a non-null value that fits a [DWORD]. *)
Definition records_valid (s : Sys) : Prop :=
  forall pid hModule, injected_processes_ s !! pid = Some hModule -> 0 < hModule < 2 ^ 32.

(** An operation that keeps a property of the object. *)
Definition preserves (P : Sys -> Prop) {A} (c : M Sys A) : Prop :=
  forall s, P s -> P (snd (c s)).

(** The three ways in which the class changes its members. *)
Definition with_record (pid hModule : Z) (s : Sys) : Sys :=
  mkSys (payload_dll_path_ s) (<[pid := hModule]> (injected_processes_ s))
        (hidden_process_names_ s) (initialized_ s) (trace s).
Definition with_flag (lowerName : list Z) (hide : bool) (s : Sys) : Sys :=
  mkSys (payload_dll_path_ s) (injected_processes_ s)
        (<[lowerName := hide]> (hidden_process_names_ s)) (initialized_ s) (trace s).
Definition with_payload (payloadDllPath : list Z) (s : Sys) : Sys :=
  mkSys payloadDllPath (injected_processes_ s) (hidden_process_names_ s) true (trace s).

(** The object is initialised exactly when it has a path to the payload. *)
Definition configured (s : Sys) : Prop :=
  initialized_ s = true <-> payload_dll_path_ s <> [].

(** [a < b] in the order of the map. *)
Definition wstr_lt (a b : list Z) : Prop := wstr_leb a b = true /\ a <> b.

End InjectorNotions.

(** ** The payload (privacy_payload.cpp)

    The library runs inside the process whose windows are to be hidden.
    What it sees of the system is the table of windows, the order in which
    [EnumWindows] reports the top-level ones, and whether a request to
    change a display affinity is granted. *)

Module PrivacyPayload.
Import Win32 StateMonad.

Definition WDA_NONE : Z := 0x00000000.
Definition WDA_EXCLUDEFROMCAPTURE : Z := 0x00000011.

Record Window := mkWindow {
  owner : Z;          (* GetWindowThreadProcessId *)
  visible : bool;     (* IsWindowVisible *)
  affinity : Z        (* the display affinity in force *)
}.

Record Desktop := mkDesktop {
  current_pid : Z;                (* GetCurrentProcessId *)
  windows : gmap Z Window;        (* the windows there are, by handle *)
  top_level : list Z;             (* the handles EnumWindows reports, in order *)
  grants : Z -> Z -> bool         (* SetWindowDisplayAffinity(hwnd, affinity) succeeds *)
}.

(** *** The operating system calls *)

Definition IsWindow (hwnd : Z) : M Desktop bool :=
  s <- get ;; ret (bool_decide (is_Some (windows s !! hwnd))).

(** [GetWindowThreadProcessId(hwnd, &windowPid)]: [windowPid] keeps its
    value when there is no such window. *)
Definition GetWindowThreadProcessId (hwnd windowPid : Z) : M Desktop Z :=
  s <- get ;;
  ret (match windows s !! hwnd with Some w => owner w | None => windowPid end).

Definition IsWindowVisible (hwnd : Z) : M Desktop bool :=
  s <- get ;;
  ret (match windows s !! hwnd with Some w => visible w | None => false end).

Definition SetWindowDisplayAffinity (hwnd dwAffinity : Z) : M Desktop bool :=
  s <- get ;;
  match windows s !! hwnd with
  | Some w =>
      if grants s hwnd dwAffinity then
        modify (fun s => mkDesktop (current_pid s)
                           (<[hwnd := mkWindow (owner w) (visible w) dwAffinity]> (windows s))
                           (top_level s) (grants s)) ;;
        ret true
      else ret false
  | None => ret false
  end.

(** *** The exported functions *)

(** [BOOL SetWindowVisibility(HWND hwnd, BOOL hide)] *)
Definition SetWindowVisibility (hwnd hide : Z) : M Desktop bool :=
  isWindow <- IsWindow hwnd ;;
  if (hwnd =? 0) || negb isWindow then ret false else
  let affinity := if hide =? 0 then WDA_NONE else WDA_EXCLUDEFROMCAPTURE in
  SetWindowDisplayAffinity hwnd affinity.

Record HideWindowsData := mkHideWindowsData {
  targetPid : Z;
  hide : Z;
  count : Z
}.

(** The callback answers [TRUE] (go on) and the data as it has become. *)
Definition EnumWindowsHideCallback (hwnd : Z) (data : HideWindowsData)
  : M Desktop (bool * HideWindowsData) :=
  windowPid <- GetWindowThreadProcessId hwnd 0 ;;
  isVisible <- IsWindowVisible hwnd ;;
  if (windowPid =? targetPid data) && isVisible then
    let affinity := if hide data =? 0 then WDA_NONE else WDA_EXCLUDEFROMCAPTURE in
    ok <- SetWindowDisplayAffinity hwnd affinity ;;
    ret (true, if ok : bool
               then mkHideWindowsData (targetPid data) (hide data) (count data + 1)
               else data)
  else ret (true, data).

(** [EnumWindows]: the callback is called for each top-level window in
    turn, until it answers [FALSE]. *)
Fixpoint enumerate {D} (hwnds : list Z) (callback : Z -> D -> M Desktop (bool * D))
    (data : D) : M Desktop D :=
  match hwnds with
  | [] => ret data
  | hwnd :: rest =>
      r <- callback hwnd data ;;
      if fst r then enumerate rest callback (snd r) else ret (snd r)
  end.

Definition EnumWindows {D} (callback : Z -> D -> M Desktop (bool * D)) (data : D)
  : M Desktop D :=
  s <- get ;; enumerate (top_level s) callback data.

(** [DWORD WINAPI HideAllProcessWindows(LPVOID lpParam)] *)
Definition HideAllProcessWindows (lpParam : Z) : M Desktop Z :=
  let hide := if lpParam =? 0 then 0 else 1 in
  s <- get ;;
  let currentPid := current_pid s in
  let data := mkHideWindowsData currentPid hide 0 in
  data <- EnumWindows EnumWindowsHideCallback data ;;
  ret (u32 (count data)).

(** *** Vocabulary for the properties *)

(** The affinity a call with this argument asks for. *)
Definition affinity_for (lpParam : Z) : Z :=
  if lpParam =? 0 then WDA_NONE else WDA_EXCLUDEFROMCAPTURE.

(** A window of this process that is visible and whose affinity the
    system lets it set. *)
Definition selected (s : Desktop) (dwAffinity hwnd : Z) : bool :=
  match windows s !! hwnd with
  | Some w => (owner w =? current_pid s) && visible w && grants s hwnd dwAffinity
  | None => false
  end.

Definition with_affinity (dwAffinity : Z) (w : Window) : Window :=
  mkWindow (owner w) (visible w) dwAffinity.

(** *** A sample desktop *)

(** Process 42 with a visible window (1001), an invisible one (1002), a
    visible one the system refuses to change (1004) and a visible one that
    is not top-level (2001); process 43 with a visible window (1003); and a
    handle that is reported but names no window any more (1005). *)
Definition sample : Desktop :=
  mkDesktop 42
    (<[1001 := mkWindow 42 true 0]>
       (<[1002 := mkWindow 42 false 0]>
          (<[1003 := mkWindow 43 true 0]>
             (<[1004 := mkWindow 42 true 0]>
                (<[2001 := mkWindow 42 true 0]> ∅)))))
    [1001; 1002; 1003; 1004; 1005]
    (fun hwnd _ => negb (hwnd =? 1004)).

End PrivacyPayload.

(** ** The method channel in front of the injector (flutter_window.cpp)

    [FlutterWindow::OnCreate] initialises the injector with the path of
    the payload next to the executable and registers a handler on the
    channel [com.a1chimney.a1tools/privacy_injection]. *)

Module PrivacyChannel.
Import Win32 StateMonad PrivacyInjector.

(** [flutter::EncodableValue], with the alternatives the handler tells
    apart; [EInt] also stands for the remaining ones (64-bit integers,
    doubles, typed lists), which are none of string, bool, list or map. *)
#[local] Set Warnings "-register-all".
Inductive EncodableValue :=
| ENull
| EBool (b : bool)
| EInt (n : Z)
| EString (s : string)
| EList (items : list EncodableValue)
| EMap (entries : list (EncodableValue * EncodableValue)).
#[local] Set Warnings "register-all".

(** What the handler does with [result]. *)
Inductive MethodResult :=
| Success (value : EncodableValue)
| Error (code message : string)
| NotImplemented.

(** The injector's machine, the two string conversions of the system and
    the path of the running executable. *)
Record Host := mkHost {
  os : Machine;
  MultiByteToWideChar : string -> list Z;     (* CP_UTF8 *)
  WideCharToMultiByte : list Z -> string;     (* CP_UTF8 *)
  GetModuleFileNameW : list Z
}.

Section Handler.
Variable host : Host.

Definition Utf8ToWstring (str : string) : list Z :=
  match str with
  | EmptyString => []
  | _ => MultiByteToWideChar host str
  end.

Definition WstringToUtf8 (wstr : list Z) : string :=
  match wstr with
  | [] => EmptyString
  | _ => WideCharToMultiByte host wstr
  end.

(** [args->find(flutter::EncodableValue(key))], [None] for [end()]. *)
Fixpoint find_key (key : string) (args : list (EncodableValue * EncodableValue))
  : option EncodableValue :=
  match args with
  | [] => None
  | (EString k, v) :: rest => if String.eqb k key then Some v else find_key key rest
  | _ :: rest => find_key key rest
  end.

(** [str.find_last_of(chars)] *)
Fixpoint find_last_of (str chars : list Z) : option nat :=
  match str with
  | [] => None
  | c :: rest =>
      match find_last_of rest chars with
      | Some pos => Some (S pos)
      | None => if existsb (Z.eqb c) chars then Some 0%nat else None
      end
  end.

(** The path handed to [Initialize]. *)
Definition dllPath : list Z :=
  let exeDir := GetModuleFileNameW host in
  let exeDir :=
    match find_last_of exeDir (L "\/") with
    | Some lastSlash => take (lastSlash + 1) exeDir
    | None => exeDir
    end in
  exeDir ++ L "privacy_payload.dll".

(** The part of [OnCreate] that concerns the injector; what [Initialize]
    answers is not looked at. *)
Definition OnCreate : M Sys unit :=
  _ <- Initialize (os host) dllPath ;;
  ret tt.

(** The loop of [hideMultipleProcesses]. *)
Fixpoint hide_each (processes : list EncodableValue) (hide : bool) (totalAffected : Z)
  : M Sys Z :=
  match processes with
  | [] => ret totalAffected
  | proc :: rest =>
      match proc with
      | EString name =>
          let wname := Utf8ToWstring name in
          affected <- HideProcessWindows (os host) wname hide ;;
          hide_each rest hide (totalAffected + affected)
      | _ => hide_each rest hide totalAffected
      end
  end.

(** The handler of the privacy channel. *)
Definition MethodCallHandler (method_name : string) (arguments : EncodableValue)
  : M Sys MethodResult :=
  if String.eqb method_name "hideProcessWindows" then
    match arguments with
    | EMap args =>
        match find_key "processName" args, find_key "hide" args with
        | Some (EString name), Some (EBool hide) =>
            let wname := Utf8ToWstring name in
            affected <- HideProcessWindows (os host) wname hide ;;
            ret (Success (EInt affected))
        | _, _ =>
            ret (Error "INVALID_ARGUMENT" "Expected {processName: string, hide: bool}")
        end
    | _ => ret (Error "INVALID_ARGUMENT" "Expected {processName: string, hide: bool}")
    end
  else if String.eqb method_name "hideMultipleProcesses" then
    match arguments with
    | EMap args =>
        match find_key "processes" args, find_key "hide" args with
        | Some (EList processes), Some (EBool hide) =>
            totalAffected <- hide_each processes hide 0 ;;
            ret (Success (EInt totalAffected))
        | _, _ =>
            ret (Error "INVALID_ARGUMENT" "Expected {processes: string[], hide: bool}")
        end
    | _ => ret (Error "INVALID_ARGUMENT" "Expected {processes: string[], hide: bool}")
    end
  else if String.eqb method_name "getHiddenProcesses" then
    s <- get ;;
    let hiddenList := GetHiddenProcesses s in
    ret (Success (EList (List.map (fun name => EString (WstringToUtf8 name)) hiddenList)))
  else if String.eqb method_name "restoreAll" then
    RestoreAll (os host) ;;
    ret (Success ENull)
  else if String.eqb method_name "isProcessHidden" then
    match arguments with
    | EString args =>
        let wname := Utf8ToWstring args in
        s <- get ;;
        ret (Success (EBool (IsProcessHidden wname s)))
    | _ => ret (Error "INVALID_ARGUMENT" "Expected process name string")
    end
  else ret NotImplemented.

End Handler.

(** *** Vocabulary for the properties *)

(** The arguments of [hideProcessWindows]. *)
Definition hide_arguments (name : string) (hide : bool) : EncodableValue :=
  EMap [(EString "processName", EString name); (EString "hide", EBool hide)].

(** The names among the items of a list. *)
Definition strings_of (items : list EncodableValue) : list string :=
  omap (fun item => match item with EString name => Some name | _ => None end) items.

(** [hideProcessWindows], called for each name in turn: the answers and
    the state at the end. *)
Fixpoint one_by_one (host : Host) (names : list string) (hide : bool) (s : Sys)
  : list MethodResult * Sys :=
  match names with
  | [] => ([], s)
  | name :: rest =>
      let (r, s1) := MethodCallHandler host "hideProcessWindows" (hide_arguments name hide) s in
      let (rs, s2) := one_by_one host rest hide s1 in
      (r :: rs, s2)
  end.

(** A backslash or a slash. *)
Definition is_separator (c : Z) : bool := existsb (Z.eqb c) (L "\/").

(** Calls served one after the other, each on the machine as it is then:
    the answers and the state at the end. *)
Fixpoint serve (calls : list (Host * (string * EncodableValue))) (s : Sys)
  : list MethodResult * Sys :=
  match calls with
  | [] => ([], s)
  | (host, (method_name, arguments)) :: rest =>
      let (r, s1) := MethodCallHandler host method_name arguments s in
      let (rs, s2) := serve rest s1 in
      (r :: rs, s2)
  end.

(** The methods the handler answers. *)
Definition known_methods : list string :=
  ["hideProcessWindows"; "hideMultipleProcesses"; "getHiddenProcesses"; "restoreAll";
   "isProcessHidden"]%string.

(** *** A sample host *)

(** Plain ASCII both ways; the application is installed where
    [sample_dll] is. *)
Definition sample_host : Host :=
  mkHost desktop
         (fun str => L str)
         (fun wstr => string_of_list_ascii
                        (List.map (fun c => ascii_of_N (Z.to_N c)) wstr))
         (L "C:\Program Files\A1 Tools\a1_tools.exe").

(** The same host with no payload beside the executable. *)
Definition sample_host_without_payload : Host :=
  mkHost (mkMachine (fun _ => false) (process_snapshot desktop) (top_level_windows desktop)
                    (can_open desktop) (remote_alloc desktop) (can_write desktop)
                    (LoadLibraryW_address desktop) (remote_thread desktop)
                    (process_modules desktop) (local_module desktop)
                    (HideAllProcessWindows_address desktop) (last_error desktop))
         (MultiByteToWideChar sample_host) (WideCharToMultiByte sample_host)
         (GetModuleFileNameW sample_host).

End PrivacyChannel.

(** ** The injector and the payload together *)

Module Injection.
Import Win32 StateMonad.

(** The machine of the injector's sample with, in the target, the payload
    at work on the payload's sample desktop: the loader thread exits with
    the module base, any other remote thread with what
    [HideAllProcessWindows] answers for its parameter. *)
Definition desktop_with_payload : PrivacyInjector.Machine :=
  PrivacyInjector.mkMachine
    (PrivacyInjector.file_exists PrivacyInjector.desktop)
    (PrivacyInjector.process_snapshot PrivacyInjector.desktop)
    (PrivacyInjector.top_level_windows PrivacyInjector.desktop)
    (PrivacyInjector.can_open PrivacyInjector.desktop)
    (PrivacyInjector.remote_alloc PrivacyInjector.desktop)
    (PrivacyInjector.can_write PrivacyInjector.desktop)
    (PrivacyInjector.LoadLibraryW_address PrivacyInjector.desktop)
    (fun _ start parameter =>
       if start =? PrivacyInjector.LoadLibraryW_address PrivacyInjector.desktop
       then Some (PrivacyInjector.Exited PrivacyInjector.sample_base)
       else Some (PrivacyInjector.Exited
                    (fst (PrivacyPayload.HideAllProcessWindows parameter
                            PrivacyPayload.sample))))
    (PrivacyInjector.process_modules PrivacyInjector.desktop)
    (PrivacyInjector.local_module PrivacyInjector.desktop)
    (PrivacyInjector.HideAllProcessWindows_address PrivacyInjector.desktop)
    (PrivacyInjector.last_error PrivacyInjector.desktop).

End Injection.

(** ** The supervisor's entry point (a1_service_helper.cpp, [wWinMain]) *)

Module ServiceEntry.
Import Win32 StateMonad ServiceHelper.

Definition LOG_FILE_NAME : list Z := L "service_helper.log".

(** [CreateMutexW(NULL, TRUE, SERVICE_HELPER_MUTEX_NAME)]: no handle; a
    handle with [ERROR_ALREADY_EXISTS]; a handle to a new mutex. *)
Inductive MutexOutcome :=
| MutexFails
| MutexAlreadyExists
| MutexCreated.

(** What the process is started with. *)
Record Boot := mkBoot {
  SHGetFolderPathW : option (list Z);     (* CSIDL_LOCAL_APPDATA; None: it fails *)
  lpCmdLine : option (list Z);
  CreateMutexW : MutexOutcome
}.

Definition set_appDataDir (dir : list Z) (s : Sys) : Sys :=
  mkSys dir (g_logFilePath s) (clock s) (files s) (can_create s)
        (app_mutex_exists s) (snapshot s) (launch s) (trace s).
Definition set_logFilePath (path : list Z) (s : Sys) : Sys :=
  mkSys (g_appDataDir s) path (clock s) (files s) (can_create s)
        (app_mutex_exists s) (snapshot s) (launch s) (trace s).

(** The directory is created if need be; the call is not looked at. *)
Definition GetAppDataDir (boot : Boot) : list Z :=
  match SHGetFolderPathW boot with
  | Some path => path ++ L "\A1 Tools"
  | None => []
  end.

(** [while (true) { PerformCheck(); Sleep(CHECK_INTERVAL_MS); }], for as
    many rounds as [world] is long; before each round the machine changes
    as the round's element of [world] says, which stands for whatever has
    happened outside the program in the meantime. *)
Fixpoint service_loop (world : list (Sys -> Sys)) : M Sys unit :=
  match world with
  | [] => ret tt
  | outside :: rest =>
      modify outside ;;
      PerformCheck ;;
      Sleep CHECK_INTERVAL_MS ;;
      service_loop rest
  end.

(** The exit code, or [None] while the loop is still going after the
    rounds of [world]. *)
Definition wWinMain (boot : Boot) (world : list (Sys -> Sys)) : M Sys (option Z) :=
  modify (set_appDataDir (GetAppDataDir boot)) ;;
  s <- get ;;
  match g_appDataDir s with
  | [] => ret (Some 1)
  | _ :: _ =>
  modify (set_logFilePath (g_appDataDir s ++ L "\" ++ LOG_FILE_NAME)) ;;
  let checkOnce :=
    match lpCmdLine boot with
    | Some cmdLine => contains cmdLine (L "--check-once") || contains cmdLine (L "--verify")
    | None => false
    end in
  match CreateMutexW boot with
  | MutexFails | MutexAlreadyExists =>
      Log (L "Service helper already running, exiting") ;;
      ret (Some 0)
  | MutexCreated =>
      Log (L "A1 Tools Service Helper started") ;;
      if checkOnce then
        Log (L "Running in verify mode") ;;
        PerformCheck ;;
        ret (Some 0)
      else
        service_loop world ;;
        ret None
  end
  end.

(** *** Vocabulary for the properties *)

(** Going through events with a flag that a launch lowers and a sleep of
    a whole interval raises: [None] when a launch is met while the flag is
    down, the flag at the end otherwise. *)
Fixpoint spacing (rested : bool) (evs : list event) : option bool :=
  match evs with
  | [] => Some rested
  | EvCreateProcessW _ :: rest => if rested then spacing false rest else None
  | EvSleep ms :: rest => spacing (rested || (ms =? CHECK_INTERVAL_MS)) rest
  | _ :: rest => spacing rested rest
  end.

(** An operation that extends the trace by events among which at most [n]
    are launches. *)
Definition launches_at_most (n : nat) {A} (c : M Sys A) : Prop :=
  forall s, exists evs,
    trace (snd (c s)) = trace s ++ evs /\ (count is_launch evs <= n)%nat.

(** An outside change does not touch what the program has done. *)
Definition outside_change (change : Sys -> Sys) : Prop :=
  forall s, trace (change s) = trace s.

(** *** Samples *)

Definition sample_boot : Boot :=
  mkBoot (Some (L "C:\Users\kim\AppData\Local")) None MutexCreated.

(** The application is closed from outside, by removing it from the
    process list and releasing its mutex. *)
Definition app_closed (s : Sys) : Sys :=
  set_running false (Some [(4, L "System"); (812, L "explorer.exe")]) s.

End ServiceEntry.

(** ** Properties of the availability supervisor *)

Module ServiceHelperFacts.
Import Win32 StateMonad ServiceHelper.

(** *** Traces and counting *)

Lemma new_events_app s s' evs :
  trace s' = trace s ++ evs -> new_events s s' = evs.
Proof. intros H. unfold new_events. rewrite H. apply drop_app_length. Qed.

(** An age counts as stale from the first whole unit past the limit. *)
Lemma stale_iff (d unit limit : Z) :
  0 < unit -> 0 <= limit ->
  (d / unit >? limit) = ((limit + 1) * unit <=? d).
Proof.
  intros Hu Hl.
  destruct (Z.leb_spec ((limit + 1) * unit) d) as [H|H].
  - apply Z.gtb_lt. apply Z.lt_le_trans with (limit + 1); [lia|].
    apply Z.div_le_lower_bound; lia.
  - destruct (Z.gtb_spec (d / unit) limit) as [H'|H']; [|reflexivity].
    exfalso. assert (d / unit < limit + 1) by (apply Z.div_lt_upper_bound; lia). lia.
Qed.

(** *** What each step of the program does *)

Lemma Log_run m s : Log m s = (tt, add_events (logline s m) s).
Proof.
  unfold Log, bind, get, add_events, logline.
  destruct s as [d l c f cc am sn la tr]; cbn.
  destruct l; cbn; [rewrite app_nil_r|]; reflexivity.
Qed.

Lemma add_events_add evs1 evs2 s :
  add_events evs2 (add_events evs1 s) = add_events (evs1 ++ evs2) s.
Proof. unfold add_events, set_trace; cbn. now rewrite app_assoc. Qed.

Lemma emit_run e s : emit e s = (tt, add_events [e] s).
Proof. reflexivity. Qed.

Lemma isActive_run kind s :
  isActive kind s =
  match files s !! marker_path kind s with
  | None => (false, s)
  | Some t =>
      if threshold_ticks kind + unit_ticks kind <=? u64 (clock s - t)
      then (false,
            set_files (delete (marker_path kind s) (files s))
              (add_events
                 (logline s (match kind with
                             | UpdateMarker => L "Update lock file is stale, removing"
                             | RestartMarker => L "Restart lock file is stale, removing"
                             end) ++ [EvDeleteFileW (marker_path kind s)]) s))
      else (true,
            add_events (match kind with
                        | UpdateMarker => logline s (L "Update in progress detected")
                        | RestartMarker => []
                        end) s)
  end.
Proof.
  destruct kind; unfold isActive, IsUpdateInProgress, IsRestartPending, marker_path, marker_file;
    unfold bind at 1 2; unfold get, GetFileAttributesExW; cbn beta iota;
    destruct (files s !! _) as [t|]; try reflexivity;
    unfold bind at 1, GetSystemTimeAsFileTime; cbn beta iota zeta.
  - rewrite (stale_iff _ (10000000 * 60) UPDATE_LOCK_TIMEOUT_MINUTES) by (unfold UPDATE_LOCK_TIMEOUT_MINUTES; lia).
    change ((UPDATE_LOCK_TIMEOUT_MINUTES + 1) * (10000000 * 60))
      with (threshold_ticks UpdateMarker + unit_ticks UpdateMarker).
    destruct (_ <=? _).
    + unfold bind, DeleteFileW, bind, modify. rewrite Log_run, emit_run, add_events_add.
      reflexivity.
    + unfold bind. rewrite Log_run. reflexivity.
  - rewrite (stale_iff _ 10000000 RESTART_LOCK_TIMEOUT_SECONDS) by (unfold RESTART_LOCK_TIMEOUT_SECONDS; lia).
    change ((RESTART_LOCK_TIMEOUT_SECONDS + 1) * 10000000)
      with (threshold_ticks RestartMarker + unit_ticks RestartMarker).
    destruct (_ <=? _).
    + unfold bind, DeleteFileW, bind, modify. rewrite Log_run, emit_run, add_events_add.
      reflexivity.
    + unfold ret, add_events, set_trace. rewrite app_nil_r. destruct s; reflexivity.
Qed.

(** The three files of the program are different files. *)
Lemma exe_not_marker kind s : marker_path kind s <> app_exe_path s.
Proof.
  unfold marker_path, app_exe_path. intros H. apply app_inv_head in H.
  destruct kind; discriminate H.
Qed.

Lemma count_app p l1 l2 : count p (l1 ++ l2) = (count p l1 + count p l2)%nat.
Proof. unfold count. rewrite List.filter_app. apply length_app. Qed.

Lemma add_events_nil s : add_events [] s = s.
Proof. unfold add_events, set_trace. rewrite app_nil_r. now destruct s. Qed.

Lemma IsAppRunning_run s :
  exists logs, IsAppRunning s = (app_detected s, add_events logs s) /\
               forallb is_log logs = true.
Proof.
  unfold IsAppRunning, app_detected, OpenMutexW_app, CreateToolhelp32Snapshot, bind, ret.
  destruct (app_mutex_exists s); cbn [orb].
  - rewrite Log_run. eexists; split; [reflexivity|]. unfold logline; now destruct (g_logFilePath s).
  - destruct (snapshot s) as [entries|].
    + destruct (existsb _ entries); rewrite Log_run; (eexists; split; [reflexivity|]);
        unfold logline; now destruct (g_logFilePath s).
    + exists []. now rewrite add_events_nil.
Qed.

Lemma IsInstallerRunning_run s :
  exists logs, IsInstallerRunning s = (installer_listed s, add_events logs s) /\
               forallb is_log logs = true.
Proof.
  unfold IsInstallerRunning, installer_listed, CreateToolhelp32Snapshot, bind, ret.
  destruct (snapshot s) as [entries|].
  - destruct (existsb _ entries).
    + rewrite Log_run. eexists; split; [reflexivity|]. unfold logline; now destruct (g_logFilePath s).
    + exists []. now rewrite add_events_nil.
  - exists []. now rewrite add_events_nil.
Qed.

Lemma CreateRestartLock_run s :
  CreateRestartLock s =
  (tt, set_files (if can_create s
                  then <[marker_path RestartMarker s := clock s]> (files s)
                  else files s)
         (add_events [EvCreateFileW (marker_path RestartMarker s)] s)).
Proof.
  unfold CreateRestartLock, CreateFileW_always, bind, get, ret, emit, add_events; cbn.
  destruct (can_create s); [reflexivity|]. now destruct s.
Qed.

Lemma RemoveRestartLock_run s :
  RemoveRestartLock s =
  (tt, set_files (delete (marker_path RestartMarker s) (files s))
         (add_events [EvDeleteFileW (marker_path RestartMarker s)] s)).
Proof. reflexivity. Qed.

Lemma CreateProcessW_run cmd s :
  CreateProcessW cmd s =
  (match launch s with LaunchFails _ => None | LaunchStarts pid _ => Some pid end,
   match launch s with
   | LaunchStarts pid true =>
       set_running true (option_map (fun ps => ps ++ [(pid, APP_EXE_NAME)]) (snapshot s))
         (add_events [EvCreateProcessW cmd] s)
   | _ => add_events [EvCreateProcessW cmd] s
   end).
Proof.
  unfold CreateProcessW, bind, emit, add_events; cbn. destruct (launch s) as [|pid [|]]; reflexivity.
Qed.

Lemma Sleep_run ms s :
  Sleep ms s = (tt, set_clock (clock s + ms * 10000) (add_events [EvSleep ms] s)).
Proof. reflexivity. Qed.

Lemma count_log p logs :
  (forall m, p (EvLog m) = false) -> forallb is_log logs = true -> count p logs = 0%nat.
Proof.
  intros Hp. unfold count. induction logs as [|e logs IH]; [reflexivity|].
  cbn. destruct e; try discriminate. rewrite Hp. exact IH.
Qed.

Lemma logline_is_log s m : forallb is_log (logline s m) = true.
Proof. unfold logline. now destruct (g_logFilePath s). Qed.

Ltac sys_simpl :=
  cbn [fst snd g_appDataDir g_logFilePath clock files can_create app_mutex_exists
       snapshot launch trace set_files set_clock set_trace set_running add_events
       marker_path app_exe_path].

Ltac count_events :=
  rewrite <- ?app_assoc; eexists; split; [reflexivity|];
  rewrite ?count_app;
  repeat match goal with
    | |- context [count ?p (logline ?s ?m)] =>
        rewrite (count_log p (logline s m)) by (reflexivity || apply logline_is_log)
    | H : forallb is_log ?logs = true |- context [count ?p ?logs] =>
        rewrite (count_log p logs) by (reflexivity || exact H)
    end;
  unfold count; cbn [List.filter is_create_of is_delete_of is_launch];
  rewrite ?bool_decide_eq_true_2 by reflexivity;
  repeat split; reflexivity.

Lemma marker_path_add_events k e s : marker_path k (add_events e s) = marker_path k s.
Proof. reflexivity. Qed.
Lemma marker_path_set_files k f s : marker_path k (set_files f s) = marker_path k s.
Proof. reflexivity. Qed.
Lemma logline_add_events e s m : logline (add_events e s) m = logline s m.
Proof. reflexivity. Qed.
Lemma logline_set_files f s m : logline (set_files f s) m = logline s m.
Proof. reflexivity. Qed.
Create Rewrite HintDb sysdb.
#[local] Hint Rewrite marker_path_add_events marker_path_set_files
  logline_add_events logline_set_files : sysdb.

Ltac sys_simpl_in H :=
  cbn [fst snd g_appDataDir g_logFilePath clock files can_create app_mutex_exists
       snapshot launch trace set_files set_clock set_trace set_running add_events
       marker_path app_exe_path] in H.

(** *** Recovery *)

Lemma RecoverApp_events s :
  let rp := marker_path RestartMarker s in
  exists evs,
    trace (snd (RecoverApp s)) = trace s ++ evs /\
    count (is_create_of rp) evs = 1%nat /\
    count is_launch evs = (if exe_present s then 1 else 0)%nat /\
    count (is_delete_of rp) evs = 1%nat.
Proof.
  intros rp. unfold RecoverApp, bind, get, file_present.
  rewrite CreateRestartLock_run. sys_simpl.
  assert (Hpres : bool_decide (is_Some
            ((if can_create s then <[marker_path RestartMarker s:=clock s]> (files s) else files s)
               !! (g_appDataDir s ++ L "\" ++ APP_EXE_NAME))) = exe_present s).
  { unfold exe_present. destruct (can_create s); [|reflexivity].
    rewrite lookup_insert_ne by apply exe_not_marker. reflexivity. }
  rewrite Hpres. clear Hpres.
  destruct (exe_present s); cbn [negb].
  - rewrite Log_run, CreateProcessW_run. sys_simpl.
    destruct (launch s) as [e|pid alive] eqn:Hla.
    + unfold GetLastError. rewrite Log_run, RemoveRestartLock_run. sys_simpl.
      subst rp. count_events.
    + rewrite Log_run, Sleep_run.
      match goal with
      | |- context [IsAppRunning ?S] =>
          destruct (IsAppRunning_run S) as (logs & Heq & Hlogs); rewrite Heq; clear Heq
      end.
      assert (Hfin : forall (b : bool) S,
                 (if b then Log (L "App recovery successful")
                  else Log (L "App may not have started properly")) S
                 = (tt, add_events (logline S (if b then L "App recovery successful"
                                               else L "App may not have started properly")) S)).
      { intros [|] S; apply Log_run. }
      rewrite Hfin, RemoveRestartLock_run. clear Hfin.
      subst rp. destruct alive; sys_simpl; count_events.
  - rewrite Log_run, RemoveRestartLock_run. sys_simpl.
    subst rp. count_events.
Qed.

(** *** The cycle *)

Lemma age_below_threshold_not_stale kind c t :
  0 <= t <= c -> c < 2 ^ 64 -> c - t < threshold_ticks kind ->
  (threshold_ticks kind + unit_ticks kind <=? u64 (c - t)) = false.
Proof.
  intros Ht Hc Hage. apply Z.leb_gt. unfold u64.
  rewrite Z.mod_small by lia.
  assert (0 < unit_ticks kind) by (destruct kind; reflexivity). lia.
Qed.

(** C9, as amended.  A cycle run while an update marker exists whose
    age, taken as the unsigned 64-bit difference between now and its last
    write, is under 11 minutes does nothing but write log lines: the
    machine is left as it was, no file is created or deleted, and nothing
    is launched.  (A marker written at or before now and younger than 10
    minutes is such a marker.) *)
Theorem active_update_marker_skips_cycle (s : Sys) (t : Z) :
  files s !! marker_path UpdateMarker s = Some t ->
  u64 (clock s - t) < threshold_ticks UpdateMarker + unit_ticks UpdateMarker ->
  exists logs,
    PerformCheck s = (tt, add_events logs s) /\
    forallb is_log logs = true /\
    files (snd (PerformCheck s)) = files s /\
    new_events s (snd (PerformCheck s)) = logs /\
    count is_launch logs = 0%nat /\
    forall path, count (is_create_of path) logs = 0%nat /\
                 count (is_delete_of path) logs = 0%nat.
Proof.
  intros Hfile Hage.
  assert (Hrun : exists logs, PerformCheck s = (tt, add_events logs s) /\ forallb is_log logs = true).
  { unfold PerformCheck, bind. rewrite Log_run.
    change IsUpdateInProgress with (isActive UpdateMarker).
    rewrite isActive_run.
    change (files (add_events ?e s)) with (files s).
    change (marker_path UpdateMarker (add_events ?e s)) with (marker_path UpdateMarker s).
    rewrite Hfile.
    change (clock (add_events ?e s)) with (clock s).
    rewrite (proj2 (Z.leb_gt _ _) Hage).
    rewrite Log_run, !add_events_add.
    eexists; split; [reflexivity|].
    rewrite !forallb_app, !logline_is_log. reflexivity. }
  destruct Hrun as (logs & Hrun & Hlogs). exists logs. rewrite Hrun.
  split; [reflexivity|]. split; [assumption|]. split; [reflexivity|].
  split; [apply new_events_app; reflexivity|].
  split; [|intros path; split]; apply count_log; try assumption; reflexivity.
Qed.

Lemma isActive_result kind s : fst (isActive kind s) = marker_active kind s.
Proof.
  rewrite isActive_run. unfold marker_active.
  destruct (files s !! _); [|reflexivity]. now destruct (_ <=? _).
Qed.

Lemma set_files_same s : set_files (files s) s = s.
Proof. now destruct s. Qed.

Lemma isActive_false_run kind s :
  marker_active kind s = false ->
  exists evs,
    isActive kind s =
      (false, set_files (delete (marker_path kind s) (files s)) (add_events evs s)) /\
    count is_launch evs = 0%nat /\
    (forall p, count (is_create_of p) evs = 0%nat) /\
    (forall p, count (is_delete_of p) evs =
               if bool_decide (marker_path kind s = p)
                  && bool_decide (is_Some (files s !! marker_path kind s))
               then 1%nat else 0%nat).
Proof.
  unfold marker_active. intros H. rewrite isActive_run.
  destruct (files s !! marker_path kind s) as [t|] eqn:Hf.
  - apply negb_false_iff in H. rewrite H.
    eexists; split; [reflexivity|].
    rewrite (bool_decide_eq_true_2 (is_Some (Some t))) by (eexists; reflexivity).
    split; [|split]; intros; rewrite count_app, (count_log _ (logline _ _))
      by (reflexivity || apply logline_is_log); try reflexivity.
    unfold count; cbn. rewrite andb_true_r. now destruct (bool_decide _).
  - exists []. rewrite delete_id, add_events_nil, set_files_same by assumption.
    split; [reflexivity|]. split; [reflexivity|]. split; [reflexivity|]. intros p.
    rewrite (bool_decide_eq_false_2 (is_Some None)) by (intros [? ?]; discriminate).
    now rewrite andb_false_r.
Qed.

Lemma marker_files_differ k1 k2 s : k1 <> k2 -> marker_path k1 s <> marker_path k2 s.
Proof.
  unfold marker_path. intros Hk H. apply app_inv_head in H.
  destruct k1, k2; try discriminate H; now apply Hk.
Qed.

Lemma marker_active_ext kind s s' :
  g_appDataDir s' = g_appDataDir s -> clock s' = clock s ->
  files s' !! marker_path kind s = files s !! marker_path kind s ->
  marker_active kind s' = marker_active kind s.
Proof.
  unfold marker_active, marker_path. intros -> -> ->. reflexivity.
Qed.

(** C1, as amended.  In a cycle in which neither marker is active, no
    installer is running and the application is not detected, the restart
    marker is created exactly once; the application is launched exactly
    once when its executable is on disk and not at all when it is missing;
    and the restart marker is deleted exactly once by the recovery, after
    the one deletion of a stale restart marker when the cycle found one.
    None of this depends on what the launch does. *)
Theorem recovery_cycle (s : Sys) :
  fst (isActive UpdateMarker s) = false ->
  fst (isActive RestartMarker s) = false ->
  fst (IsInstallerRunning s) = false ->
  fst (IsAppRunning s) = false ->
  let evs := new_events s (snd (PerformCheck s)) in
  let restart_lock := marker_path RestartMarker s in
  count (is_create_of restart_lock) evs = 1%nat /\
  count is_launch evs = (if exe_present s then 1 else 0)%nat /\
  count (is_delete_of restart_lock) evs =
    (if bool_decide (is_Some (files s !! restart_lock)) then 2 else 1)%nat.
Proof.
  rewrite !isActive_result. intros Hup Hre Hin Happ evs rp. subst evs.
  destruct (IsInstallerRunning_run s) as (l3 & E3 & _). rewrite E3 in Hin. cbn [fst] in Hin. clear E3 l3.
  destruct (IsAppRunning_run s) as (l4 & E4 & _). rewrite E4 in Happ. cbn [fst] in Happ. clear E4 l4.
  unfold PerformCheck, bind. rewrite Log_run.
  change IsUpdateInProgress with (isActive UpdateMarker).
  change IsRestartPending with (isActive RestartMarker).
  match goal with |- context [isActive UpdateMarker ?S] =>
    destruct (isActive_false_run UpdateMarker S Hup) as (e1 & E1 & L1 & C1 & D1); rewrite E1; clear E1 end.
  cbv beta iota.
  match goal with |- context [isActive RestartMarker ?S] =>
    assert (Hre' : marker_active RestartMarker S = false) end.
  { rewrite <- Hre. apply marker_active_ext; [reflexivity|reflexivity|].
    sys_simpl. apply lookup_delete_ne, (marker_files_differ UpdateMarker RestartMarker s).
    discriminate. }
  match goal with |- context [isActive RestartMarker ?S] =>
    destruct (isActive_false_run RestartMarker S Hre') as (e2 & E2 & L2 & C2 & D2); rewrite E2; clear E2 end.
  cbv beta iota.
  match goal with |- context [IsInstallerRunning ?S] =>
    destruct (IsInstallerRunning_run S) as (l3 & E3 & Hl3); rewrite E3; clear E3;
    change (installer_listed S) with (installer_listed s) end.
  rewrite Hin. cbv beta iota.
  match goal with |- context [IsAppRunning ?S] =>
    destruct (IsAppRunning_run S) as (l4 & E4 & Hl4); rewrite E4; clear E4;
    change (app_detected S) with (app_detected s) end.
  rewrite Happ. cbv beta iota. cbn [negb]. rewrite Log_run.
  match goal with |- context [RecoverApp ?S] =>
    destruct (RecoverApp_events S) as (evR & ER & CR & LR & DR);
    assert (Hexe : exe_present S = exe_present s)
  end.
  { unfold exe_present, app_exe_path. sys_simpl.
    rewrite !lookup_delete_ne by apply exe_not_marker. reflexivity. }
  rewrite Hexe in LR. clear Hexe.
  sys_simpl. sys_simpl_in ER. sys_simpl_in CR. sys_simpl_in DR. sys_simpl_in D1. sys_simpl_in D2.
  autorewrite with sysdb in *.
  rewrite <- !app_assoc in ER.
  subst rp.
  rewrite (new_events_app _ _ _ ER).
  rewrite !count_app, CR, LR, DR, L1, L2, !C1, !C2, D1, D2.
  rewrite !(count_log _ (logline _ _)) by (reflexivity || apply logline_is_log).
  rewrite !(count_log _ l3), !(count_log _ l4) by (reflexivity || assumption).
  rewrite (bool_decide_eq_false_2 (marker_path UpdateMarker s = marker_path RestartMarker s))
    by (apply marker_files_differ; discriminate).
  rewrite (bool_decide_eq_true_2 (marker_path RestartMarker s = marker_path RestartMarker s))
    by reflexivity.
  rewrite lookup_delete_ne by (apply marker_files_differ; discriminate).
  cbn [andb]. split; [reflexivity|]. split; [reflexivity|].
  now destruct (bool_decide (is_Some (files s !! marker_path RestartMarker s))).
Qed.
(** *** The marker check *)

(** C2, as amended.  For either kind of marker, [isActive] answers false
    and does nothing when the file is absent.  When the file is present
    and the unsigned 64-bit difference between now and its last write has
    reached the first whole unit past the limit (11 minutes for the update
    marker, 31 seconds for the restart marker), it deletes the file and
    answers false, and a repeated call at any later time answers false
    again on the file already gone.  When the difference is short of that,
    it answers true and leaves the file in place. *)
Theorem marker_is_stale_from_the_next_whole_unit (kind : MarkerKind) (s : Sys) :
  (files s !! marker_path kind s = None -> isActive kind s = (false, s)) /\
  (forall t,
      files s !! marker_path kind s = Some t ->
      threshold_ticks kind + unit_ticks kind <= u64 (clock s - t) ->
      let s' := snd (isActive kind s) in
      fst (isActive kind s) = false /\
      files s' = delete (marker_path kind s) (files s) /\
      files s' !! marker_path kind s' = None /\
      forall now, isActive kind (set_clock now s') = (false, set_clock now s')) /\
  (forall t,
      files s !! marker_path kind s = Some t ->
      u64 (clock s - t) < threshold_ticks kind + unit_ticks kind ->
      fst (isActive kind s) = true /\
      files (snd (isActive kind s)) = files s).
Proof.
  split; [|split].
  - intros Hf. rewrite isActive_run, Hf. reflexivity.
  - intros t Hf Hage s'. subst s'. rewrite isActive_run, Hf.
    apply Z.leb_le in Hage. rewrite Hage. cbn [fst snd].
    split; [reflexivity|]. split; [reflexivity|].
    autorewrite with sysdb. sys_simpl.
    split; [apply lookup_delete_eq|].
    intros now. rewrite isActive_run. autorewrite with sysdb.
    change (marker_path kind (set_clock now ?x)) with (marker_path kind x).
    autorewrite with sysdb. sys_simpl.
    now rewrite lookup_delete_eq.
  - intros t Hf Hage. rewrite isActive_run, Hf.
    apply Z.leb_gt in Hage. rewrite Hage. split; reflexivity.
Qed.

Lemma marker_is_stale_from_the_next_whole_unit_witness :
  isActive UpdateMarker desktop_without_exe = (false, desktop_without_exe) /\
  fst (isActive UpdateMarker (desktop_with_marker UpdateMarker (11 * ticks_per_minute)))
    = false /\
  fst (isActive RestartMarker (desktop_with_marker RestartMarker (30 * ticks_per_second + 9999999)))
    = true.
Proof.
  split; [|split].
  - apply (proj1 (marker_is_stale_from_the_next_whole_unit UpdateMarker desktop_without_exe)).
    vm_compute; reflexivity.
  - apply (proj1 (proj2 (marker_is_stale_from_the_next_whole_unit UpdateMarker
                           (desktop_with_marker UpdateMarker (11 * ticks_per_minute))))
             sample_time).
    + vm_compute; reflexivity.
    + vm_compute; discriminate.
  - apply (proj2 (proj2 (marker_is_stale_from_the_next_whole_unit RestartMarker
                           (desktop_with_marker RestartMarker (30 * ticks_per_second + 9999999))))
             sample_time).
    + vm_compute; reflexivity.
    + vm_compute; reflexivity.
Defined.

(** C2 fails as stated: an update marker written ten and a half minutes
    ago is older than the 10-minute threshold, yet [isActive] answers true
    and the file stays. *)
Lemma marker_past_threshold_still_active :
  let s := desktop_with_marker UpdateMarker (10 * ticks_per_minute + 30 * ticks_per_second) in
  files s !! marker_path UpdateMarker s = Some sample_time /\
  threshold_ticks UpdateMarker < clock s - sample_time /\
  fst (isActive UpdateMarker s) = true /\
  files (snd (isActive UpdateMarker s)) !! marker_path UpdateMarker s = Some sample_time.
Proof. vm_compute. repeat split. Qed.

(** *** Witnesses and counterexamples for the cycle *)

Lemma active_update_marker_skips_cycle_witness :
  let s := desktop_with_marker UpdateMarker (9 * ticks_per_minute + 59 * ticks_per_second) in
  u64 (clock s - sample_time) < threshold_ticks UpdateMarker + unit_ticks UpdateMarker /\
  exists logs,
    PerformCheck s = (tt, add_events logs s) /\
    forallb is_log logs = true /\
    files (snd (PerformCheck s)) = files s /\
    new_events s (snd (PerformCheck s)) = logs /\
    count is_launch logs = 0%nat /\
    forall path, count (is_create_of path) logs = 0%nat /\
                 count (is_delete_of path) logs = 0%nat.
Proof.
  intros s. split; [vm_compute; reflexivity|].
  apply (active_update_marker_skips_cycle s sample_time).
  - vm_compute; reflexivity.
  - vm_compute; reflexivity.
Defined.

(** C9 fails as stated: an update marker stamped one second ahead of the
    clock has an age under 10 minutes, yet the unsigned difference is out
    of range, the marker is deleted as stale and the cycle goes on to
    recovery: it creates the restart marker and launches the
    application. *)
Lemma future_update_marker_is_taken_for_stale :
  let s := Supervision.desktop_with_future_marker in
  let evs := new_events s (snd (PerformCheck s)) in
  files s !! marker_path UpdateMarker s = Some (sample_time + ticks_per_second) /\
  clock s - (sample_time + ticks_per_second) < threshold_ticks UpdateMarker /\
  fst (isActive UpdateMarker s) = false /\
  files (snd (PerformCheck s)) !! marker_path UpdateMarker s = None /\
  count (is_create_of (marker_path RestartMarker s)) evs = 1%nat /\
  count is_launch evs = 1%nat.
Proof. vm_compute. repeat split. Qed.

Lemma recovery_cycle_witness :
  let s := desktop_with_exe in
  let evs := new_events s (snd (PerformCheck s)) in
  let restart_lock := marker_path RestartMarker s in
  count (is_create_of restart_lock) evs = 1%nat /\
  count is_launch evs = (if exe_present s then 1 else 0)%nat /\
  count (is_delete_of restart_lock) evs =
    (if bool_decide (is_Some (files s !! restart_lock)) then 2 else 1)%nat.
Proof.
  apply (recovery_cycle desktop_with_exe); vm_compute; reflexivity.
Defined.

(** C1 fails as stated: with no marker, no installer and no application,
    but no executable next to the markers either, the cycle creates and
    removes the restart marker and attempts no launch. *)
Lemma missing_executable_is_not_launched :
  let s := desktop_without_exe in
  let evs := new_events s (snd (PerformCheck s)) in
  fst (isActive UpdateMarker s) = false /\
  fst (isActive RestartMarker s) = false /\
  fst (IsInstallerRunning s) = false /\
  fst (IsAppRunning s) = false /\
  count (is_create_of (marker_path RestartMarker s)) evs = 1%nat /\
  count (is_delete_of (marker_path RestartMarker s)) evs = 1%nat /\
  count is_launch evs <> 1%nat.
Proof. vm_compute. repeat split. discriminate. Qed.

End ServiceHelperFacts.

(** ** Properties of the remote injector *)

Module PrivacyInjectorFacts.
Import Win32 StateMonad PrivacyInjector.

(** *** Wide strings *)

Lemma towlower_idem c : towlower (towlower c) = towlower c.
Proof.
  unfold towlower.
  destruct ((65 <=? c) && (c <=? 90)) eqn:E; [|now rewrite E].
  apply andb_true_iff in E as [E1 E2]. apply Z.leb_le in E1, E2.
  replace ((65 <=? c + 32) && (c + 32 <=? 90)) with false; [reflexivity|].
  symmetry. apply andb_false_iff. right. apply Z.leb_gt. lia.
Qed.

Lemma ToLowerCase_idem str : ToLowerCase (ToLowerCase str) = ToLowerCase str.
Proof.
  unfold ToLowerCase. rewrite List.map_map. apply List.map_ext, towlower_idem.
Qed.

Lemma starts_with_refl a : starts_with a a = true.
Proof. induction a as [|x a IH]; [reflexivity|]. cbn. now rewrite Z.eqb_refl. Qed.

Lemma contains_refl a : contains a a = true.
Proof. unfold contains. destruct a; cbn; [reflexivity|]. now rewrite Z.eqb_refl, starts_with_refl. Qed.

(** *** What the private operations leave alone *)

Lemma keeps_ret {A} (a : A) : keeps (ret a).
Proof. intros s. repeat split. Qed.
Lemma keeps_get : keeps get.
Proof. intros s. repeat split. Qed.
Lemma keeps_emit e : keeps (emit e).
Proof. intros s. repeat split. Qed.
Lemma keeps_bind {A B} (c : M Sys A) (k : A -> M Sys B) :
  keeps c -> (forall a, keeps (k a)) -> keeps (bind c k).
Proof.
  intros Hc Hk s. unfold bind. destruct (c s) as [a s'] eqn:E.
  specialize (Hc s). rewrite E in Hc. cbn in Hc. destruct Hc as (H1 & H2 & H3).
  destruct (Hk a s') as (K1 & K2 & K3). repeat split; congruence.
Qed.
Lemma keeps_record pid h :
  keeps (modify (fun s => mkSys (payload_dll_path_ s) (<[pid := h]> (injected_processes_ s))
                                (hidden_process_names_ s) (initialized_ s) (trace s))).
Proof. intros s. repeat split. Qed.

Ltac keeps_step :=
  first [ apply keeps_ret | apply keeps_get | apply keeps_emit | apply keeps_record
        | apply keeps_bind; [|intros ?]
        | match goal with
          | |- keeps (if ?b then _ else _) => destruct b
          | |- keeps (match ?x with _ => _ end) => destruct x
          end ].

Lemma InjectDll_keeps env pid : keeps (InjectDll env pid).
Proof.
  unfold InjectDll, OpenProcess, VirtualAllocEx, WriteProcessMemory, VirtualFreeEx,
    CloseHandle, CreateRemoteThread, WaitForSingleObject, OutputDebugStringW.
  cbv zeta. repeat keeps_step.
Qed.


Lemma steady_ret {A} (a : A) : steady (ret a).
Proof. intros s. repeat split. Qed.
Lemma steady_get : steady get.
Proof. intros s. repeat split. Qed.
Lemma steady_emit e : steady (emit e).
Proof. intros s. repeat split. Qed.
Lemma steady_bind {A B} (c : M Sys A) (k : A -> M Sys B) :
  steady c -> (forall a, steady (k a)) -> steady (bind c k).
Proof.
  intros Hc Hk s. unfold bind. destruct (c s) as [a s'] eqn:E.
  specialize (Hc s). rewrite E in Hc. cbn in Hc. destruct Hc as (H1 & H2 & H3 & H4).
  destruct (Hk a s') as (K1 & K2 & K3 & K4).
  repeat split; try congruence.
  intros Hp. rewrite K4, H4; congruence.
Qed.

Lemma InjectDll_unloaded env pid s :
  payload_dll_path_ s = [] -> InjectDll env pid s = (false, s).
Proof. intros H. unfold InjectDll, bind, get. now rewrite H. Qed.

Lemma InjectDll_steady env pid : steady (InjectDll env pid).
Proof.
  intros s. destruct (InjectDll_keeps env pid s) as (H1 & H2 & H3).
  repeat split; try assumption.
  intros Hp. now rewrite InjectDll_unloaded.
Qed.

Ltac steady_step :=
  first [ apply steady_ret | apply steady_get | apply steady_emit | apply InjectDll_steady
        | apply steady_bind; [|intros ?]
        | match goal with
          | |- steady (if ?b then _ else _) => destruct b
          | |- steady (match ?x with _ => _ end) => destruct x
          end ].

Lemma CallSetWindowVisibility_steady env pid hwnd hide :
  steady (CallSetWindowVisibility env pid hwnd hide).
Proof.
  unfold CallSetWindowVisibility, OpenProcess, LoadLibraryW, FreeLibrary,
    CloseHandle, CreateRemoteThread, WaitForSingleObject, OutputDebugStringW.
  cbv zeta. repeat steady_step.
Qed.

Lemma HideProcessWindowsByPid_steady env pid hide :
  steady (HideProcessWindowsByPid env pid hide).
Proof.
  unfold HideProcessWindowsByPid, OutputDebugStringW. cbv zeta.
  repeat first [apply CallSetWindowVisibility_steady | steady_step].
Qed.

Lemma for_each_pid_steady env pids hide n : steady (for_each_pid env pids hide n).
Proof.
  revert n. induction pids as [|pid pids IH]; intros n; cbn [for_each_pid].
  - apply steady_ret.
  - apply steady_bind; [apply HideProcessWindowsByPid_steady | intros b; apply IH].
Qed.

Lemma for_each_pid_ge env pids hide n s :
  n <= fst (for_each_pid env pids hide n s).
Proof.
  revert n s. induction pids as [|pid pids IH]; intros n s; cbn [for_each_pid].
  - cbn. lia.
  - unfold bind. destruct (HideProcessWindowsByPid env pid hide s) as [b s'].
    specialize (IH (if b then n + 1 else n) s'). destruct b; lia.
Qed.

Lemma HideProcessWindows_effect env name hide s :
  let r := HideProcessWindows env name hide s in
  payload_dll_path_ (snd r) = payload_dll_path_ s /\
  initialized_ (snd r) = initialized_ s /\
  (payload_dll_path_ s = [] -> injected_processes_ (snd r) = injected_processes_ s) /\
  0 <= fst r /\
  hidden_process_names_ (snd r) =
    if fst r >? 0 then <[ToLowerCase name := hide]> (hidden_process_names_ s)
    else hidden_process_names_ s.
Proof.
  unfold HideProcessWindows, bind, get. destruct (initialized_ s) eqn:Hi; cbn [negb].
  - pose proof (for_each_pid_steady env (GetProcessIdsByName env name) hide 0 s) as (H1 & H2 & H3 & H4).
    pose proof (for_each_pid_ge env (GetProcessIdsByName env name) hide 0 s) as Hge.
    destruct (for_each_pid env (GetProcessIdsByName env name) hide 0 s) as [n s'].
    cbn [fst snd] in *. destruct (n >? 0) eqn:E; cbn; rewrite ?H2, ?E; repeat split; try congruence; try assumption.
  - cbn [fst snd ret]. repeat split; first [assumption | reflexivity].
Qed.

(** *** Invariants of reachable states *)

Lemma constructed_consistent : consistent constructed.
Proof.
  split; [reflexivity|]. intros key [v Hv]. cbn in Hv. rewrite lookup_empty in Hv. discriminate.
Qed.

Lemma RestoreAll_cleared env s :
  exists s1, RestoreAll env s = (tt, cleared s1).
Proof.
  unfold RestoreAll, bind, get, modify.
  destruct (restore_each env _ s) as [[] s1]. exists s1. reflexivity.
Qed.

Lemma perform_consistent env c s :
  consistent s -> consistent (snd (perform env c s)).
Proof.
  intros [Hp Hk]. destruct c as [path|name hide|pid hide| |name|]; cbn [perform].
  - unfold bind, Initialize. destruct (file_found env path) eqn:Hf; cbn.
    + split; cbn [payload_dll_path_ hidden_process_names_]; [|exact Hk].
      intros ->. discriminate Hf.
    + split; assumption.
  - unfold bind, ret.
    pose proof (HideProcessWindows_effect env name hide s) as (H1 & H2 & H3 & H4 & H5).
    destruct (HideProcessWindows env name hide s) as [n s']. cbn [fst snd] in *.
    split.
    + intros Hs'. rewrite H1 in Hs'. rewrite H3 by assumption. auto.
    + intros key. rewrite H5. destruct (n >? 0); [|apply Hk].
      destruct (decide (ToLowerCase name = key)) as [<-|Hne].
      * intros _. apply ToLowerCase_idem.
      * rewrite lookup_insert_ne by assumption. apply Hk.
  - unfold bind, ret.
    pose proof (HideProcessWindowsByPid_steady env pid hide s) as (H1 & H2 & H3 & H4).
    destruct (HideProcessWindowsByPid env pid hide s) as [b s']. cbn [fst snd] in *.
    split.
    + intros Hs'. rewrite H1 in Hs'. rewrite H4 by assumption. auto.
    + rewrite H2. exact Hk.
  - split; assumption.
  - split; assumption.
  - unfold bind, ret. destruct (RestoreAll_cleared env s) as [s1 ->].
    unfold cleared; split; cbn [snd payload_dll_path_ injected_processes_ hidden_process_names_];
      [reflexivity|].
    intros key [v Hv]. rewrite lookup_empty in Hv. discriminate.
Qed.

Lemma run_consistent script s :
  consistent s -> consistent (snd (run script s)).
Proof.
  revert s. induction script as [|[env c] rest IH]; intros s Hs; [exact Hs|].
  cbn [run]. pose proof (perform_consistent env c s Hs) as Hs'.
  destruct (perform env c s) as [r s']. cbn [snd] in Hs'.
  specialize (IH s' Hs'). destruct (run rest s') as [log s'']. exact IH.
Qed.

Lemma reachable_consistent s : reachable s -> consistent s.
Proof. intros [script <-]. apply run_consistent, constructed_consistent. Qed.

(** *** The map in key order *)

Lemma in_key_order_lookup (m : gmap (list Z) bool) k v :
  In (k, v) (in_key_order m) <-> m !! k = Some v.
Proof.
  unfold in_key_order. rewrite <- list_elem_of_In, merge_sort_Permutation.
  apply elem_of_map_to_list.
Qed.

Lemma in_key_order_NoDup (m : gmap (list Z) bool) :
  List.NoDup (List.map fst (in_key_order m)).
Proof.
  apply NoDup_ListNoDup. change (NoDup ((in_key_order m).*1)).
  unfold in_key_order. rewrite merge_sort_Permutation. apply NoDup_fst_map_to_list.
Qed.

Lemma in_key_order_empty : in_key_order ∅ = [].
Proof. unfold in_key_order. now rewrite map_to_list_empty. Qed.

(** *** RestoreAll *)

Lemma restore_each_spec env (es : list (list Z * bool)) s :
  List.NoDup (List.map fst es) ->
  (forall k v, In (k, v) es -> hidden_process_names_ s !! k = Some v) ->
  (forall k v, In (k, v) es -> ToLowerCase k = k) ->
  restore_each env (List.map fst es) s =
    (tt, fold_left (show_again env) (List.map fst (List.filter (fun pair => snd pair) es)) s).
Proof.
  revert s. induction es as [|[k v] es IH]; intros s Hnd Hlook Hlow; [reflexivity|].
  cbn [List.map fst restore_each]. unfold bind at 1. unfold get at 1. cbv beta iota.
  inversion Hnd as [|? ? Hnotin Hnd']; subst.
  rewrite (Hlook k v) by (left; reflexivity).
  destruct v; cbn [List.filter snd List.map fst fold_left].
  - rewrite bool_decide_eq_true_2 by reflexivity.
    unfold bind, ret. unfold show_again at 2.
    pose proof (HideProcessWindows_effect env k false s) as (_ & _ & _ & _ & H5).
    destruct (HideProcessWindows env k false s) as [n s1]. cbn [fst snd] in *.
    apply IH; [assumption| |intros; eapply Hlow; right; eassumption].
    intros k' v' Hin. rewrite H5.
    assert (k <> k') as Hne.
    { intros <-. apply Hnotin. change k with (fst (k, v')). now apply List.in_map. }
    destruct (n >? 0).
    + rewrite (Hlow k true) by (left; reflexivity).
      rewrite lookup_insert_ne by assumption. apply Hlook. now right.
    + apply Hlook. now right.
  - rewrite bool_decide_eq_false_2 by discriminate.
    unfold bind, ret. cbv beta iota.
    apply IH; [assumption| |intros; eapply Hlow; right; eassumption].
    intros k' v' Hin. apply Hlook. now right.
Qed.

(** C6.  [RestoreAll] calls [HideProcessWindows(name, false)] for exactly
    the names marked hidden when it starts, in key order, then clears both
    maps; [GetHiddenProcesses] right after it returns the empty list. *)
Theorem restoreAll_shows_every_hidden_name (env : Machine) (s : Sys) :
  reachable s ->
  RestoreAll env s =
    (tt, cleared (fold_left (show_again env) (GetHiddenProcesses s) s)) /\
  GetHiddenProcesses (snd (RestoreAll env s)) = [].
Proof.
  intros Hr. apply reachable_consistent in Hr as [_ Hlow].
  assert (E : RestoreAll env s =
              (tt, cleared (fold_left (show_again env) (GetHiddenProcesses s) s))).
  { unfold RestoreAll, bind, get, modify. cbv beta iota.
    rewrite restore_each_spec.
    - reflexivity.
    - apply in_key_order_NoDup.
    - intros k v. apply in_key_order_lookup.
    - intros k v Hin. apply Hlow. exists v. now apply in_key_order_lookup. }
  split; [exact E|]. rewrite E. unfold GetHiddenProcesses, cleared.
  cbn [snd hidden_process_names_]. now rewrite in_key_order_empty.
Qed.

(** *** Initialisation guard *)

(** C10.  Before [Initialize] has succeeded, [HideProcessWindows] returns
    0 and changes nothing: not the hidden names, not the injection
    records, and it makes no call. *)
Theorem uninitialized_hide_is_noop (env : Machine) (name : list Z) (hide : bool) (s : Sys) :
  initialized_ s = false ->
  HideProcessWindows env name hide s = (0, s).
Proof. intros H. unfold HideProcessWindows, bind, get. now rewrite H. Qed.

(** *** Injection records *)

Lemma new_events_same s : new_events s s = [].
Proof. unfold new_events. apply drop_all. Qed.

Lemma InjectDll_recorded env pid s :
  payload_dll_path_ s <> [] -> is_Some (injected_processes_ s !! pid) ->
  InjectDll env pid s = (true, s).
Proof.
  intros Hp Hrec. unfold InjectDll, bind, get.
  destruct (payload_dll_path_ s); [congruence|].
  now rewrite bool_decide_eq_true_2.
Qed.

Lemma recorded_payload s pid :
  consistent s -> is_Some (injected_processes_ s !! pid) -> payload_dll_path_ s <> [].
Proof.
  intros [Hp _] [h Hh] Hnil. rewrite (Hp Hnil), lookup_empty in Hh. discriminate.
Qed.

(** C8.  A request to inject into a process that has a record answers
    true at once: the object is left as it is, so the record is reused and
    stays the only one for the process, and no call is made (the process
    is not opened, no memory is allocated, no thread is created). *)
Theorem repeated_injection_reuses_record (env : Machine) (pid : Z) (s : Sys) :
  reachable s ->
  is_Some (injected_processes_ s !! pid) ->
  InjectDll env pid s = (true, s) /\
  new_events s (snd (InjectDll env pid s)) = [] /\
  injected_processes_ (snd (InjectDll env pid s)) = injected_processes_ s.
Proof.
  intros Hr Hrec.
  assert (E : InjectDll env pid s = (true, s)).
  { apply InjectDll_recorded; [|assumption].
    eapply recorded_payload; [apply reachable_consistent|]; eassumption. }
  rewrite E. split; [reflexivity|]. split; [apply new_events_same|reflexivity].
Qed.

(** *** Looking processes up by name *)

Lemma eqb_contains a b : wstr_eqb a b || contains a b = contains a b.
Proof.
  unfold wstr_eqb. destruct (bool_decide_reflect (a = b)) as [->|]; [|reflexivity].
  now rewrite contains_refl.
Qed.

(** C7.  On every process table the queries [notepad] and [Notepad.exe]
    give the same list of process ids; in general a process is returned
    exactly when its executable name, in lower case, contains the query in
    lower case with [.exe] appended where it was missing. *)
Theorem lookup_ignores_case_and_extension (env : Machine) :
  GetProcessIdsByName env (L "notepad") = GetProcessIdsByName env (L "Notepad.exe") /\
  forall name pid,
    In pid (GetProcessIdsByName env name) <->
    exists entries exeFile,
      process_snapshot env = Some entries /\
      In (pid, exeFile) entries /\
      contains (ToLowerCase exeFile) (search_key name) = true.
Proof.
  split; [reflexivity|].
  intros name pid. unfold GetProcessIdsByName. fold (search_key name).
  destruct (process_snapshot env) as [entries|].
  - rewrite List.in_map_iff. split.
    + intros ([p exe] & <- & Hin). apply List.filter_In in Hin as [Hin Hm].
      cbn [snd] in Hm. rewrite eqb_contains in Hm.
      exists entries, exe. auto.
    + intros (entries' & exe & [= <-] & Hin & Hm).
      exists (pid, exe). split; [reflexivity|]. apply List.filter_In.
      split; [assumption|]. cbn [snd]. now rewrite eqb_contains.
  - split; [intros []|]. intros (? & ? & [=] & _).
Qed.

(** *** Hiding a process that shows no window *)

Lemma no_events_added s : add_events [] s = s.
Proof. unfold add_events. rewrite app_nil_r. now destruct s. Qed.

Lemma events_added_twice evs1 evs2 s :
  add_events evs2 (add_events evs1 s) = add_events (evs1 ++ evs2) s.
Proof. unfold add_events; cbn. now rewrite app_assoc. Qed.

Lemma HideProcessWindowsByPid_no_windows env pid hide s :
  GetProcessWindows env pid = [] ->
  exists evs, HideProcessWindowsByPid env pid hide s = (false, add_events evs s).
Proof.
  intros H. unfold HideProcessWindowsByPid. rewrite H.
  eexists. reflexivity.
Qed.

Lemma for_each_pid_no_windows env pids hide n s :
  (forall pid, In pid pids -> GetProcessWindows env pid = []) ->
  exists evs, for_each_pid env pids hide n s = (n, add_events evs s).
Proof.
  revert s. induction pids as [|pid pids IH]; intros s Hw; cbn [for_each_pid].
  - exists []. now rewrite no_events_added.
  - destruct (HideProcessWindowsByPid_no_windows env pid hide s) as [e1 E1];
      [apply Hw; now left|].
    unfold bind. rewrite E1.
    destruct (IH (add_events e1 s)) as [e2 E2]; [intros; apply Hw; now right|].
    rewrite E2, events_added_twice. eexists; reflexivity.
Qed.

Lemma HideProcessWindows_no_windows env name hide s :
  (forall pid, In pid (GetProcessIdsByName env name) -> GetProcessWindows env pid = []) ->
  exists evs, HideProcessWindows env name hide s = (0, add_events evs s).
Proof.
  intros Hw. unfold HideProcessWindows, bind, get.
  destruct (initialized_ s); cbn [negb].
  - destruct (for_each_pid_no_windows env _ hide 0 s Hw) as [evs ->].
    exists evs. reflexivity.
  - exists []. now rewrite no_events_added.
Qed.

(** *** Where the hidden flag comes from *)

Lemma hidden_flag_origin script s key :
  hidden_process_names_ (snd (run script s)) !! key = Some true ->
  hidden_process_names_ s !! key = Some true \/
  exists name n,
    In (Call_HideProcessWindows name true, RInt n) (fst (run script s)) /\
    ToLowerCase name = key /\ 0 < n.
Proof.
  revert s. induction script as [|[env c] rest IH]; intros s; [now left|].
  cbn [run].
  destruct (perform env c s) as [r s'] eqn:Ep.
  specialize (IH s'). destruct (run rest s') as [log s''] eqn:Er. cbn [fst snd] in *.
  intros Hfin. destruct (IH Hfin) as [Hs'|(name & n & Hin & Hname & Hn)].
  2:{ right. exists name, n. split; [now right|]. auto. }
  clear IH Hfin.
  destruct c as [path|name hide|pid hide| |name|]; cbn [perform] in Ep; unfold bind, ret in Ep.
  - left. unfold Initialize in Ep.
    destruct (file_found env path); injection Ep as <- <-; exact Hs'.
  - pose proof (HideProcessWindows_effect env name hide s) as (_ & _ & _ & Hge & H5).
    destruct (HideProcessWindows env name hide s) as [n s1]. cbn [fst snd] in *.
    injection Ep as <- <-. rewrite H5 in Hs'.
    destruct (n >? 0) eqn:En; [|now left].
    destruct (decide (ToLowerCase name = key)) as [Hk|Hk].
    + subst key. rewrite lookup_insert_eq in Hs'. injection Hs' as ->.
      right. exists name, n. split; [now left|]. split; [reflexivity|]. now apply Z.gtb_lt.
    + rewrite lookup_insert_ne in Hs' by assumption. now left.
  - pose proof (HideProcessWindowsByPid_steady env pid hide s) as (_ & H2 & _).
    destruct (HideProcessWindowsByPid env pid hide s) as [b s1]. cbn [snd] in H2.
    injection Ep as <- <-. left. now rewrite <- H2.
  - injection Ep as <- <-. now left.
  - injection Ep as <- <-. now left.
  - destruct (RestoreAll_cleared env s) as [s1 E]. rewrite E in Ep.
    injection Ep as <- <-. unfold cleared in Hs'. cbn [hidden_process_names_] in Hs'.
    rewrite lookup_empty in Hs'. discriminate.
Qed.

(** C3, as amended.  When none of the processes a name resolves to shows
    a window, [HideProcessWindows(name, true)] returns 0 and leaves both
    maps as they were, so [IsProcessHidden(name)] answers what it answered
    before.  And in any history of the object, [IsProcessHidden(name)]
    answers true only if some [HideProcessWindows(name', true)] with the
    same lower-cased name has returned a positive count. *)
Theorem hidden_state_needs_an_affected_hide :
  (forall env name s,
      (forall pid, In pid (GetProcessIdsByName env name) -> GetProcessWindows env pid = []) ->
      let r := HideProcessWindows env name true s in
      fst r = 0 /\
      hidden_process_names_ (snd r) = hidden_process_names_ s /\
      injected_processes_ (snd r) = injected_processes_ s /\
      IsProcessHidden name (snd r) = IsProcessHidden name s) /\
  (forall script name,
      IsProcessHidden name (snd (run script constructed)) = true ->
      exists name' n,
        In (Call_HideProcessWindows name' true, RInt n) (fst (run script constructed)) /\
        ToLowerCase name' = ToLowerCase name /\ 0 < n).
Proof.
  split.
  - intros env name s Hw r. subst r.
    destruct (HideProcessWindows_no_windows env name true s Hw) as [evs ->].
    repeat split.
  - intros script name Hh. unfold IsProcessHidden in Hh.
    destruct (hidden_process_names_ _ !! ToLowerCase name) as [[|]|] eqn:E; try discriminate.
    destruct (hidden_flag_origin script constructed _ E) as [H0|H]; [|exact H].
    cbn in H0. rewrite lookup_empty in H0. discriminate.
Qed.

(** *** The remote call *)

Lemma new_events_add evs s : new_events s (add_events evs s) = evs.
Proof. unfold new_events, add_events; cbn. apply drop_app_length. Qed.

Ltac sys_simpl :=
  cbn [negb fst snd payload_dll_path_ injected_processes_ hidden_process_names_
       initialized_ trace].

Ltac leaf :=
  unfold add_events; rewrite <- ?app_assoc; eexists; (split; [reflexivity|]);
  cbn [app In]; split;
  [ intros p start param Hin;
    repeat (destruct Hin as [Hin|Hin]; try discriminate Hin);
    try contradiction; injection Hin as <- <- <-; auto
  | intros; first [congruence | auto 10] ].

Lemma remote_call_trace env pid hwnd hide s :
  InjectDll env pid s = (true, s) ->
  exists evs,
    snd (CallSetWindowVisibility env pid hwnd hide s) = add_events evs s /\
    (forall p start param,
        In (EvCreateRemoteThread p start param) evs ->
        p = pid /\ start = remote_hide_all env pid s /\ param = flag_word hide) /\
    (can_open env pid = true -> payload_module_in env pid <> 0 ->
     local_module env (payload_dll_path_ s) <> 0 ->
     HideAllProcessWindows_address env (local_module env (payload_dll_path_ s)) <> 0 ->
     In (EvCreateRemoteThread pid (remote_hide_all env pid s) (flag_word hide)) evs).
Proof.
  intros Hinj. unfold CallSetWindowVisibility. unfold bind at 1. rewrite Hinj. cbn [negb].
  unfold OpenProcess, LoadLibraryW, FreeLibrary, CloseHandle, CreateRemoteThread,
    WaitForSingleObject, OutputDebugStringW, emit, modify, bind, get, ret.
  fold (payload_module_in env pid). cbv beta iota zeta.
  fold (flag_word hide).
  destruct (can_open env pid) eqn:Hopen; sys_simpl.
  2:{ leaf. }
  destruct (payload_module_in env pid =? 0) eqn:Hmod; sys_simpl.
  { apply Z.eqb_eq in Hmod. leaf. }
  destruct (local_module env (payload_dll_path_ s) =? 0) eqn:Hloc; sys_simpl.
  { apply Z.eqb_eq in Hloc. leaf. }
  destruct (HideAllProcessWindows_address env (local_module env (payload_dll_path_ s)) =? 0)
    eqn:Hproc; sys_simpl.
  { apply Z.eqb_eq in Hproc. leaf. }
  fold (hide_all_offset env s). fold (remote_hide_all env pid s).
  destruct (remote_thread env pid (remote_hide_all env pid s) (flag_word hide))
    as [hThread|]; sys_simpl; leaf.
Qed.

(** C5, as amended.  For a hide/show call against a process that has an
    injection record, every remote thread the call starts is started in
    that process, with the flag as its argument, at the base of the module
    named [privacy_payload.dll] as enumerated in the target at the time of
    the call, plus the offset of [HideAllProcessWindows] in a fresh local
    load, both sums taken at pointer width; and the thread is started
    whenever the process opens, the module is listed and the local load
    and symbol lookup succeed.  The value kept in the record is not
    read. *)
Theorem remote_call_starts_in_enumerated_module
    (env : Machine) (pid hwnd : Z) (hide : bool) (s : Sys) :
  reachable s ->
  is_Some (injected_processes_ s !! pid) ->
  let evs := new_events s (snd (CallSetWindowVisibility env pid hwnd hide s)) in
  (forall p start param,
      In (EvCreateRemoteThread p start param) evs ->
      p = pid /\ start = remote_hide_all env pid s /\ param = flag_word hide) /\
  (can_open env pid = true -> payload_module_in env pid <> 0 ->
   local_module env (payload_dll_path_ s) <> 0 ->
   HideAllProcessWindows_address env (local_module env (payload_dll_path_ s)) <> 0 ->
   In (EvCreateRemoteThread pid (remote_hide_all env pid s) (flag_word hide)) evs).
Proof.
  intros Hr Hrec evs.
  assert (E : InjectDll env pid s = (true, s)).
  { apply InjectDll_recorded; [|assumption].
    eapply recorded_payload; [apply reachable_consistent|]; eassumption. }
  destruct (remote_call_trace env pid hwnd hide s E) as (evs' & Es & H1 & H2).
  subst evs. rewrite Es, new_events_add. split; assumption.
Qed.

Lemma remote_call_starts_in_enumerated_module_witness :
  let evs := new_events notepad_hidden
               (snd (CallSetWindowVisibility desktop 42 1001 false notepad_hidden)) in
  (forall p start param,
      In (EvCreateRemoteThread p start param) evs ->
      p = 42 /\ start = remote_hide_all desktop 42 notepad_hidden /\
      param = flag_word false) /\
  (can_open desktop 42 = true -> payload_module_in desktop 42 <> 0 ->
   local_module desktop (payload_dll_path_ notepad_hidden) <> 0 ->
   HideAllProcessWindows_address desktop
     (local_module desktop (payload_dll_path_ notepad_hidden)) <> 0 ->
   In (EvCreateRemoteThread 42 (remote_hide_all desktop 42 notepad_hidden)
         (flag_word false)) evs).
Proof.
  apply (remote_call_starts_in_enumerated_module desktop 42 1001 false notepad_hidden).
  - exists hide_notepad. reflexivity.
  - exists (u32 sample_base). vm_compute. reflexivity.
Defined.

(** C5 fails as stated: in a 64-bit target the record holds the exit code
    of the loader thread, the low 32 bits of the module base, and the
    remote thread is started from the enumerated base instead. *)
Lemma recorded_base_is_not_where_the_thread_starts :
  injected_processes_ notepad_hidden !! 42 = Some 0x12340000 /\
  hide_all_offset desktop notepad_hidden = 0x1000 /\
  In (EvCreateRemoteThread 42 0x7FFB12341000 0)
     (new_events notepad_hidden
        (snd (CallSetWindowVisibility desktop 42 1001 false notepad_hidden))) /\
  0x7FFB12341000 <> u64 (0x12340000 + 0x1000).
Proof.
  split; [vm_compute; reflexivity|]. split; [vm_compute; reflexivity|].
  split; [|vm_compute; discriminate].
  vm_compute. repeat first [left; reflexivity | right].
Qed.

(** *** A wait that times out *)

Lemma InjectDll_wait_timeout env pid s :
  let dllPathSize := (Z.of_nat (length (payload_dll_path_ s)) + 1) * 2 in
  let remotePath := remote_alloc env pid dllPathSize in
  payload_dll_path_ s <> [] ->
  injected_processes_ s !! pid = None ->
  can_open env pid = true ->
  remotePath <> 0 ->
  can_write env pid = true ->
  LoadLibraryW_address env <> 0 ->
  remote_thread env pid (LoadLibraryW_address env) remotePath = Some StillRunning ->
  fst (InjectDll env pid s) = true /\
  injected_processes_ (snd (InjectDll env pid s)) !! pid = Some STILL_ACTIVE.
Proof.
  intros size remotePath Hp Hnone Hopen Halloc Hwrite Hll Hthread.
  assert (E : exists s', InjectDll env pid s = (true, s') /\
                         injected_processes_ s' !! pid = Some STILL_ACTIVE).
  { unfold InjectDll, bind at 1, get.
    destruct (payload_dll_path_ s) as [|c path] eqn:Epath; [congruence|].
    rewrite bool_decide_eq_false_2 by (rewrite Hnone; intros [? ?]; discriminate).
    unfold OpenProcess, VirtualAllocEx, WriteProcessMemory, VirtualFreeEx, CloseHandle,
      CreateRemoteThread, WaitForSingleObject, OutputDebugStringW, emit, modify, bind, get, ret.
    rewrite Hopen. sys_simpl. cbv zeta.
    fold size. fold remotePath.
    apply Z.eqb_neq in Halloc, Hll. rewrite Halloc, Hwrite, Hll. sys_simpl.
    rewrite Hthread. sys_simpl. cbn [GetExitCodeThread].
    eexists; split; [reflexivity|]. apply lookup_insert_eq. }
  destruct E as (s' & -> & E). split; [reflexivity|exact E].
Qed.

(** C4, on the code.  When no remote thread finishes within the five
    seconds, the injection answers true and records [STILL_ACTIVE] (259) as
    the module of the target; the hide call on that process answers true as
    well, so the process is counted as affected and its name is marked
    hidden. *)
Theorem timed_out_wait_is_taken_for_success :
  remote_thread desktop_hung 42 (LoadLibraryW_address desktop_hung) 0x20000
    = Some StillRunning /\
  fst (InjectDll desktop_hung 42 initialized) = true /\
  injected_processes_ (snd (InjectDll desktop_hung 42 initialized)) !! 42
    = Some STILL_ACTIVE /\
  fst (HideProcessWindowsByPid desktop_hung 42 true initialized) = true /\
  fst (HideProcessWindows desktop_hung (L "notepad") true initialized) = 1 /\
  IsProcessHidden (L "notepad")
    (snd (HideProcessWindows desktop_hung (L "notepad") true initialized)) = true.
Proof. vm_compute. repeat split. Qed.

(** *** Remaining witnesses and counterexamples *)

Lemma uninitialized_hide_is_noop_witness :
  initialized_ constructed = false /\
  HideProcessWindows desktop (L "notepad") true constructed = (0, constructed).
Proof.
  split; [reflexivity|].
  apply (uninitialized_hide_is_noop desktop (L "notepad") true constructed). reflexivity.
Defined.

Lemma repeated_injection_reuses_record_witness :
  InjectDll desktop 42 notepad_hidden = (true, notepad_hidden) /\
  new_events notepad_hidden (snd (InjectDll desktop 42 notepad_hidden)) = [] /\
  injected_processes_ (snd (InjectDll desktop 42 notepad_hidden))
    = injected_processes_ notepad_hidden.
Proof.
  apply (repeated_injection_reuses_record desktop 42 notepad_hidden).
  - exists hide_notepad. reflexivity.
  - exists (u32 sample_base). vm_compute. reflexivity.
Defined.

Lemma restoreAll_shows_every_hidden_name_witness :
  RestoreAll desktop notepad_hidden =
    (tt, cleared (fold_left (show_again desktop)
                    (GetHiddenProcesses notepad_hidden) notepad_hidden)) /\
  GetHiddenProcesses (snd (RestoreAll desktop notepad_hidden)) = [].
Proof.
  apply (restoreAll_shows_every_hidden_name desktop notepad_hidden).
  exists hide_notepad. reflexivity.
Defined.

Lemma no_windows_on_closed_desktop name pid :
  In pid (GetProcessIdsByName desktop_no_windows name) ->
  GetProcessWindows desktop_no_windows pid = [].
Proof. reflexivity. Qed.

Lemma hidden_state_needs_an_affected_hide_witness :
  (let r := HideProcessWindows desktop_no_windows (L "notepad") true initialized in
   fst r = 0 /\
   hidden_process_names_ (snd r) = hidden_process_names_ initialized /\
   injected_processes_ (snd r) = injected_processes_ initialized /\
   IsProcessHidden (L "notepad") (snd r) = IsProcessHidden (L "notepad") initialized) /\
  (exists name' n,
      In (Call_HideProcessWindows name' true, RInt n) (fst (run hide_notepad constructed)) /\
      ToLowerCase name' = ToLowerCase (L "NotePad") /\ 0 < n).
Proof.
  split.
  - apply (proj1 hidden_state_needs_an_affected_hide desktop_no_windows (L "notepad")
             initialized).
    intros pid. apply no_windows_on_closed_desktop.
  - apply (proj2 hidden_state_needs_an_affected_hide hide_notepad (L "NotePad")).
    vm_compute. reflexivity.
Defined.

(** C3 fails as stated: a name hidden earlier stays marked hidden when a
    later hide finds no window and answers 0. *)
Lemma already_hidden_name_stays_hidden :
  let r := HideProcessWindows desktop_no_windows (L "notepad") true notepad_hidden in
  (forall pid, In pid (GetProcessIdsByName desktop_no_windows (L "notepad")) ->
               GetProcessWindows desktop_no_windows pid = []) /\
  fst r = 0 /\
  hidden_process_names_ (snd r) = hidden_process_names_ notepad_hidden /\
  IsProcessHidden (L "notepad") (snd r) = true.
Proof.
  split; [intros pid; apply no_windows_on_closed_desktop|].
  vm_compute. repeat split.
Qed.

End PrivacyInjectorFacts.

(** ** Searching in wide strings *)

Module Win32Facts.
Import Win32.

Lemma starts_with_app needle rest : starts_with needle (needle ++ rest) = true.
Proof.
  induction needle as [|c needle IH]; [reflexivity|].
  cbn. now rewrite Z.eqb_refl.
Qed.

Lemma starts_with_longer needle hay rest :
  starts_with needle hay = true -> starts_with needle (hay ++ rest) = true.
Proof.
  revert hay. induction needle as [|c needle IH]; intros [|h hay]; cbn; try easy.
  intros H. apply andb_true_iff in H as [-> H]. cbn. now apply IH.
Qed.

Lemma contains_here hay needle : starts_with needle hay = true -> contains hay needle = true.
Proof. unfold contains. destruct hay; cbn; now intros ->. Qed.

Lemma contains_later c hay needle :
  contains hay needle = true -> contains (c :: hay) needle = true.
Proof.
  unfold contains. cbn [find]. destruct (starts_with needle (c :: hay)); [reflexivity|].
  now destruct (find hay needle).
Qed.

Lemma contains_app_r before hay needle :
  contains hay needle = true -> contains (before ++ hay) needle = true.
Proof.
  intros H. induction before as [|c before IH]; [exact H|].
  cbn [app]. now apply contains_later.
Qed.

Lemma contains_app_l hay after needle :
  contains hay needle = true -> contains (hay ++ after) needle = true.
Proof.
  unfold contains. induction hay as [|c hay IH].
  - cbn [find]. destruct (starts_with needle []) eqn:E; [|discriminate].
    intros _. destruct needle; [|discriminate]. now destruct after.
  - cbn [find app]. destruct (starts_with needle (c :: hay)) eqn:E.
    + intros _. change (c :: hay ++ after) with ((c :: hay) ++ after).
      now rewrite starts_with_longer.
    + destruct (starts_with needle (c :: hay ++ after)); [reflexivity|].
      destruct (find hay needle); [|discriminate]. intros _.
      specialize (IH eq_refl). now destruct (find (hay ++ after) needle).
Qed.

Lemma contains_infix before needle after :
  contains (before ++ needle ++ after) needle = true.
Proof. apply contains_app_r, contains_here, starts_with_app. Qed.

(** What [find] returns is a position at which the needle does start, and
    the first such. *)
Lemma find_Some hay needle pos :
  find hay needle = Some pos ->
  starts_with needle (drop pos hay) = true /\
  forall earlier, (earlier < pos)%nat -> starts_with needle (drop earlier hay) = false.
Proof.
  revert pos. induction hay as [|c hay IH]; intros pos; cbn [find].
  - destruct (starts_with needle []) eqn:E; [|discriminate].
    intros [= <-]. split; [exact E|]. intros ? H. inversion H.
  - destruct (starts_with needle (c :: hay)) eqn:E.
    + intros [= <-]. split; [exact E|]. intros ? H. inversion H.
    + destruct (find hay needle) as [p|] eqn:Ef; [|discriminate].
      intros [= <-]. destruct (IH p eq_refl) as [H1 H2]. split; [exact H1|].
      intros [|earlier] Hlt; [exact E|]. cbn [drop]. apply H2. lia.
Qed.

Lemma find_None hay needle :
  find hay needle = None -> forall pos, starts_with needle (drop pos hay) = false.
Proof.
  induction hay as [|c hay IH]; cbn [find].
  - destruct (starts_with needle []) eqn:E; [discriminate|].
    intros _ pos. now rewrite drop_nil.
  - destruct (starts_with needle (c :: hay)) eqn:E; [discriminate|].
    destruct (find hay needle) eqn:Ef; [discriminate|]. intros _ [|pos]; [exact E|].
    cbn [drop]. now apply IH.
Qed.

End Win32Facts.

(** ** More properties of the availability supervisor *)

Module SupervisionFacts.
Import Win32 StateMonad ServiceHelper Supervision ServiceHelperFacts Win32Facts.

(** *** One check at a time *)

Lemma set_files_add_events_same evs s :
  set_files (files s) (add_events evs s) = add_events evs s.
Proof. now destruct s. Qed.

Lemma isActive_step kind s :
  exists evs,
    isActive kind s =
      (marker_active kind s,
       set_files (if marker_active kind s then files s
                  else delete (marker_path kind s) (files s))
                 (add_events evs s)) /\
    forall e, In e evs ->
      is_log e = true \/
      (e = EvDeleteFileW (marker_path kind s) /\
       is_Some (files s !! marker_path kind s) /\
       marker_active kind s = false).
Proof.
  rewrite isActive_run. unfold marker_active.
  destruct (files s !! marker_path kind s) as [t|] eqn:Hf.
  - destruct (_ <=? _); cbn [negb].
    + eexists; split; [reflexivity|]. intros e He.
      apply in_app_or in He as [He|[<-|[]]].
      * left. pose proof (logline_is_log s
          (match kind with
           | UpdateMarker => L "Update lock file is stale, removing"
           | RestartMarker => L "Restart lock file is stale, removing"
           end)) as Hl.
        rewrite forallb_forall in Hl. now apply Hl.
      * right. repeat split. now exists t.
    + eexists; split; [now rewrite set_files_add_events_same|].
      intros e He. left. destruct kind; [|destruct He].
      pose proof (logline_is_log s (L "Update in progress detected")) as Hl.
      rewrite forallb_forall in Hl. now apply Hl.
  - exists []. rewrite delete_id by assumption.
    rewrite set_files_add_events_same, add_events_nil. split; [reflexivity|]. intros e [].
Qed.

Lemma log_not_launch logs cmd :
  forallb is_log logs = true -> In (EvCreateProcessW cmd) logs -> False.
Proof.
  intros Hl Hin. rewrite forallb_forall in Hl. specialize (Hl _ Hin). discriminate.
Qed.

Lemma logline_not_launch s m cmd : In (EvCreateProcessW cmd) (logline s m) -> False.
Proof. apply log_not_launch, logline_is_log. Qed.

(** Take a membership in a concatenation of event lists apart. *)
Ltac in_cases H :=
  repeat match type of H with
    | In _ (_ ++ _) => apply in_app_or in H as [H|H]
    | In _ (_ :: _) => destruct H as [H|H]
    | In _ [] => destruct H
    | In _ (logline _ _) => apply logline_not_launch in H; destruct H
    | In _ ?logs =>
        match goal with
        | Hl : forallb is_log logs = true |- _ => apply (log_not_launch _ _ Hl) in H; destruct H
        end
    end.

Ltac recover_done :=
  rewrite <- ?app_assoc; eexists; (split; [reflexivity|]);
  split; [ first [ reflexivity
                 | destruct (can_create _); [apply delete_insert_eq | reflexivity] ] |];
  split; [reflexivity|];
  let cmd := fresh "cmd" in let Hin := fresh "Hin" in
  intros cmd Hin; in_cases Hin; first [discriminate Hin | now injection Hin as <-].

(** *** Recovery, step by step *)

Lemma RecoverApp_effect s :
  exists evs,
    trace (snd (RecoverApp s)) = trace s ++ evs /\
    files (snd (RecoverApp s)) = delete (marker_path RestartMarker s) (files s) /\
    g_appDataDir (snd (RecoverApp s)) = g_appDataDir s /\
    forall cmd, In (EvCreateProcessW cmd) evs -> cmd = restart_command_line s.
Proof.
  unfold RecoverApp, bind, get, file_present, restart_command_line, app_exe_path.
  rewrite CreateRestartLock_run. sys_simpl.
  destruct (negb _).
  - rewrite Log_run, RemoveRestartLock_run. sys_simpl. cbn [marker_file]. recover_done.
  - rewrite Log_run, CreateProcessW_run. sys_simpl.
    destruct (launch s) as [e|pid alive] eqn:Hla.
    + unfold GetLastError. rewrite Log_run, RemoveRestartLock_run. sys_simpl.
      cbn [marker_file]. recover_done.
    + rewrite Log_run, Sleep_run.
      match goal with
      | |- context [IsAppRunning ?S] =>
          destruct (IsAppRunning_run S) as (logs & Heq & Hlogs); rewrite Heq; clear Heq
      end.
      assert (Hfin : forall (b : bool) S,
                 (if b then Log (L "App recovery successful")
                  else Log (L "App may not have started properly")) S
                 = (tt, add_events (logline S (if b then L "App recovery successful"
                                               else L "App may not have started properly")) S)).
      { intros [|] S; apply Log_run. }
      rewrite Hfin, RemoveRestartLock_run. clear Hfin.
      destruct alive; sys_simpl; cbn [marker_file]; recover_done.
Qed.

(** *** The whole cycle *)

Lemma is_log_not_launch e cmd : is_log e = true -> e = EvCreateProcessW cmd -> False.
Proof. intros H ->. discriminate. Qed.

Lemma in_logline_is_log s m e : In e (logline s m) -> is_log e = true.
Proof.
  intros H. pose proof (logline_is_log s m) as Hl. rewrite forallb_forall in Hl. auto.
Qed.

Lemma in_logs_is_log logs e : forallb is_log logs = true -> In e logs -> is_log e = true.
Proof. intros Hl H. rewrite forallb_forall in Hl. auto. Qed.

Ltac from_check P He :=
  destruct (P _ He) as [?|(-> & ? & ?)];
  [ now left
  | right;
    first [ exists UpdateMarker; split; [reflexivity|split; assumption]
          | exists RestartMarker; split; [reflexivity|split; assumption] ] ].

Ltac benign P1 P2 :=
  let e := fresh "e" in let He := fresh "He" in
  intros e He;
  repeat match type of He with In _ (_ ++ _) => apply in_app_or in He as [He|He] end;
  first
    [ left; apply in_logline_is_log in He; exact He
    | match type of He with
      | In _ ?l =>
          match goal with
          | Hl : forallb is_log l = true |- _ => left; exact (in_logs_is_log _ _ Hl He)
          end
      end
    | from_check P1 He
    | from_check P2 He ].

Ltac not_from_check P He :=
  let Hlg := fresh "Hlg" in
  destruct (P _ He) as [Hlg|([=] & _)]; discriminate Hlg.

Ltac no_launch_in P1 P2 He :=
  first
    [ now apply logline_not_launch in He
    | match goal with
      | Hl : forallb is_log ?l = true |- _ =>
          match type of He with In _ l => now apply (log_not_launch _ _ Hl) in He end
      end
    | not_from_check P1 He
    | not_from_check P2 He ].

Ltac no_launch P1 P2 :=
  let cmd := fresh "cmd" in let He := fresh "He" in
  intros cmd He; exfalso;
  repeat match type of He with In _ (_ ++ _) => apply in_app_or in He as [He|He] end;
  no_launch_in P1 P2 He.

Lemma PerformCheck_shape s :
  let gated := marker_active UpdateMarker s || marker_active RestartMarker s
               || installer_listed s || app_detected s in
  exists evs,
    trace (snd (PerformCheck s)) = trace s ++ evs /\
    files (snd (PerformCheck s)) =
      (if marker_active UpdateMarker s then files s
       else if marker_active RestartMarker s
            then delete (marker_path UpdateMarker s) (files s)
            else delete (marker_path RestartMarker s)
                   (delete (marker_path UpdateMarker s) (files s))) /\
    (gated = true ->
     forall e, In e evs ->
       is_log e = true \/
       exists kind, e = EvDeleteFileW (marker_path kind s) /\
                    is_Some (files s !! marker_path kind s) /\
                    marker_active kind s = false) /\
    (forall cmd, In (EvCreateProcessW cmd) evs ->
                 gated = false /\ cmd = restart_command_line s).
Proof.
  intros gated. subst gated.
  unfold PerformCheck, bind. rewrite Log_run.
  change IsUpdateInProgress with (isActive UpdateMarker).
  change IsRestartPending with (isActive RestartMarker).
  match goal with |- context [isActive UpdateMarker ?S] =>
    destruct (isActive_step UpdateMarker S) as (e1 & E1 & P1); rewrite E1; clear E1;
    change (marker_active UpdateMarker S) with (marker_active UpdateMarker s) in *;
    change (marker_path UpdateMarker S) with (marker_path UpdateMarker s) in *;
    change (files S) with (files s) in *
  end.
  cbv beta iota.
  destruct (marker_active UpdateMarker s) eqn:Hup; cbn [orb].
  { rewrite Log_run. sys_simpl. rewrite <- !app_assoc. eexists; split; [reflexivity|].
    split; [reflexivity|]. split.
    - intros _ e He. left. apply in_app_or in He as [He|He]; [now apply in_logline_is_log in He|].
      apply in_app_or in He as [He|He]; [|now apply in_logline_is_log in He].
      destruct (P1 e He) as [Hl|(_ & _ & [=])]. exact Hl.
    - intros cmd He. exfalso.
      apply in_app_or in He as [He|He]; [now apply logline_not_launch in He|].
      apply in_app_or in He as [He|He]; [|now apply logline_not_launch in He].
      destruct (P1 _ He) as [Hl|([=] & _)]. discriminate Hl. }
  match goal with |- context [isActive RestartMarker ?S] =>
    destruct (isActive_step RestartMarker S) as (e2 & E2 & P2); rewrite E2; clear E2;
    change (marker_path RestartMarker S) with (marker_path RestartMarker s) in *;
    change (files S) with (delete (marker_path UpdateMarker s) (files s)) in *;
    assert (Hre : marker_active RestartMarker S = marker_active RestartMarker s)
  end.
  { apply marker_active_ext; [reflexivity|reflexivity|].
    sys_simpl. apply lookup_delete_ne, (marker_files_differ UpdateMarker RestartMarker s).
    discriminate. }
  rewrite Hre in *. clear Hre.
  assert (Hlk : delete (marker_path UpdateMarker s) (files s) !! marker_path RestartMarker s
                = files s !! marker_path RestartMarker s)
    by (apply lookup_delete_ne, marker_files_differ; discriminate).
  rewrite Hlk in P2. clear Hlk.
  cbv beta iota.
  destruct (marker_active RestartMarker s) eqn:Hrs; cbn [orb].
  { rewrite Log_run. sys_simpl. rewrite <- !app_assoc. eexists; split; [reflexivity|].
    split; [reflexivity|]. split.
    - intros _ e He.
      apply in_app_or in He as [He|He]; [left; now apply in_logline_is_log in He|].
      apply in_app_or in He as [He|He].
      { destruct (P1 e He) as [Hl|(-> & Hs & _)]; [now left|].
        right. exists UpdateMarker. auto. }
      apply in_app_or in He as [He|He]; [|left; now apply in_logline_is_log in He].
      destruct (P2 e He) as [Hl|(_ & _ & [=])]. now left.
    - intros cmd He. exfalso.
      apply in_app_or in He as [He|He]; [now apply logline_not_launch in He|].
      apply in_app_or in He as [He|He].
      { destruct (P1 _ He) as [Hl|([=] & _)]. discriminate Hl. }
      apply in_app_or in He as [He|He]; [|now apply logline_not_launch in He].
      destruct (P2 _ He) as [Hl|([=] & _)]. discriminate Hl. }
  match goal with |- context [IsInstallerRunning ?S] =>
    destruct (IsInstallerRunning_run S) as (l3 & E3 & Hl3); rewrite E3; clear E3;
    change (installer_listed S) with (installer_listed s) end.
  cbv beta iota.
  destruct (installer_listed s) eqn:Hin; cbn [orb].
  { rewrite Log_run. sys_simpl. rewrite <- !app_assoc. eexists; split; [reflexivity|].
    split; [reflexivity|]. split; [|no_launch P1 P2]. intros _. benign P1 P2. }
  match goal with |- context [IsAppRunning ?S] =>
    destruct (IsAppRunning_run S) as (l4 & E4 & Hl4); rewrite E4; clear E4;
    change (app_detected S) with (app_detected s) end.
  cbv beta iota.
  destruct (app_detected s) eqn:Happ; cbn [orb negb].
  { rewrite Log_run. sys_simpl. rewrite <- !app_assoc. eexists; split; [reflexivity|].
    split; [reflexivity|]. split; [|no_launch P1 P2]. intros _. benign P1 P2. }
  rewrite Log_run.
  match goal with |- context [RecoverApp ?S] =>
    destruct (RecoverApp_effect S) as (evR & ER & FR & _ & CR);
    change (marker_path RestartMarker S) with (marker_path RestartMarker s) in *;
    change (restart_command_line S) with (restart_command_line s) in *
  end.
  rewrite ER, FR. sys_simpl. rewrite <- !app_assoc. eexists; split; [reflexivity|].
  split; [apply delete_delete_eq|]. split; [discriminate|].
  intros cmd He. split; [reflexivity|].
  repeat match type of He with In _ (_ ++ _) => apply in_app_or in He as [He|He] end;
    try (exfalso; no_launch_in P1 P2 He). now apply CR.
Qed.

Lemma same_marker k1 k2 s : marker_path k1 s = marker_path k2 s -> k1 = k2.
Proof.
  intros H. destruct k1, k2; try reflexivity;
    exfalso; revert H; apply marker_files_differ; discriminate.
Qed.

(** X1.  A cycle stopped at any of its four gates (an active update marker,
    an active restart marker, a running installer, the application
    detected) starts no process and does not sleep; it writes no marker and
    neither writes nor deletes the executable; and a marker it deletes is
    one it found in place and stale.  (What [Log] does to the log file and
    its backup is not part of this.) *)
Theorem gated_cycle_starts_nothing_and_spares_fresh_markers (s : Sys) :
  log_beside_markers s ->
  fst (isActive UpdateMarker s) = true \/ fst (isActive RestartMarker s) = true \/
  fst (IsInstallerRunning s) = true \/ fst (IsAppRunning s) = true ->
  let evs := new_events s (snd (PerformCheck s)) in
  (forall cmdLine, ~ In (EvCreateProcessW cmdLine) evs) /\
  (forall ms, ~ In (EvSleep ms) evs) /\
  (forall kind, ~ In (EvCreateFileW (marker_path kind s)) evs) /\
  ~ In (EvCreateFileW (app_exe_path s)) evs /\
  ~ In (EvDeleteFileW (app_exe_path s)) evs /\
  (forall kind,
      In (EvDeleteFileW (marker_path kind s)) evs ->
      is_Some (files s !! marker_path kind s) /\ fst (isActive kind s) = false).
Proof.
  intros _. rewrite !isActive_result.
  destruct (IsInstallerRunning_run s) as (l3 & -> & _).
  destruct (IsAppRunning_run s) as (l4 & -> & _). cbn [fst].
  intros Hgate. cbv zeta.
  destruct (PerformCheck_shape s) as (evs & Et & _ & Hb & _).
  rewrite (new_events_app _ _ _ Et).
  assert (Hg : marker_active UpdateMarker s || marker_active RestartMarker s
               || installer_listed s || app_detected s = true).
  { destruct Hgate as [-> | [-> | [-> | ->]]]; rewrite ?orb_true_r; reflexivity. }
  specialize (Hb Hg).
  split; [|split; [|split; [|split; [|split]]]].
  - intros cmdLine He. destruct (Hb _ He) as [Hl|(kind & [=] & _)]. discriminate Hl.
  - intros ms He. destruct (Hb _ He) as [Hl|(kind & [=] & _)]. discriminate Hl.
  - intros kind He. destruct (Hb _ He) as [Hl|(kind' & [=] & _)]. discriminate Hl.
  - intros He. destruct (Hb _ He) as [Hl|(kind' & [=] & _)]. discriminate Hl.
  - intros He. destruct (Hb _ He) as [Hl|(kind' & [= E] & _)]; [discriminate Hl|].
    symmetry in E. now apply exe_not_marker in E.
  - intros kind He. rewrite isActive_result.
    destruct (Hb _ He) as [Hl|(kind' & [= E] & Hs & Hk)]; [discriminate Hl|].
    apply same_marker in E as ->. split; assumption.
Qed.

(** X2.  Whatever a cycle does, all it changes about the markers and the
    executable is that markers are removed.  The update marker stays as it
    was when it is active and is gone otherwise (it was stale or absent);
    the restart marker stays as it was when either marker is active and is
    gone otherwise, so no cycle leaves a restart marker of its own behind;
    the executable is as it was. *)
Theorem cycle_leaves_only_marker_deletions (s : Sys) :
  log_beside_markers s ->
  let update_lock := marker_path UpdateMarker s in
  let restart_lock := marker_path RestartMarker s in
  let s' := snd (PerformCheck s) in
  files s' !! update_lock =
    (if fst (isActive UpdateMarker s) then files s !! update_lock else None) /\
  files s' !! restart_lock =
    (if fst (isActive UpdateMarker s) || fst (isActive RestartMarker s)
     then files s !! restart_lock else None) /\
  files s' !! app_exe_path s = files s !! app_exe_path s.
Proof.
  intros _ up rp s'. subst up rp s'. rewrite !isActive_result.
  destruct (PerformCheck_shape s) as (evs & _ & Ef & _). rewrite Ef.
  assert (Hne : marker_path UpdateMarker s <> marker_path RestartMarker s)
    by (apply marker_files_differ; discriminate).
  destruct (marker_active UpdateMarker s); cbn [orb]; [auto|].
  destruct (marker_active RestartMarker s).
  - rewrite lookup_delete_eq, lookup_delete_ne by assumption.
    rewrite lookup_delete_ne by apply exe_not_marker. auto.
  - rewrite lookup_delete_eq.
    rewrite lookup_delete_ne, lookup_delete_eq by congruence.
    rewrite !lookup_delete_ne by apply exe_not_marker. auto.
Qed.

(** *** The restart marker, written and read back *)

(** X3.  A restart marker the supervisor has just written (over whatever
    was there) is found active for the next 31 seconds; once removed it is
    found inactive at any time; removing an absent marker and failing to
    create one both leave the files as they were. *)
Theorem restart_lock_round_trip (s : Sys) :
  (can_create s = true -> 0 <= clock s ->
   forall dt, 0 <= dt < 31 * ticks_per_second -> clock s + dt < 2 ^ 64 ->
     let s1 := snd (CreateRestartLock s) in
     fst (IsRestartPending (set_clock (clock s1 + dt) s1)) = true) /\
  (forall now,
     fst (IsRestartPending (set_clock now (snd (RemoveRestartLock s)))) = false) /\
  (files s !! marker_path RestartMarker s = None ->
   files (snd (RemoveRestartLock s)) = files s) /\
  (can_create s = false -> files (snd (CreateRestartLock s)) = files s).
Proof.
  split; [|split; [|split]].
  - intros Hc H0 dt Hdt Hlt s1. subst s1.
    change IsRestartPending with (isActive RestartMarker).
    rewrite isActive_result, CreateRestartLock_run, Hc. unfold marker_active.
    sys_simpl. change (marker_path RestartMarker (set_clock ?c ?x)) with (marker_path RestartMarker s).
    rewrite lookup_insert_eq.
    replace (clock s + dt - clock s) with dt by lia.
    unfold u64. rewrite Z.mod_small by lia.
    apply negb_true_iff, Z.leb_gt. cbn [threshold_ticks unit_ticks].
    unfold RESTART_LOCK_TIMEOUT_SECONDS. lia.
  - intros now. change IsRestartPending with (isActive RestartMarker).
    rewrite isActive_result, RemoveRestartLock_run. unfold marker_active. sys_simpl.
    change (marker_path RestartMarker (set_clock ?c ?x)) with (marker_path RestartMarker s).
    now rewrite lookup_delete_eq.
  - intros Hn. rewrite RemoveRestartLock_run. sys_simpl. now apply delete_id.
  - intros Hc. rewrite CreateRestartLock_run, Hc. reflexivity.
Qed.

(** *** What is launched, and how the application reads it *)

(** X4.  Whatever a cycle launches, it launches with the command line
    ["<dir>\a1_tools.exe" --auto-start --service-restart], and only when
    all four gates are open.  The flag test at the application's entry
    point finds [--auto-start] and [--service-restart] in that command
    line, whether it is handed all of it or what is left when the quoted
    path of the program, or a part of it, and the space after it have been
    taken off. *)
Theorem every_launch_is_a_flagged_restart (s : Sys) (cmdLine : list Z) :
  In (EvCreateProcessW cmdLine) (new_events s (snd (PerformCheck s))) ->
  cmdLine = dquote ++ g_appDataDir s ++ L "\a1_tools.exe" ++ dquote
              ++ L " --auto-start --service-restart" /\
  fst (isActive UpdateMarker s) = false /\ fst (isActive RestartMarker s) = false /\
  fst (IsInstallerRunning s) = false /\ fst (IsAppRunning s) = false /\
  forall skipped tail,
    cmdLine = skipped ++ tail ->
    (length skipped <= length (quoted_program s) + 1)%nat ->
    AppMain.autoStart (AppMain.detect_launch_source (Some tail)) = true /\
    AppMain.serviceRestart (AppMain.detect_launch_source (Some tail)) = true.
Proof.
  intros He. destruct (PerformCheck_shape s) as (evs & Et & _ & _ & Hc).
  rewrite (new_events_app _ _ _ Et) in He. destruct (Hc _ He) as [Hg ->].
  rewrite !isActive_result.
  destruct (IsInstallerRunning_run s) as (l3 & -> & _).
  destruct (IsAppRunning_run s) as (l4 & -> & _). cbn [fst].
  apply orb_false_iff in Hg as [Hg ->]. apply orb_false_iff in Hg as [Hg ->].
  apply orb_false_iff in Hg as [-> ->].
  split; [unfold restart_command_line, app_exe_path; now rewrite <- !app_assoc|].
  repeat (split; [reflexivity|]).
  intros skipped tail E Hlen.
  assert (Ecmd : restart_command_line s
                 = quoted_program s ++ L " --auto-start --service-restart").
  { unfold restart_command_line, quoted_program. now rewrite <- !app_assoc. }
  assert (Etail : tail = drop (length skipped) (restart_command_line s))
    by (rewrite E; now rewrite drop_app_length).
  assert (Hin : forall flag,
             contains (L " --auto-start --service-restart") flag = true ->
             contains (L "--auto-start --service-restart") flag = true ->
             contains tail flag = true).
  { intros flag H0 H1. rewrite Etail, Ecmd.
    destruct (le_lt_dec (length skipped) (length (quoted_program s))) as [Hle|Hgt].
    - rewrite drop_app_le by exact Hle. now apply contains_app_r.
    - rewrite drop_app_ge by lia.
      replace (length skipped - length (quoted_program s))%nat with 1%nat by lia.
      exact H1. }
  cbn [AppMain.detect_launch_source AppMain.autoStart AppMain.serviceRestart].
  split; apply Hin; reflexivity.
Qed.

(** *** What counts as running *)

(** X5.  The application counts as running when its mutex can be opened,
    or when some listed process is named [a1_tools.exe] up to the case of
    the letters A..Z (the whole name, not a part of it).  An installer
    counts as running when the name of some listed process, in lower case,
    contains one of [a1-tools-setup], [a1tools_update], [a1_tools_setup].
    When the process list cannot be taken, neither is reported and nothing
    is logged. *)
Theorem what_counts_as_running (s : Sys) :
  (fst (IsAppRunning s) = true <->
   app_mutex_exists s = true \/
   exists entries pid exeFile,
     snapshot s = Some entries /\ In (pid, exeFile) entries /\
     ToLowerCase exeFile = L "a1_tools.exe") /\
  (fst (IsInstallerRunning s) = true <->
   exists entries pid exeFile name,
     snapshot s = Some entries /\ In (pid, exeFile) entries /\
     In name [L "a1-tools-setup"; L "a1tools_update"; L "a1_tools_setup"] /\
     contains (ToLowerCase exeFile) name = true) /\
  (snapshot s = None ->
   IsInstallerRunning s = (false, s) /\
   (app_mutex_exists s = false -> IsAppRunning s = (false, s))).
Proof.
  split; [|split].
  - destruct (IsAppRunning_run s) as (l4 & -> & _). cbn [fst]. unfold app_detected.
    destruct (app_mutex_exists s); cbn [orb]; [split; auto|].
    destruct (snapshot s) as [entries|].
    + rewrite existsb_exists. split.
      * intros ([pid exe] & Hin & Hm). right. exists entries, pid, exe.
        repeat split; try assumption.
        unfold wcsicmp_eq, wstr_eqb in Hm. cbn [snd] in Hm.
        now apply bool_decide_eq_true_1 in Hm.
      * intros [[=]|(entries' & pid & exe & [= <-] & Hin & Hm)].
        exists (pid, exe). split; [assumption|].
        unfold wcsicmp_eq, wstr_eqb. cbn [snd]. now apply bool_decide_eq_true_2.
    + split; [discriminate|]. now intros [[=]|(? & ? & ? & [=] & _)].
  - destruct (IsInstallerRunning_run s) as (l3 & -> & _). cbn [fst]. unfold installer_listed.
    destruct (snapshot s) as [entries|].
    + rewrite existsb_exists. split.
      * intros ([pid exe] & Hin & Hm). cbn [snd] in Hm.
        apply existsb_exists in Hm as (inst & Hi & Hc).
        exists entries, pid, exe, (ToLowerCase inst). repeat split; try assumption.
        destruct Hi as [<-|[<-|[<-|[<-|[]]]]]; vm_compute; auto.
      * intros (entries' & pid & exe & name & [= <-] & Hin & Hn & Hc).
        exists (pid, exe). split; [assumption|]. cbn [snd].
        apply existsb_exists.
        destruct Hn as [<-|[<-|[<-|[]]]].
        -- exists (L "a1-tools-setup"). split; [now left|exact Hc].
        -- exists (L "a1tools_update"). split; [right; now left|exact Hc].
        -- exists (L "a1_tools_setup"). split; [right; right; now left|exact Hc].
    + split; [discriminate|]. now intros (? & ? & ? & ? & [=] & _).
  - intros Hs. split.
    + unfold IsInstallerRunning, CreateToolhelp32Snapshot, bind. now rewrite Hs.
    + intros Hm. unfold IsAppRunning, OpenMutexW_app, CreateToolhelp32Snapshot, bind.
      now rewrite Hm, Hs.
Qed.
(** *** The theorems at work *)

Lemma gated_cycle_starts_nothing_and_spares_fresh_markers_witness :
  let s := desktop_with_marker UpdateMarker 0 in
  let evs := new_events s (snd (PerformCheck s)) in
  (forall cmdLine, ~ In (EvCreateProcessW cmdLine) evs) /\
  (forall ms, ~ In (EvSleep ms) evs) /\
  (forall kind, ~ In (EvCreateFileW (marker_path kind s)) evs) /\
  ~ In (EvCreateFileW (app_exe_path s)) evs /\
  ~ In (EvDeleteFileW (app_exe_path s)) evs /\
  (forall kind,
      In (EvDeleteFileW (marker_path kind s)) evs ->
      is_Some (files s !! marker_path kind s) /\ fst (isActive kind s) = false).
Proof.
  apply (gated_cycle_starts_nothing_and_spares_fresh_markers
           (desktop_with_marker UpdateMarker 0)).
  - vm_compute. reflexivity.
  - left. vm_compute. reflexivity.
Defined.

Lemma cycle_leaves_only_marker_deletions_witness :
  let s := desktop_with_exe in
  let update_lock := marker_path UpdateMarker s in
  let restart_lock := marker_path RestartMarker s in
  let s' := snd (PerformCheck s) in
  files s' !! update_lock =
    (if fst (isActive UpdateMarker s) then files s !! update_lock else None) /\
  files s' !! restart_lock =
    (if fst (isActive UpdateMarker s) || fst (isActive RestartMarker s)
     then files s !! restart_lock else None) /\
  files s' !! app_exe_path s = files s !! app_exe_path s.
Proof.
  apply (cycle_leaves_only_marker_deletions desktop_with_exe).
  vm_compute. reflexivity.
Defined.

Lemma every_launch_is_a_flagged_restart_witness :
  let s := desktop_with_exe in
  let cmdLine := dquote ++ sample_dir ++ L "\a1_tools.exe" ++ dquote
                   ++ L " --auto-start --service-restart" in
  cmdLine = dquote ++ g_appDataDir s ++ L "\a1_tools.exe" ++ dquote
              ++ L " --auto-start --service-restart" /\
  fst (isActive UpdateMarker s) = false /\ fst (isActive RestartMarker s) = false /\
  fst (IsInstallerRunning s) = false /\ fst (IsAppRunning s) = false /\
  forall skipped tail,
    cmdLine = skipped ++ tail ->
    (length skipped <= length (quoted_program s) + 1)%nat ->
    AppMain.autoStart (AppMain.detect_launch_source (Some tail)) = true /\
    AppMain.serviceRestart (AppMain.detect_launch_source (Some tail)) = true.
Proof.
  apply (every_launch_is_a_flagged_restart desktop_with_exe
           (dquote ++ sample_dir ++ L "\a1_tools.exe" ++ dquote
              ++ L " --auto-start --service-restart")).
  vm_compute. repeat (first [left; reflexivity | right]).
Defined.

End SupervisionFacts.

(** ** More properties of the remote injector *)

Module InjectorLedgerFacts.
Import Win32 StateMonad PrivacyInjector InjectorNotions PrivacyInjectorFacts.

(** *** Handles, memory and libraries are given back *)

Lemma balance_app env r n m evs1 evs2 :
  balance env r n evs1 = Some m ->
  balance env r n (evs1 ++ evs2) = balance env r m evs2.
Proof.
  revert n. induction evs1 as [|e evs1 IH]; intros n; cbn [app balance].
  - now intros [= ->].
  - cbv zeta. destruct (n + delta env r e <? 0); [discriminate|]. apply IH.
Qed.

Lemma settled_ret env {A} (a : A) : settled env (ret a).
Proof. intros s. exists []. split; [now rewrite app_nil_r|reflexivity]. Qed.

Lemma settled_get env : settled env get.
Proof. intros s. exists []. split; [now rewrite app_nil_r|reflexivity]. Qed.

Lemma settled_debug env message : settled env (OutputDebugStringW message).
Proof. intros s. exists [EvOutputDebugStringW message]. split; [reflexivity|]. now intros []. Qed.

Lemma settled_bind env {A B} (c : M Sys A) (k : A -> M Sys B) :
  settled env c -> (forall a, settled env (k a)) -> settled env (bind c k).
Proof.
  intros Hc Hk s. unfold bind. destruct (Hc s) as (e1 & E1 & H1).
  destruct (c s) as [a s']. cbn [snd] in E1.
  destruct (Hk a s') as (e2 & E2 & H2). exists (e1 ++ e2). split.
  - now rewrite E2, E1, app_assoc.
  - intros r. now rewrite (balance_app env r 0 0 e1 e2 (H1 r)).
Qed.

Ltac settle :=
  unfold add_events; rewrite <- ?app_assoc; eexists; (split; [reflexivity|]);
  let r := fresh "r" in
  intros r; destruct r; cbn [app balance delta];
  repeat match goal with H : _ = _ |- _ => rewrite H end; reflexivity.

Lemma InjectDll_settled env pid : settled env (InjectDll env pid).
Proof.
  intros s. unfold InjectDll. unfold bind at 1. unfold get at 1. cbv beta iota.
  destruct (payload_dll_path_ s) as [|c path] eqn:Epath.
  { exists []. split; [now rewrite app_nil_r|reflexivity]. }
  destruct (bool_decide _).
  { exists []. split; [now rewrite app_nil_r|reflexivity]. }
  unfold OpenProcess, VirtualAllocEx, WriteProcessMemory, VirtualFreeEx, CloseHandle,
    CreateRemoteThread, WaitForSingleObject, OutputDebugStringW, emit, modify, bind, get, ret.
  cbv beta iota zeta.
  destruct (can_open env pid) eqn:Hopen; sys_simpl; [|settle].
  destruct (remote_alloc env pid ((Z.of_nat (length (c :: path)) + 1) * 2) =? 0) eqn:Halloc;
    sys_simpl; [settle|].
  destruct (can_write env pid) eqn:Hwrite; sys_simpl; [|settle].
  destruct (LoadLibraryW_address env =? 0) eqn:Hll; sys_simpl; [settle|].
  destruct (remote_thread env pid _ _) as [hThread|] eqn:Hth; sys_simpl; [|settle].
  destruct (negb (GetExitCodeThread hThread =? 0)); sys_simpl; settle.
Qed.

Lemma CallSetWindowVisibility_settled env pid hwnd hide :
  settled env (CallSetWindowVisibility env pid hwnd hide).
Proof.
  unfold CallSetWindowVisibility. apply settled_bind; [apply InjectDll_settled|].
  intros injected s. destruct injected; cbn [negb].
  2:{ unfold OutputDebugStringW, emit, modify, bind, ret. sys_simpl. settle. }
  unfold OpenProcess, LoadLibraryW, FreeLibrary, CloseHandle, CreateRemoteThread,
    WaitForSingleObject, OutputDebugStringW, emit, modify, bind, get, ret.
  cbv beta iota zeta.
  destruct (can_open env pid) eqn:Hopen; sys_simpl; [|settle].
  destruct (_ =? 0) eqn:Hmod; sys_simpl; [settle|].
  destruct (local_module env (payload_dll_path_ s) =? 0) eqn:Hloc; sys_simpl; [settle|].
  destruct (HideAllProcessWindows_address env _ =? 0) eqn:Hproc; sys_simpl; [settle|].
  destruct (remote_thread env pid _ _) as [hThread|] eqn:Hth; sys_simpl; settle.
Qed.

Lemma HideProcessWindowsByPid_settled env pid hide :
  settled env (HideProcessWindowsByPid env pid hide).
Proof.
  unfold HideProcessWindowsByPid. destruct (GetProcessWindows env pid).
  - apply settled_bind; [apply settled_debug|intros; apply settled_ret].
  - apply settled_bind; [apply settled_debug|intros; apply CallSetWindowVisibility_settled].
Qed.

Lemma for_each_pid_settled env pids hide n : settled env (for_each_pid env pids hide n).
Proof.
  revert n. induction pids as [|pid pids IH]; intros n; cbn [for_each_pid].
  - apply settled_ret.
  - apply settled_bind; [apply HideProcessWindowsByPid_settled|intros; apply IH].
Qed.

Lemma settled_quiet env {A} (c : M Sys A) :
  (forall s, trace (snd (c s)) = trace s) -> settled env c.
Proof. intros H s. exists []. split; [now rewrite app_nil_r|reflexivity]. Qed.

Lemma HideProcessWindows_settled env name hide : settled env (HideProcessWindows env name hide).
Proof.
  unfold HideProcessWindows. apply settled_bind; [apply settled_get|]. intros s0.
  destruct (negb _); [apply settled_ret|].
  apply settled_bind; [apply for_each_pid_settled|]. intros n.
  apply settled_bind; [|intros; apply settled_ret].
  destruct (n >? 0); [|apply settled_ret]. now apply settled_quiet.
Qed.

Lemma restore_each_settled env keys : settled env (restore_each env keys).
Proof.
  induction keys as [|key keys IH]; cbn [restore_each]; [apply settled_ret|].
  apply settled_bind; [apply settled_get|]. intros s0.
  apply settled_bind; [|intros; apply IH].
  destruct (bool_decide _); [|apply settled_ret].
  apply settled_bind; [apply HideProcessWindows_settled|intros; apply settled_ret].
Qed.

Lemma RestoreAll_settled env : settled env (RestoreAll env).
Proof.
  unfold RestoreAll. apply settled_bind; [apply settled_get|]. intros s0.
  apply settled_bind; [apply restore_each_settled|]. intros _. now apply settled_quiet.
Qed.

Lemma Initialize_settled env path : settled env (Initialize env path).
Proof.
  unfold Initialize. destruct (negb _).
  - apply settled_bind; [apply settled_debug|intros; apply settled_ret].
  - apply settled_bind; [now apply settled_quiet|]. intros _.
    apply settled_bind; [apply settled_debug|intros; apply settled_ret].
Qed.

Lemma perform_settled env c : settled env (perform env c).
Proof.
  destruct c; cbn [perform];
    (apply settled_bind; [|intros; apply settled_ret]).
  - apply Initialize_settled.
  - apply HideProcessWindows_settled.
  - apply HideProcessWindowsByPid_settled.
  - apply settled_get.
  - apply settled_get.
  - apply RestoreAll_settled.
Qed.

(** X6.  No call on the object leaks, whatever the machine answers on
    the way: of process handles, remote memory, thread handles and local
    loads of the library alike, the call at no point releases more than it
    has acquired, and when it returns it has released all of it. *)
Theorem every_call_gives_back_what_it_took
    (env : Machine) (c : call) (s : Sys) (r : resource) :
  balance env r 0 (new_events s (snd (perform env c s))) = Some 0.
Proof.
  destruct (perform_settled env c s) as (evs & E & H).
  unfold new_events. rewrite E, drop_app_length. apply H.
Qed.
End InjectorLedgerFacts.

Module InjectorInvariantFacts.
Import Win32 StateMonad PrivacyInjector InjectorNotions PrivacyInjectorFacts.

(** *** What a failed or repeated injection leaves, and what a new one adds *)

Lemma exit_code_fits hThread :
  (GetExitCodeThread hThread =? 0) = false -> 0 < GetExitCodeThread hThread < 2 ^ 32.
Proof.
  intros H. apply Z.eqb_neq in H. destruct hThread as [code|]; cbn in *.
  - unfold u32 in *. pose proof (Z.mod_pos_bound code (2 ^ 32) ltac:(lia)). lia.
  - unfold STILL_ACTIVE. lia.
Qed.

Ltac fails :=
  rewrite <- ?app_assoc; eexists _, _, _;
  (split; [match goal with E : payload_dll_path_ _ = _ |- _ => rewrite E end; reflexivity|]);
  split; [discriminate|reflexivity].

Lemma InjectDll_result env pid s :
  exists b evs inj,
    InjectDll env pid s =
      (b, mkSys (payload_dll_path_ s) inj (hidden_process_names_ s) (initialized_ s)
                (trace s ++ evs)) /\
    (b = true ->
     payload_dll_path_ s <> [] /\
     exists hModule,
       inj !! pid = Some hModule /\
       (inj = injected_processes_ s \/
        (injected_processes_ s !! pid = None /\ 0 < hModule < 2 ^ 32 /\
         inj = <[pid := hModule]> (injected_processes_ s)))) /\
    (b = false -> inj = injected_processes_ s).
Proof.
  unfold InjectDll. unfold bind at 1. unfold get at 1. cbv beta iota.
  destruct (payload_dll_path_ s) as [|c path] eqn:Epath.
  { exists false, [], (injected_processes_ s). rewrite app_nil_r. cbn.
    split; [destruct s; cbn in *; now subst|]. split; [discriminate|reflexivity]. }
  destruct (bool_decide_reflect (is_Some (injected_processes_ s !! pid))) as [[h Hh]|Hno].
  { exists true, [], (injected_processes_ s). rewrite app_nil_r. cbn.
    split; [destruct s; cbn in *; now subst|]. split; [|discriminate].
    intros _. split; [discriminate|]. exists h. auto. }
  assert (Hnone : injected_processes_ s !! pid = None).
  { destruct (injected_processes_ s !! pid) eqn:E; [|reflexivity]. exfalso. apply Hno. eauto. }
  unfold OpenProcess, VirtualAllocEx, WriteProcessMemory, VirtualFreeEx, CloseHandle,
    CreateRemoteThread, WaitForSingleObject, OutputDebugStringW, emit, modify, bind, get, ret.
  cbv beta iota zeta.
  destruct (can_open env pid) eqn:Hopen; sys_simpl; [|fails].
  destruct (remote_alloc env pid ((Z.of_nat (length (c :: path)) + 1) * 2) =? 0) eqn:Halloc;
    sys_simpl; [fails|].
  destruct (can_write env pid) eqn:Hwrite; sys_simpl; [|fails].
  destruct (LoadLibraryW_address env =? 0) eqn:Hll; sys_simpl; [fails|].
  destruct (remote_thread env pid _ _) as [hThread|] eqn:Hth; sys_simpl; [|fails].
  destruct (GetExitCodeThread hThread =? 0) eqn:Hcode; cbn [negb]; sys_simpl; [fails|].
  rewrite <- ?app_assoc. eexists _, _, _. split; [rewrite Epath; reflexivity|].
  split; [|discriminate]. intros _. split; [discriminate|].
  exists (GetExitCodeThread hThread). split; [apply lookup_insert_eq|].
  right. split; [assumption|]. split; [now apply exit_code_fits|reflexivity].
Qed.

(** *** Properties of the object that every operation keeps *)

Section Preservation.
Variable P : Sys -> Prop.
Hypothesis P_events : forall s evs, P s -> P (add_events evs s).
Hypothesis P_record :
  forall s pid h,
    payload_dll_path_ s <> [] -> injected_processes_ s !! pid = None -> 0 < h < 2 ^ 32 ->
    P s -> P (with_record pid h s).
Hypothesis P_flag : forall s key v, P s -> P (with_flag key v s).
Hypothesis P_clear : forall s, P s -> P (cleared s).
Hypothesis P_payload : forall s path, path <> [] -> P s -> P (with_payload path s).

Lemma preserves_ret {A} (a : A) : preserves P (ret a).
Proof. intros s H. exact H. Qed.

Lemma preserves_get : preserves P get.
Proof. intros s H. exact H. Qed.

Lemma preserves_emit e : preserves P (emit e).
Proof. intros s H. apply (P_events s [e] H). Qed.

Lemma preserves_bind {A B} (c : M Sys A) (k : A -> M Sys B) :
  preserves P c -> (forall a, preserves P (k a)) -> preserves P (bind c k).
Proof.
  intros Hc Hk s H. unfold bind. specialize (Hc s H).
  destruct (c s) as [a s']. now apply Hk.
Qed.

Lemma InjectDll_preserves env pid : preserves P (InjectDll env pid).
Proof.
  intros s H. destruct (InjectDll_result env pid s) as (b & evs & inj & -> & Ht & Hf).
  cbn [snd]. destruct b.
  - destruct Ht as (Hp & h & _ & [->|(Hnone & Hh & ->)]); [reflexivity| |].
    + apply (P_events s evs H).
    + apply (P_events (with_record pid h s) evs). now apply P_record.
  - rewrite Hf by reflexivity. apply (P_events s evs H).
Qed.

Ltac keep :=
  first [ apply preserves_ret | apply preserves_get | apply preserves_emit
        | apply InjectDll_preserves
        | apply preserves_bind; [|intros ?]
        | match goal with
          | |- preserves P (if ?b then _ else _) => destruct b
          | |- preserves P (match ?x with _ => _ end) => destruct x
          end ].

Lemma CallSetWindowVisibility_preserves env pid hwnd hide :
  preserves P (CallSetWindowVisibility env pid hwnd hide).
Proof.
  unfold CallSetWindowVisibility, OpenProcess, LoadLibraryW, FreeLibrary,
    CloseHandle, CreateRemoteThread, WaitForSingleObject, OutputDebugStringW.
  cbv zeta. repeat keep.
Qed.

Lemma HideProcessWindowsByPid_preserves env pid hide :
  preserves P (HideProcessWindowsByPid env pid hide).
Proof.
  unfold HideProcessWindowsByPid, OutputDebugStringW. cbv zeta.
  repeat first [apply CallSetWindowVisibility_preserves | keep].
Qed.

Lemma for_each_pid_preserves env pids hide n : preserves P (for_each_pid env pids hide n).
Proof.
  revert n. induction pids as [|pid pids IH]; intros n; cbn [for_each_pid].
  - apply preserves_ret.
  - apply preserves_bind; [apply HideProcessWindowsByPid_preserves|intros; apply IH].
Qed.

Lemma HideProcessWindows_preserves env name hide :
  preserves P (HideProcessWindows env name hide).
Proof.
  unfold HideProcessWindows. apply preserves_bind; [apply preserves_get|]. intros s0.
  destruct (negb _); [apply preserves_ret|].
  apply preserves_bind; [apply for_each_pid_preserves|]. intros n.
  apply preserves_bind; [|intros; apply preserves_ret].
  destruct (n >? 0); [|apply preserves_ret].
  intros s H. apply (P_flag s (ToLowerCase name) hide H).
Qed.

Lemma restore_each_preserves env keys : preserves P (restore_each env keys).
Proof.
  induction keys as [|key keys IH]; cbn [restore_each]; [apply preserves_ret|].
  apply preserves_bind; [apply preserves_get|]. intros s0.
  apply preserves_bind; [|intros; apply IH].
  destruct (bool_decide _); [|apply preserves_ret].
  apply preserves_bind; [apply HideProcessWindows_preserves|intros; apply preserves_ret].
Qed.

Lemma RestoreAll_preserves env : preserves P (RestoreAll env).
Proof.
  unfold RestoreAll. apply preserves_bind; [apply preserves_get|]. intros s0.
  apply preserves_bind; [apply restore_each_preserves|]. intros _ s H.
  apply (P_clear s H).
Qed.

Lemma Initialize_preserves env path : preserves P (Initialize env path).
Proof.
  unfold Initialize. destruct (file_found env path) eqn:Hf; cbn [negb].
  - apply preserves_bind; [|intros; apply preserves_bind;
                                     [apply preserves_emit|intros; apply preserves_ret]].
    intros s H. apply (P_payload s path); [|exact H]. intros ->. discriminate Hf.
  - apply preserves_bind; [apply preserves_emit|intros; apply preserves_ret].
Qed.

Lemma perform_preserves env c : preserves P (perform env c).
Proof.
  destruct c; cbn [perform]; (apply preserves_bind; [|intros; apply preserves_ret]).
  - apply Initialize_preserves.
  - apply HideProcessWindows_preserves.
  - apply HideProcessWindowsByPid_preserves.
  - apply preserves_get.
  - apply preserves_get.
  - apply RestoreAll_preserves.
Qed.

Lemma run_preserves script s : P s -> P (snd (run script s)).
Proof.
  revert s. induction script as [|[env c] rest IH]; intros s H; [exact H|].
  cbn [run]. pose proof (perform_preserves env c s H) as H'.
  destruct (perform env c s) as [r s']. specialize (IH s' H').
  now destruct (run rest s').
Qed.

End Preservation.

Lemma records_valid_always s : reachable s -> records_valid s.
Proof.
  intros [script <-]. apply run_preserves.
  - intros s evs H. exact H.
  - intros s pid h _ _ Hh H p h'. cbn [with_record injected_processes_].
    destruct (decide (pid = p)) as [->|Hne].
    + rewrite lookup_insert_eq. now intros [= <-].
    + rewrite lookup_insert_ne by assumption. apply H.
  - intros s key v H. exact H.
  - intros s H p h. cbn. rewrite lookup_empty. discriminate.
  - intros s path _ H. exact H.
  - intros p h. cbn. rewrite lookup_empty. discriminate.
Qed.

Lemma configured_always s : reachable s -> configured s.
Proof.
  intros [script <-]. apply run_preserves.
  - intros s evs H. exact H.
  - intros s pid h _ _ _ H. exact H.
  - intros s key v H. exact H.
  - intros s H. exact H.
  - intros s path Hp _. split; [intros _; exact Hp|reflexivity].
  - split; [discriminate|]. intros H. now contradiction H.
Qed.

Lemma initialized_stays script s :
  initialized_ s = true -> initialized_ (snd (run script s)) = true.
Proof.
  apply (run_preserves (fun s => initialized_ s = true)); auto.
Qed.

(** X7.  In every state the object can be in, a record of an injection
    holds a non-null value that fits 32 bits (the exit code of the loader
    thread, not a 64-bit module base), and it exists only in an object
    that is initialised and has a path to the payload. *)
Theorem records_are_nonzero_exit_codes (s : Sys) (pid hModule : Z) :
  reachable s ->
  injected_processes_ s !! pid = Some hModule ->
  0 < hModule < 2 ^ 32 /\ payload_dll_path_ s <> [] /\ initialized_ s = true.
Proof.
  intros Hr Hrec. split; [exact (records_valid_always s Hr pid hModule Hrec)|].
  assert (Hp : payload_dll_path_ s <> []).
  { apply (recorded_payload s pid); [now apply reachable_consistent|eauto]. }
  split; [exact Hp|]. now apply (configured_always s Hr).
Qed.

Lemma records_are_nonzero_exit_codes_witness :
  0 < 0x12340000 < 2 ^ 32 /\ payload_dll_path_ notepad_hidden <> [] /\
  initialized_ notepad_hidden = true.
Proof.
  apply (records_are_nonzero_exit_codes notepad_hidden 42 0x12340000).
  - exists hide_notepad. reflexivity.
  - vm_compute. reflexivity.
Defined.

(** X8.  Initialisation is permanent: whatever is called afterwards, on
    whatever machine, the object stays initialised and keeps a path to the
    payload.  An [Initialize] with a path at which no file is found answers
    false and changes nothing but the debug output, so it does not undo an
    earlier one. *)
Theorem initialisation_is_permanent (s : Sys) :
  reachable s ->
  initialized_ s = true ->
  (forall script,
      initialized_ (snd (run script s)) = true /\
      payload_dll_path_ (snd (run script s)) <> []) /\
  (forall env path,
      file_found env path = false ->
      exists message,
        Initialize env path s = (false, add_events [EvOutputDebugStringW message] s)).
Proof.
  intros Hr Hi. split.
  - intros script.
    assert (Hi' : initialized_ (snd (run script s)) = true) by now apply initialized_stays.
    split; [exact Hi'|]. apply configured_always; [|exact Hi'].
    destruct Hr as [before <-]. exists (before ++ script).
    clear. generalize constructed. induction before as [|[env c] rest IH]; intros s0.
    + reflexivity.
    + cbn [app run]. destruct (perform env c s0) as [r s1]. specialize (IH s1).
      destruct (run (rest ++ script) s1), (run rest s1). exact IH.
  - intros env path Hf. unfold Initialize. rewrite Hf. cbn [negb]. eexists. reflexivity.
Qed.

Lemma initialisation_is_permanent_witness :
  (forall script,
      initialized_ (snd (run script initialized)) = true /\
      payload_dll_path_ (snd (run script initialized)) <> []) /\
  (forall env path,
      file_found env path = false ->
      exists message,
        Initialize env path initialized
          = (false, add_events [EvOutputDebugStringW message] initialized)).
Proof.
  apply (initialisation_is_permanent initialized).
  - exists [(desktop, Call_Initialize sample_dll)]. reflexivity.
  - reflexivity.
Defined.
End InjectorInvariantFacts.

(** ** What the operations of the injector answer *)

Module InjectorAnswerFacts.
Import Win32 StateMonad PrivacyInjector InjectorNotions PrivacyInjectorFacts Win32Facts
  InjectorInvariantFacts.

Lemma CallSetWindowVisibility_answer env pid hwnd hide s :
  fst (CallSetWindowVisibility env pid hwnd hide s) = true <->
  fst (InjectDll env pid s) = true /\
  can_open env pid = true /\
  payload_module_in env pid <> 0 /\
  local_module env (payload_dll_path_ s) <> 0 /\
  HideAllProcessWindows_address env (local_module env (payload_dll_path_ s)) <> 0 /\
  exists hThread,
    remote_thread env pid (remote_hide_all env pid s) (flag_word hide) = Some hThread /\
    0 < GetExitCodeThread hThread.
Proof.
  destruct (InjectDll_result env pid s) as (b & evs & inj & Hinj & _).
  unfold CallSetWindowVisibility. unfold bind at 1. rewrite Hinj. cbn [fst].
  destruct b; cbn [negb].
  2:{ split; [discriminate|]. now intros [? _]. }
  unfold OpenProcess, LoadLibraryW, FreeLibrary, CloseHandle, CreateRemoteThread,
    WaitForSingleObject, OutputDebugStringW, emit, modify, bind, get, ret.
  fold (payload_module_in env pid). cbv beta iota zeta. fold (flag_word hide).
  destruct (can_open env pid) eqn:Hopen; sys_simpl.
  2:{ split; [discriminate|]. now intros (_ & ? & _). }
  destruct (payload_module_in env pid =? 0) eqn:Hmod; sys_simpl.
  { apply Z.eqb_eq in Hmod. split; [discriminate|]. now intros (_ & _ & ? & _). }
  destruct (local_module env (payload_dll_path_ s) =? 0) eqn:Hloc; sys_simpl.
  { apply Z.eqb_eq in Hloc. split; [discriminate|]. now intros (_ & _ & _ & ? & _). }
  destruct (HideAllProcessWindows_address env (local_module env (payload_dll_path_ s)) =? 0)
    eqn:Hproc; sys_simpl.
  { apply Z.eqb_eq in Hproc. split; [discriminate|]. now intros (_ & _ & _ & _ & ? & _). }
  apply Z.eqb_neq in Hmod, Hloc, Hproc.
  fold (hide_all_offset env s). fold (remote_hide_all env pid s).
  destruct (remote_thread env pid (remote_hide_all env pid s) (flag_word hide))
    as [hThread|]; sys_simpl.
  - rewrite Z.gtb_lt. split.
    + intros Hc. repeat (split; [assumption || reflexivity|]). eauto.
    + intros (_ & _ & _ & _ & _ & h & [= <-] & Hc). exact Hc.
  - split; [discriminate|]. intros (_ & _ & _ & _ & _ & h & Hh & _). discriminate Hh.
Qed.

Lemma HideProcessWindowsByPid_answer env pid hide s :
  fst (HideProcessWindowsByPid env pid hide s) = true <->
  GetProcessWindows env pid <> [] /\
  fst (InjectDll env pid s) = true /\
  can_open env pid = true /\
  payload_module_in env pid <> 0 /\
  local_module env (payload_dll_path_ s) <> 0 /\
  HideAllProcessWindows_address env (local_module env (payload_dll_path_ s)) <> 0 /\
  exists hThread,
    remote_thread env pid (remote_hide_all env pid s) (flag_word hide) = Some hThread /\
    0 < GetExitCodeThread hThread.
Proof.
  unfold HideProcessWindowsByPid. cbv zeta.
  destruct (GetProcessWindows env pid) as [|hwnd0 rest] eqn:Hw.
  - split; [discriminate|]. now intros [? _].
  - unfold bind at 1. unfold OutputDebugStringW, emit, modify. cbv beta iota.
    set (s1 := mkSys _ _ _ _ _).
    rewrite (CallSetWindowVisibility_answer env pid hwnd0 hide s1).
    assert (Hsame : fst (InjectDll env pid s1) = fst (InjectDll env pid s)).
    { unfold InjectDll, bind, get. subst s1. sys_simpl.
      destruct (payload_dll_path_ s); [reflexivity|].
      destruct (bool_decide _); [reflexivity|].
      unfold OpenProcess, VirtualAllocEx, WriteProcessMemory, VirtualFreeEx, CloseHandle,
        CreateRemoteThread, WaitForSingleObject, OutputDebugStringW, emit, modify, bind, ret.
      cbv beta iota zeta.
      repeat match goal with
             | |- context [if ?b then _ else _] => destruct b; sys_simpl; try reflexivity
             | |- context [match ?x with Some _ => _ | None => _ end] =>
                 destruct x; sys_simpl; try reflexivity
             end. }
    rewrite Hsame. unfold remote_hide_all, hide_all_offset. subst s1. sys_simpl.
    split; [intros H; split; [discriminate|exact H]|intros [_ H]; exact H].
Qed.



(** X9.  [HideProcessWindowsByPid] answers true exactly when the process
    has a visible top-level window, the payload is or gets injected, the
    process opens, the payload is found among its modules, the local load
    and the symbol lookup succeed, and the remote thread is created and
    reports a number above zero. *)
Theorem hide_by_pid_succeeds_exactly_when (env : Machine) (pid : Z) (hide : bool) (s : Sys) :
  fst (HideProcessWindowsByPid env pid hide s) = true <->
  GetProcessWindows env pid <> [] /\
  fst (InjectDll env pid s) = true /\
  can_open env pid = true /\
  payload_module_in env pid <> 0 /\
  local_module env (payload_dll_path_ s) <> 0 /\
  HideAllProcessWindows_address env (local_module env (payload_dll_path_ s)) <> 0 /\
  exists hThread,
    remote_thread env pid (remote_hide_all env pid s) (flag_word hide) = Some hThread /\
    0 < GetExitCodeThread hThread.
Proof. apply HideProcessWindowsByPid_answer. Qed.

(** *** Counting, and the one flag a call sets *)

Lemma for_each_pid_le env pids hide n s :
  fst (for_each_pid env pids hide n s) <= n + Z.of_nat (length pids).
Proof.
  revert n s. induction pids as [|pid pids IH]; intros n s; cbn [for_each_pid length].
  - cbn. lia.
  - unfold bind. destruct (HideProcessWindowsByPid env pid hide s) as [[|] s1].
    + specialize (IH (n + 1) s1). lia.
    + specialize (IH n s1). lia.
Qed.

Lemma HideProcessWindows_count env name hide s :
  fst (HideProcessWindows env name hide s) <=
    Z.of_nat (length (GetProcessIdsByName env name)).
Proof.
  unfold HideProcessWindows, bind, get, ret, modify.
  destruct (initialized_ s); cbn [negb fst]; [|lia].
  pose proof (for_each_pid_le env (GetProcessIdsByName env name) hide 0 s) as H.
  destruct (for_each_pid env (GetProcessIdsByName env name) hide 0 s) as [n s1].
  cbn [fst] in H. destruct (n >? 0); cbn [fst]; lia.
Qed.

Lemma IsProcessHidden_after_hide env name hide s other :
  IsProcessHidden other (snd (HideProcessWindows env name hide s)) =
    if (fst (HideProcessWindows env name hide s) >? 0)
       && bool_decide (ToLowerCase other = ToLowerCase name)
    then hide else IsProcessHidden other s.
Proof.
  destruct (HideProcessWindows_effect env name hide s) as (_ & _ & _ & _ & Hh).
  unfold IsProcessHidden. cbv zeta. rewrite Hh.
  destruct (fst (HideProcessWindows env name hide s) >? 0); cbn [andb]; [|reflexivity].
  destruct (bool_decide_reflect (ToLowerCase other = ToLowerCase name)) as [->|Hne].
  - now rewrite lookup_insert_eq.
  - rewrite lookup_insert_ne by congruence. reflexivity.
Qed.

(** X10.  [HideProcessWindows] answers a number between zero and the
    number of processes the name matches.  When the answer is zero no name
    changes its state; when it is positive, the queried name (and every
    name equal to it up to case) reads as the requested state afterwards,
    and every other name reads as before. *)
Theorem hide_counts_processes_and_flags_one_name
    (env : Machine) (name : list Z) (hide : bool) (s : Sys) :
  let r := HideProcessWindows env name hide s in
  0 <= fst r <= Z.of_nat (length (GetProcessIdsByName env name)) /\
  forall other,
    IsProcessHidden other (snd r) =
      if (fst r >? 0) && bool_decide (ToLowerCase other = ToLowerCase name)
      then hide else IsProcessHidden other s.
Proof.
  intros r. subst r.
  destruct (HideProcessWindows_effect env name hide s) as (_ & _ & _ & H0 & _).
  split; [split; [exact H0|apply HideProcessWindows_count]|].
  apply IsProcessHidden_after_hide.
Qed.

(** *** With or without [.exe] *)

Lemma ToLowerCase_app a b : ToLowerCase (a ++ b) = ToLowerCase a ++ ToLowerCase b.
Proof. apply List.map_app. Qed.

Lemma search_key_exe name :
  contains (ToLowerCase name) (L ".exe") = false ->
  search_key (name ++ L ".exe") = search_key name.
Proof.
  intros H. unfold search_key. cbv zeta. rewrite H, ToLowerCase_app.
  change (ToLowerCase (L ".exe")) with (L ".exe").
  now rewrite (contains_app_r (ToLowerCase name) _ _ (contains_refl (L ".exe"))).
Qed.

Lemma GetProcessIdsByName_key env name :
  GetProcessIdsByName env name =
    match process_snapshot env with
    | None => []
    | Some entries =>
        List.map fst
          (List.filter
             (fun pe32 => wstr_eqb (ToLowerCase (snd pe32)) (search_key name)
                          || contains (ToLowerCase (snd pe32)) (search_key name))
             entries)
    end.
Proof. reflexivity. Qed.

Lemma HideProcessWindows_count_by_pids env name name' hide s :
  GetProcessIdsByName env name = GetProcessIdsByName env name' ->
  fst (HideProcessWindows env name hide s) = fst (HideProcessWindows env name' hide s).
Proof.
  intros E. unfold HideProcessWindows, bind, get, ret, modify. rewrite E.
  destruct (initialized_ s); cbn [negb]; [|reflexivity].
  destruct (for_each_pid env (GetProcessIdsByName env name') hide 0 s) as [n s1].
  now destruct (n >? 0).
Qed.

(** X11.  A name without [.exe] and the same name with [.exe] appended
    select the same processes, and hiding under either affects the same
    number of them; but the state is kept under the name as it was given:
    after hiding under the short name, a query with the long name reads
    what it read before. *)
Theorem exe_suffix_selects_the_same_processes_under_another_name
    (env : Machine) (name : list Z) (hide : bool) (s : Sys) :
  contains (ToLowerCase name) (L ".exe") = false ->
  GetProcessIdsByName env (name ++ L ".exe") = GetProcessIdsByName env name /\
  fst (HideProcessWindows env (name ++ L ".exe") hide s)
    = fst (HideProcessWindows env name hide s) /\
  IsProcessHidden (name ++ L ".exe") (snd (HideProcessWindows env name hide s))
    = IsProcessHidden (name ++ L ".exe") s.
Proof.
  intros H.
  assert (E : GetProcessIdsByName env (name ++ L ".exe") = GetProcessIdsByName env name).
  { rewrite !GetProcessIdsByName_key. now rewrite search_key_exe. }
  split; [exact E|]. split; [now apply HideProcessWindows_count_by_pids|].
  rewrite IsProcessHidden_after_hide.
  destruct (bool_decide_reflect (ToLowerCase (name ++ L ".exe") = ToLowerCase name))
    as [Heq|_]; [|now rewrite andb_false_r].
  apply (f_equal (@length Z)) in Heq. unfold ToLowerCase in Heq.
  rewrite !length_map, length_app in Heq.
  change (length (L ".exe")) with 4%nat in Heq. lia.
Qed.


(** *** The list of hidden names *)

Lemma wstr_leb_total a b : wstr_leb a b = true \/ wstr_leb b a = true.
Proof.
  revert b. induction a as [|x a IH]; intros [|y b]; cbn; auto.
  destruct (Z.ltb_spec x y); cbn; [auto|].
  destruct (Z.ltb_spec y x); cbn; [auto|].
  assert (x = y) as -> by lia. rewrite Z.eqb_refl. cbn. apply IH.
Qed.

Lemma wstr_leb_trans a b c :
  wstr_leb a b = true -> wstr_leb b c = true -> wstr_leb a c = true.
Proof.
  revert b c. induction a as [|x a IH]; intros [|y b] [|z c]; cbn; try easy.
  intros H1 H2.
  apply orb_true_iff in H1 as [H1|H1], H2 as [H2|H2];
    rewrite ?andb_true_iff, ?Z.ltb_lt, ?Z.eqb_eq in *.
  - apply orb_true_iff. left. apply Z.ltb_lt. lia.
  - destruct H2 as [<- _]. apply orb_true_iff. left. now apply Z.ltb_lt.
  - destruct H1 as [-> _]. apply orb_true_iff. left. now apply Z.ltb_lt.
  - destruct H1 as [-> H1], H2 as [-> H2]. apply orb_true_iff. right.
    rewrite Z.eqb_refl. cbn. now apply (IH b c).
Qed.

Lemma key_le_total : Total key_le.
Proof. intros p q. apply wstr_leb_total. Qed.

Lemma key_le_trans : Transitive key_le.
Proof. intros p q r. apply wstr_leb_trans. Qed.

Lemma in_key_order_sorted (m : gmap (list Z) bool) : StronglySorted key_le (in_key_order m).
Proof.
  apply (@StronglySorted_merge_sort _ key_le key_le_dec key_le_trans key_le_total).
Qed.

Lemma hidden_of_sorted (es : list (list Z * bool)) :
  StronglySorted key_le es -> List.NoDup (List.map fst es) ->
  StronglySorted wstr_lt (List.map fst (List.filter (fun pair => snd pair) es)).
Proof.
  induction es as [|[k v] es IH]; intros Hs Hn; [constructor|].
  apply StronglySorted_inv in Hs as [Hs Hall]. cbn [List.map fst] in Hn.
  apply List.NoDup_cons_iff in Hn as [Hk Hn]. specialize (IH Hs Hn).
  cbn [List.filter snd]. destruct v; [|exact IH].
  cbn [List.map fst]. constructor; [exact IH|].
  apply List.Forall_forall. intros k' Hin.
  apply List.in_map_iff in Hin as ([k'' v'] & <- & Hin).
  apply List.filter_In in Hin as [Hin _]. cbn [fst]. split.
  - rewrite List.Forall_forall in Hall. apply (Hall _ Hin).
  - intros ->. apply Hk. apply List.in_map_iff. exists (k'', v'). auto.
Qed.

Lemma In_GetHiddenProcesses s key :
  In key (GetHiddenProcesses s) <-> hidden_process_names_ s !! key = Some true.
Proof.
  unfold GetHiddenProcesses. rewrite List.in_map_iff. split.
  - intros ([k v] & <- & Hin). apply List.filter_In in Hin as [Hin Hv].
    cbn in Hv. subst v. now apply in_key_order_lookup.
  - intros H. exists (key, true). split; [reflexivity|].
    apply List.filter_In. split; [now apply in_key_order_lookup|reflexivity].
Qed.

(** X12.  [GetHiddenProcesses] lists exactly the names [IsProcessHidden]
    answers true for: a name is reported hidden if and only if its
    lower-case form is in the list.  The list is strictly ascending in the
    order of the map (code unit by code unit), so no name occurs twice;
    and in every state the object can be in each listed name is in lower
    case. *)
Theorem hidden_list_agrees_with_lookup (s : Sys) :
  reachable s ->
  (forall name,
      IsProcessHidden name s = true <-> In (ToLowerCase name) (GetHiddenProcesses s)) /\
  StronglySorted wstr_lt (GetHiddenProcesses s) /\
  List.NoDup (GetHiddenProcesses s) /\
  (forall key, In key (GetHiddenProcesses s) -> ToLowerCase key = key).
Proof.
  intros Hr. split; [|split; [|split]].
  - intros name. rewrite In_GetHiddenProcesses. unfold IsProcessHidden. cbv zeta.
    destruct (hidden_process_names_ s !! ToLowerCase name) as [[|]|]; split; congruence.
  - apply hidden_of_sorted; [apply in_key_order_sorted|apply in_key_order_NoDup].
  - assert (H : StronglySorted wstr_lt (GetHiddenProcesses s)).
    { apply hidden_of_sorted; [apply in_key_order_sorted|apply in_key_order_NoDup]. }
    induction H as [|k l Hs IH Hall]; constructor; [|exact IH].
    intros Hin. rewrite List.Forall_forall in Hall. now destruct (Hall _ Hin).
  - intros key Hin. apply In_GetHiddenProcesses in Hin.
    apply (reachable_consistent s Hr). eauto.
Qed.

Lemma hidden_list_agrees_with_lookup_witness :
  (forall name,
      IsProcessHidden name notepad_hidden = true <->
      In (ToLowerCase name) (GetHiddenProcesses notepad_hidden)) /\
  StronglySorted wstr_lt (GetHiddenProcesses notepad_hidden) /\
  List.NoDup (GetHiddenProcesses notepad_hidden) /\
  (forall key, In key (GetHiddenProcesses notepad_hidden) -> ToLowerCase key = key).
Proof.
  apply (hidden_list_agrees_with_lookup notepad_hidden).
  exists hide_notepad. reflexivity.
Defined.

Lemma exe_suffix_selects_the_same_processes_under_another_name_witness :
  GetProcessIdsByName desktop (L "notepad" ++ L ".exe")
    = GetProcessIdsByName desktop (L "notepad") /\
  fst (HideProcessWindows desktop (L "notepad" ++ L ".exe") true initialized)
    = fst (HideProcessWindows desktop (L "notepad") true initialized) /\
  IsProcessHidden (L "notepad" ++ L ".exe")
    (snd (HideProcessWindows desktop (L "notepad") true initialized))
    = IsProcessHidden (L "notepad" ++ L ".exe") initialized.
Proof.
  apply (exe_suffix_selects_the_same_processes_under_another_name
           desktop (L "notepad") true initialized).
  reflexivity.
Defined.


(** *** Records are kept *)

(** X13.  Only [RestoreAll] forgets an injection: after any other call a
    record that was there is still there, with the value it had.  Nothing
    refreshes or drops the record of a process, whatever has become of the
    process. *)
Theorem records_stay_until_restore
    (env : Machine) (c : call) (s : Sys) (pid hModule : Z) :
  c <> Call_RestoreAll ->
  injected_processes_ s !! pid = Some hModule ->
  injected_processes_ (snd (perform env c s)) !! pid = Some hModule.
Proof.
  intros Hc Hrec.
  set (P := fun s' : Sys => injected_processes_ s' !! pid = Some hModule).
  assert (Pe : forall s' evs, P s' -> P (add_events evs s')) by (intros ? ? H; exact H).
  assert (Pr : forall s' p h, payload_dll_path_ s' <> [] ->
                 injected_processes_ s' !! p = None -> 0 < h < 2 ^ 32 ->
                 P s' -> P (with_record p h s')).
  { intros s' p h _ Hnone _ H. unfold P, with_record. cbn [injected_processes_].
    rewrite lookup_insert_ne; [exact H|]. intros ->. unfold P in H. congruence. }
  assert (Pf : forall s' key v, P s' -> P (with_flag key v s')) by (intros ? ? ? H; exact H).
  assert (Pp : forall s' path, path <> [] -> P s' -> P (with_payload path s'))
    by (intros ? ? _ H; exact H).
  change (P (snd (perform env c s))).
  destruct c; cbn [perform]; try contradiction;
    (apply preserves_bind; [|intros; apply preserves_ret|exact Hrec]).
  - now apply Initialize_preserves.
  - now apply HideProcessWindows_preserves.
  - now apply HideProcessWindowsByPid_preserves.
  - apply preserves_get.
  - apply preserves_get.
Qed.

Lemma records_stay_until_restore_witness :
  injected_processes_
    (snd (perform desktop_hung (Call_HideProcessWindows (L "notepad") false) notepad_hidden))
    !! 42 = Some 0x12340000.
Proof.
  apply (records_stay_until_restore desktop_hung
           (Call_HideProcessWindows (L "notepad") false) notepad_hidden 42 0x12340000).
  - discriminate.
  - vm_compute. reflexivity.
Defined.

(** *** Without a payload *)

Lemma HideProcessWindowsByPid_unloaded env pid hide s :
  payload_dll_path_ s = [] ->
  exists evs, HideProcessWindowsByPid env pid hide s = (false, add_events evs s) /\
              forallb is_debug evs = true.
Proof.
  intros Hp. unfold HideProcessWindowsByPid. cbv zeta.
  destruct (GetProcessWindows env pid) as [|hwnd0 rest].
  - eexists [_]. split; reflexivity.
  - unfold bind at 1. unfold OutputDebugStringW at 1, emit, modify. cbv beta iota.
    unfold CallSetWindowVisibility. unfold bind at 1.
    rewrite InjectDll_unloaded by exact Hp. cbn [negb].
    eexists [_; _]. split.
    + unfold OutputDebugStringW, emit, modify, bind, ret, add_events. cbn.
      now rewrite <- app_assoc.
    + reflexivity.
Qed.

Lemma for_each_pid_unloaded env pids hide n s :
  payload_dll_path_ s = [] ->
  exists evs, for_each_pid env pids hide n s = (n, add_events evs s) /\
              forallb is_debug evs = true.
Proof.
  intros Hp. revert s Hp. induction pids as [|pid pids IH]; intros s Hp; cbn [for_each_pid].
  - exists []. now rewrite no_events_added.
  - unfold bind. destruct (HideProcessWindowsByPid_unloaded env pid hide s Hp) as (e1 & -> & H1).
    destruct (IH (add_events e1 s) Hp) as (e2 & -> & H2).
    exists (e1 ++ e2). rewrite events_added_twice. split; [reflexivity|].
    now rewrite forallb_app, H1, H2.
Qed.

Lemma HideProcessWindows_unloaded env name hide s :
  payload_dll_path_ s = [] ->
  exists evs, HideProcessWindows env name hide s = (0, add_events evs s) /\
              forallb is_debug evs = true.
Proof.
  intros Hp. unfold HideProcessWindows. unfold bind at 1. unfold get at 1. cbv beta iota.
  destruct (initialized_ s); cbn [negb].
  - destruct (for_each_pid_unloaded env (GetProcessIdsByName env name) hide 0 s Hp)
      as (evs & E & H).
    exists evs. unfold bind. rewrite E. cbn. auto.
  - exists []. now rewrite no_events_added.
Qed.

Lemma restore_each_unloaded env keys s :
  payload_dll_path_ s = [] ->
  exists evs, restore_each env keys s = (tt, add_events evs s) /\
              forallb is_debug evs = true.
Proof.
  intros Hp. revert s Hp. induction keys as [|key keys IH]; intros s Hp; cbn [restore_each].
  - exists []. now rewrite no_events_added.
  - unfold bind at 1. unfold get at 1. cbv beta iota.
    destruct (bool_decide _).
    + unfold bind at 1. unfold bind at 1.
      destruct (HideProcessWindows_unloaded env key false s Hp) as (e1 & -> & H1).
      cbv beta iota. unfold ret at 1.
      destruct (IH (add_events e1 s) Hp) as (e2 & -> & H2).
      exists (e1 ++ e2). rewrite events_added_twice. split; [reflexivity|].
      now rewrite forallb_app, H1, H2.
    + unfold bind at 1. unfold ret at 1. cbv beta iota. apply IH, Hp.
Qed.

(** X14.  An injector without a path to the payload (one that was never
    initialised) touches no process: hiding by process id answers false,
    hiding by name answers zero, and these and [RestoreAll] open no
    process, allocate nothing and start no thread; all any of them does is
    write debug output. *)
Theorem without_a_payload_no_process_is_touched (env : Machine) (s : Sys) :
  payload_dll_path_ s = [] ->
  (forall pid hide,
      exists evs, HideProcessWindowsByPid env pid hide s = (false, add_events evs s) /\
                  forallb is_debug evs = true) /\
  (forall name hide,
      exists evs, HideProcessWindows env name hide s = (0, add_events evs s) /\
                  forallb is_debug evs = true) /\
  (exists evs, RestoreAll env s = (tt, cleared (add_events evs s)) /\
               forallb is_debug evs = true).
Proof.
  intros Hp. split; [|split].
  - intros pid hide. now apply HideProcessWindowsByPid_unloaded.
  - intros name hide. now apply HideProcessWindows_unloaded.
  - unfold RestoreAll. unfold bind at 1. unfold get at 1. cbv beta iota.
    destruct (restore_each_unloaded env
                (List.map fst (in_key_order (hidden_process_names_ s))) s Hp)
      as (evs & E & H).
    exists evs. unfold bind. rewrite E. split; [reflexivity|exact H].
Qed.

Lemma without_a_payload_no_process_is_touched_witness :
  (forall pid hide,
      exists evs, HideProcessWindowsByPid desktop pid hide constructed
                    = (false, add_events evs constructed) /\
                  forallb is_debug evs = true) /\
  (forall name hide,
      exists evs, HideProcessWindows desktop name hide constructed
                    = (0, add_events evs constructed) /\
                  forallb is_debug evs = true) /\
  (exists evs, RestoreAll desktop constructed = (tt, cleared (add_events evs constructed)) /\
               forallb is_debug evs = true).
Proof.
  apply (without_a_payload_no_process_is_touched desktop constructed). reflexivity.
Defined.

End InjectorAnswerFacts.

(** ** The payload *)

Module PrivacyPayloadFacts.
Import Win32 StateMonad PrivacyPayload.

Lemma selected_after_insert s dwAffinity h w a hwnd :
  windows s !! h = Some w ->
  selected (mkDesktop (current_pid s) (<[h := with_affinity a w]> (windows s))
                      (top_level s) (grants s)) dwAffinity hwnd
  = selected s dwAffinity hwnd.
Proof.
  intros Hw. unfold selected. cbn [windows current_pid grants].
  destruct (decide (h = hwnd)) as [->|Hne].
  - now rewrite lookup_insert_eq, Hw.
  - now rewrite lookup_insert_ne.
Qed.

Lemma EnumWindowsHideCallback_run h flag n s :
  let dwAffinity := if flag =? 0 then WDA_NONE else WDA_EXCLUDEFROMCAPTURE in
  EnumWindowsHideCallback h (mkHideWindowsData (current_pid s) flag n) s =
    match windows s !! h with
    | Some w =>
        if selected s dwAffinity h
        then ((true, mkHideWindowsData (current_pid s) flag (n + 1)),
              mkDesktop (current_pid s) (<[h := with_affinity dwAffinity w]> (windows s))
                        (top_level s) (grants s))
        else ((true, mkHideWindowsData (current_pid s) flag n), s)
    | None => ((true, mkHideWindowsData (current_pid s) flag n), s)
    end.
Proof.
  intros dwAffinity. subst dwAffinity.
  unfold EnumWindowsHideCallback, GetWindowThreadProcessId, IsWindowVisible,
    SetWindowDisplayAffinity, selected, bind, get, ret, modify.
  cbn [targetPid hide count].
  destruct (windows s !! h) as [w|] eqn:Hw; [|now rewrite andb_false_r].
  destruct ((owner w =? current_pid s) && visible w); cbn [andb]; [|reflexivity].
  rewrite Hw. now destruct (grants s h _).
Qed.

Lemma enumerate_hide hwnds lpParam n s :
  let dwAffinity := affinity_for lpParam in
  let flag := if lpParam =? 0 then 0 else 1 in
  exists ws,
    enumerate hwnds EnumWindowsHideCallback (mkHideWindowsData (current_pid s) flag n) s =
      (mkHideWindowsData (current_pid s) flag
         (n + Z.of_nat (length (List.filter (selected s dwAffinity) hwnds))),
       mkDesktop (current_pid s) ws (top_level s) (grants s)) /\
    forall hwnd,
      ws !! hwnd =
        if selected s dwAffinity hwnd && existsb (Z.eqb hwnd) hwnds
        then with_affinity dwAffinity <$> windows s !! hwnd
        else windows s !! hwnd.
Proof.
  intros dwAffinity flag. revert n s.
  assert (Haff : (if flag =? 0 then WDA_NONE else WDA_EXCLUDEFROMCAPTURE) = dwAffinity).
  { subst flag dwAffinity. unfold affinity_for. now destruct (lpParam =? 0). }
  induction hwnds as [|h rest IH]; intros n s.
  - exists (windows s). split.
    + cbn. rewrite Z.add_0_r. now destruct s.
    + intros hwnd. now rewrite andb_false_r.
  - cbn [enumerate List.filter]. unfold bind at 1.
    rewrite EnumWindowsHideCallback_run. cbv zeta. rewrite Haff.
    assert (Hskip : selected s dwAffinity h = false ->
      exists ws,
        enumerate rest EnumWindowsHideCallback (mkHideWindowsData (current_pid s) flag n) s =
          (mkHideWindowsData (current_pid s) flag
             (n + Z.of_nat (length (List.filter (selected s dwAffinity) rest))),
           mkDesktop (current_pid s) ws (top_level s) (grants s)) /\
        forall hwnd,
          ws !! hwnd =
            if selected s dwAffinity hwnd && existsb (Z.eqb hwnd) (h :: rest)
            then with_affinity dwAffinity <$> windows s !! hwnd
            else windows s !! hwnd).
    { intros Hsel. destruct (IH n s) as (ws & E & Hws). exists ws. split; [exact E|].
      intros hwnd. rewrite Hws. cbn [existsb].
      destruct (Z.eqb_spec hwnd h) as [->|Hne]; [now rewrite Hsel|reflexivity]. }
    destruct (selected s dwAffinity h) eqn:Hsel.
    2:{ destruct (windows s !! h); cbn [fst snd]; now apply Hskip. }
    destruct (windows s !! h) as [w|] eqn:Hw.
    2:{ unfold selected in Hsel. rewrite Hw in Hsel. discriminate. }
    cbn [fst snd].
    pose (s1 := mkDesktop (current_pid s) (<[h := with_affinity dwAffinity w]> (windows s))
                          (top_level s) (grants s)).
    destruct (IH (n + 1) s1) as (ws & E & Hws).
    subst s1. cbn [current_pid top_level grants] in E.
    exists ws. split.
    + rewrite E. f_equal. f_equal. cbn [length].
      rewrite (List.filter_ext _ (selected s dwAffinity)
                 (fun hwnd => selected_after_insert s dwAffinity h w dwAffinity hwnd Hw)).
      lia.
    + intros hwnd. rewrite Hws.
      rewrite (selected_after_insert s dwAffinity h w dwAffinity hwnd Hw).
      cbn [windows existsb].
      destruct (Z.eqb_spec hwnd h) as [->|Hne].
      * rewrite lookup_insert_eq, Hw, Hsel. cbn [andb orb].
        now destruct (existsb (Z.eqb h) rest).
      * rewrite lookup_insert_ne by congruence. reflexivity.
Qed.

Lemma HideAllProcessWindows_run lpParam s :
  exists ws,
    HideAllProcessWindows lpParam s =
      (u32 (Z.of_nat (length (List.filter (selected s (affinity_for lpParam)) (top_level s)))),
       mkDesktop (current_pid s) ws (top_level s) (grants s)) /\
    forall hwnd,
      ws !! hwnd =
        if selected s (affinity_for lpParam) hwnd && existsb (Z.eqb hwnd) (top_level s)
        then with_affinity (affinity_for lpParam) <$> windows s !! hwnd
        else windows s !! hwnd.
Proof.
  destruct (enumerate_hide (top_level s) lpParam 0 s) as (ws & E & Hws).
  exists ws. split; [|exact Hws].
  unfold HideAllProcessWindows, EnumWindows, bind, get, ret. cbv zeta in E |- *.
  rewrite E. cbn [count]. now rewrite Z.add_0_l.
Qed.

(** X15.  [HideAllProcessWindows] sets the display affinity of the windows
    [EnumWindows] reports that belong to the calling process, are visible
    and for which the system grants the change: to exclude-from-capture
    for any argument other than null, to none for null.  Every other window
    (of another process, invisible, refused, or not reported) is left as it
    is, and the answer is the number of windows set, as a [DWORD]. *)
Theorem payload_sets_own_visible_windows (lpParam : Z) (s : Desktop) :
  let r := HideAllProcessWindows lpParam s in
  let dwAffinity := affinity_for lpParam in
  fst r = u32 (Z.of_nat (length (List.filter (selected s dwAffinity) (top_level s)))) /\
  (forall hwnd,
      windows (snd r) !! hwnd =
        if selected s dwAffinity hwnd && existsb (Z.eqb hwnd) (top_level s)
        then with_affinity dwAffinity <$> windows s !! hwnd
        else windows s !! hwnd) /\
  current_pid (snd r) = current_pid s /\
  top_level (snd r) = top_level s /\
  grants (snd r) = grants s.
Proof.
  intros r dwAffinity. subst r dwAffinity.
  destruct (HideAllProcessWindows_run lpParam s) as (ws & -> & Hws).
  cbn [fst snd windows current_pid top_level grants]. auto.
Qed.

(** *** Calling it again *)

Lemma selected_after_call s s' a dwAffinity (touched : Z -> bool) :
  current_pid s' = current_pid s -> grants s' = grants s ->
  (forall hwnd, windows s' !! hwnd =
                  if touched hwnd then with_affinity a <$> windows s !! hwnd
                  else windows s !! hwnd) ->
  forall hwnd, selected s' dwAffinity hwnd = selected s dwAffinity hwnd.
Proof.
  intros Hp Hg Hw hwnd. unfold selected. rewrite Hw, Hp, Hg.
  destruct (touched hwnd); [|reflexivity]. now destruct (windows s !! hwnd).
Qed.

(** X16.  Calling [HideAllProcessWindows] a second time with the same
    argument changes no window and gives the same answer as the first
    call: the answer counts the windows whose affinity was set, whether or
    not that changed anything. *)
Theorem payload_call_repeated (lpParam : Z) (s : Desktop) :
  let once := HideAllProcessWindows lpParam s in
  let twice := HideAllProcessWindows lpParam (snd once) in
  fst twice = fst once /\ snd twice = snd once.
Proof.
  intros once twice. subst once twice.
  destruct (HideAllProcessWindows_run lpParam s) as (ws & -> & Hws). cbn [fst snd].
  set (s1 := mkDesktop _ _ _ _).
  destruct (HideAllProcessWindows_run lpParam s1) as (ws' & -> & Hws'). cbn [fst snd].
  assert (Hsel : forall dwAffinity hwnd, selected s1 dwAffinity hwnd = selected s dwAffinity hwnd).
  { intros dwAffinity. apply (selected_after_call s s1 (affinity_for lpParam) dwAffinity
             (fun hwnd => selected s (affinity_for lpParam) hwnd
                          && existsb (Z.eqb hwnd) (top_level s)));
      [reflexivity|reflexivity|exact Hws]. }
  subst s1. cbn [current_pid top_level grants windows] in *. split.
  - now rewrite (List.filter_ext _ _ (Hsel (affinity_for lpParam))).
  - f_equal. apply map_eq. intros hwnd. rewrite Hws', Hsel, Hws.
    destruct (selected s (affinity_for lpParam) hwnd && existsb (Z.eqb hwnd) (top_level s));
      [|reflexivity].
    now destruct (windows s !! hwnd).
Qed.

(** *** Hiding and showing again *)

(** X17.  When the visible windows of the process had no display affinity
    before, and the system grants clearing wherever it grants excluding,
    hiding and then showing leaves every window as it was. *)
Theorem payload_hide_then_show (lpParam : Z) (s : Desktop) :
  lpParam <> 0 ->
  (forall hwnd w,
      windows s !! hwnd = Some w -> owner w = current_pid s -> visible w = true ->
      affinity w = WDA_NONE) ->
  (forall hwnd,
      grants s hwnd WDA_EXCLUDEFROMCAPTURE = true -> grants s hwnd WDA_NONE = true) ->
  snd (HideAllProcessWindows 0 (snd (HideAllProcessWindows lpParam s))) = s.
Proof.
  intros Hp Hnone Hgr.
  destruct (HideAllProcessWindows_run lpParam s) as (ws & -> & Hws). cbn [snd].
  set (s1 := mkDesktop _ _ _ _).
  destruct (HideAllProcessWindows_run 0 s1) as (ws' & -> & Hws'). cbn [snd].
  assert (Hsel : forall dwAffinity hwnd, selected s1 dwAffinity hwnd = selected s dwAffinity hwnd).
  { intros dwAffinity. apply (selected_after_call s s1 (affinity_for lpParam) dwAffinity
             (fun hwnd => selected s (affinity_for lpParam) hwnd
                          && existsb (Z.eqb hwnd) (top_level s)));
      [reflexivity|reflexivity|exact Hws]. }
  assert (Ha : affinity_for lpParam = WDA_EXCLUDEFROMCAPTURE).
  { unfold affinity_for. destruct (Z.eqb_spec lpParam 0); congruence. }
  change (affinity_for 0) with WDA_NONE in *. rewrite Ha in *.
  subst s1. cbn [current_pid top_level grants windows] in *.
  destruct s as [pid wins tl g]. cbn [current_pid top_level grants windows] in *.
  f_equal. apply map_eq. intros hwnd. rewrite Hws', Hsel, Hws.
  assert (Hown : forall a w, wins !! hwnd = Some w ->
            selected (mkDesktop pid wins tl g) a hwnd = true ->
            with_affinity WDA_NONE w = w).
  { intros a w Hw Hs. unfold selected in Hs. cbn [windows current_pid grants] in Hs.
    rewrite Hw in Hs. apply andb_true_iff in Hs as [Hs _].
    apply andb_true_iff in Hs as [Ho Hv]. apply Z.eqb_eq in Ho.
    pose proof (Hnone hwnd w Hw Ho Hv) as Hz. destruct w as [o v af]. cbn in *. now subst. }
  destruct (wins !! hwnd) as [w|] eqn:Hw.
  2:{ unfold selected. cbn [windows]. rewrite Hw. reflexivity. }
  destruct (existsb (Z.eqb hwnd) tl); rewrite ?andb_false_r, ?andb_true_r; [|reflexivity].
  destruct (selected (mkDesktop pid wins tl g) WDA_EXCLUDEFROMCAPTURE hwnd) eqn:Hh.
  - assert (Hs : selected (mkDesktop pid wins tl g) WDA_NONE hwnd = true).
    { unfold selected in Hh |- *. cbn [windows current_pid grants] in Hh |- *.
      rewrite Hw in Hh |- *. apply andb_true_iff in Hh as [-> Hg]. now rewrite (Hgr hwnd Hg). }
    rewrite Hs. cbn. f_equal. apply (Hown _ w eq_refl Hs).
  - destruct (selected (mkDesktop pid wins tl g) WDA_NONE hwnd) eqn:Hs; [|reflexivity].
    cbn. f_equal. apply (Hown _ w eq_refl Hs).
Qed.

Lemma payload_hide_then_show_witness :
  snd (HideAllProcessWindows 0 (snd (HideAllProcessWindows 1 sample))) = sample.
Proof.
  apply (payload_hide_then_show 1 sample).
  - discriminate.
  - intros hwnd w Hw _ _. unfold sample in Hw. cbn [windows] in Hw.
    repeat (apply lookup_insert_Some in Hw as [[_ <-]|[_ Hw]]; [reflexivity|]).
    rewrite lookup_empty in Hw. discriminate.
  - intros hwnd H. exact H.
Defined.

End PrivacyPayloadFacts.

(** ** The method channel *)

Module PrivacyChannelFacts.
Import Win32 StateMonad PrivacyInjector PrivacyChannel PrivacyInjectorFacts Win32Facts.

Lemma bind_result {A} (c : M Sys A) (f : A -> MethodResult) s :
  fst (bind c (fun a => ret (f a)) s) = f (fst (c s)).
Proof. unfold bind, ret. now destruct (c s). Qed.

(** X18.  A call the handler does not accept leaves the injector exactly
    as it was, debug output included: every error it reports carries the
    code [INVALID_ARGUMENT], and a method it does not know is answered
    "not implemented".  The five methods it knows are never answered "not
    implemented". *)
Theorem rejected_call_changes_nothing
    (host : Host) (method_name : string) (arguments : EncodableValue) (s : Sys) :
  let r := MethodCallHandler host method_name arguments s in
  (forall code message,
      fst r = Error code message -> code = "INVALID_ARGUMENT"%string /\ snd r = s) /\
  (fst r = NotImplemented <-> ~ In method_name known_methods) /\
  (fst r = NotImplemented -> snd r = s).
Proof.
  intros r. subst r. unfold MethodCallHandler, known_methods.
  destruct (String.eqb_spec method_name "hideProcessWindows") as [->|N1].
  { split; [|split; [split; [|intros H; exfalso; apply H; cbn; auto]|]].
    - intros code message.
      repeat match goal with
             | |- context [match ?x with _ => _ end] => destruct x
             end; cbn [ret fst snd]; try (intros [= <- <-]; auto);
        rewrite bind_result; discriminate.
    - repeat match goal with
             | |- context [match ?x with _ => _ end] => destruct x
             end; cbn [ret fst snd]; try discriminate; rewrite bind_result; discriminate.
    - repeat match goal with
             | |- context [match ?x with _ => _ end] => destruct x
             end; cbn [ret fst snd]; try discriminate; rewrite bind_result; discriminate. }
  destruct (String.eqb_spec method_name "hideMultipleProcesses") as [->|N2].
  { split; [|split; [split; [|intros H; exfalso; apply H; cbn; auto]|]].
    - intros code message.
      repeat match goal with
             | |- context [match ?x with _ => _ end] => destruct x
             end; cbn [ret fst snd]; try (intros [= <- <-]; auto);
        rewrite bind_result; discriminate.
    - repeat match goal with
             | |- context [match ?x with _ => _ end] => destruct x
             end; cbn [ret fst snd]; try discriminate; rewrite bind_result; discriminate.
    - repeat match goal with
             | |- context [match ?x with _ => _ end] => destruct x
             end; cbn [ret fst snd]; try discriminate; rewrite bind_result; discriminate. }
  destruct (String.eqb_spec method_name "getHiddenProcesses") as [->|N3].
  { cbn [bind get ret fst snd].
    split; [discriminate|split; [split; [discriminate|intros H; exfalso; apply H; cbn; auto]|]].
    discriminate. }
  destruct (String.eqb_spec method_name "restoreAll") as [->|N4].
  { rewrite (bind_result (RestoreAll (os host)) (fun _ => Success ENull)).
    split; [discriminate|split; [split; [discriminate|intros H; exfalso; apply H; cbn; auto]|]].
    discriminate. }
  destruct (String.eqb_spec method_name "isProcessHidden") as [->|N5].
  { split; [|split; [split; [|intros H; exfalso; apply H; cbn; auto 6]|]].
    - intros code message. destruct arguments; cbn; try (intros [= <- <-]; auto); discriminate.
    - destruct arguments; cbn; discriminate.
    - destruct arguments; cbn; discriminate. }
  cbn [ret fst snd]. split; [discriminate|]. split; [|reflexivity].
  split; [|reflexivity]. intros _ [H|[H|[H|[H|[H|[]]]]]]; congruence.
Qed.

(** *** Several names in one call *)

Lemma hideProcessWindows_call host name hide s :
  MethodCallHandler host "hideProcessWindows" (hide_arguments name hide) s =
    (Success (EInt (fst (HideProcessWindows (os host) (Utf8ToWstring host name) hide s))),
     snd (HideProcessWindows (os host) (Utf8ToWstring host name) hide s)).
Proof.
  unfold MethodCallHandler, hide_arguments. rewrite String.eqb_refl.
  change (find_key "processName" _) with (Some (EString name)).
  change (find_key "hide" _) with (Some (EBool hide)).
  cbv zeta. unfold bind, ret. now destruct (HideProcessWindows _ _ _ _).
Qed.

Lemma hide_each_one_by_one host items hide n s :
  exists counts,
    fst (one_by_one host (strings_of items) hide s)
      = List.map (fun k => Success (EInt k)) counts /\
    hide_each host items hide n s
      = (n + fold_right Z.add 0 counts, snd (one_by_one host (strings_of items) hide s)) /\
    List.Forall (fun k => 0 <= k) counts.
Proof.
  revert n s. induction items as [|item items IH]; intros n s.
  - exists []. cbn. rewrite Z.add_0_r. auto.
  - assert (Hskip : (forall name, item <> EString name) ->
                    strings_of (item :: items) = strings_of items /\
                    hide_each host (item :: items) hide n s = hide_each host items hide n s).
    { intros Hn. destruct item; try (split; reflexivity). now contradiction (Hn s0). }
    destruct item as [| | |name| |];
      try (destruct Hskip as [-> ->]; [discriminate|apply IH]).
    clear Hskip. change (strings_of (EString name :: items)) with (name :: strings_of items).
    cbn [one_by_one hide_each]. rewrite hideProcessWindows_call. cbv zeta.
    unfold bind at 1.
    destruct (HideProcessWindows_effect (os host) (Utf8ToWstring host name) hide s)
      as (_ & _ & _ & H0 & _).
    destruct (HideProcessWindows (os host) (Utf8ToWstring host name) hide s) as [k s1].
    cbn [fst snd] in *.
    destruct (IH (n + k) s1) as (counts & E1 & E2 & Hall).
    exists (k :: counts). destruct (one_by_one host (strings_of items) hide s1) as [rs s2].
    cbn [fst snd] in *. subst rs. split; [reflexivity|]. split.
    + rewrite E2. cbn [fold_right]. f_equal. lia.
    + now constructor.
Qed.

(** X19.  [hideMultipleProcesses] does what calling [hideProcessWindows]
    for each name of the list in turn does, items that are not strings
    being passed over: it leaves the injector in the same state, each of
    those calls would succeed with a number that is not negative, and the
    answer is the sum of these numbers. *)
Theorem hideMultipleProcesses_adds_up
    (host : Host) (args : list (EncodableValue * EncodableValue))
    (processes : list EncodableValue) (hide : bool) (s : Sys) :
  find_key "processes" args = Some (EList processes) ->
  find_key "hide" args = Some (EBool hide) ->
  exists counts,
    fst (one_by_one host (strings_of processes) hide s)
      = List.map (fun k => Success (EInt k)) counts /\
    List.Forall (fun k => 0 <= k) counts /\
    MethodCallHandler host "hideMultipleProcesses" (EMap args) s
      = (Success (EInt (fold_right Z.add 0 counts)),
         snd (one_by_one host (strings_of processes) hide s)).
Proof.
  intros Hp Hh. destruct (hide_each_one_by_one host processes hide 0 s) as (counts & E1 & E2 & Hall).
  exists counts. split; [exact E1|]. split; [exact Hall|].
  unfold MethodCallHandler.
  change (String.eqb "hideMultipleProcesses" "hideProcessWindows") with false.
  rewrite String.eqb_refl. cbv iota. rewrite Hp, Hh. unfold bind, ret. now rewrite E2.
Qed.

Lemma hideMultipleProcesses_adds_up_witness :
  exists counts,
    fst (one_by_one sample_host (strings_of [EString "notepad"; EInt 7; EString "Notepad2"])
           true initialized)
      = List.map (fun k => Success (EInt k)) counts /\
    List.Forall (fun k => 0 <= k) counts /\
    MethodCallHandler sample_host "hideMultipleProcesses"
      (EMap [(EString "hide", EBool true);
             (EString "processes",
              EList [EString "notepad"; EInt 7; EString "Notepad2"])]) initialized
      = (Success (EInt (fold_right Z.add 0 counts)),
         snd (one_by_one sample_host
                (strings_of [EString "notepad"; EInt 7; EString "Notepad2"])
                true initialized)).
Proof.
  apply (hideMultipleProcesses_adds_up sample_host
           [(EString "hide", EBool true);
            (EString "processes", EList [EString "notepad"; EInt 7; EString "Notepad2"])]
           [EString "notepad"; EInt 7; EString "Notepad2"] true initialized);
    reflexivity.
Defined.

(** *** Where the payload is looked for *)

Lemma find_last_of_none str chars :
  forallb (fun c => negb (existsb (Z.eqb c) chars)) str = true ->
  find_last_of str chars = None.
Proof.
  induction str as [|c str IH]; [reflexivity|]. cbn [forallb find_last_of].
  intros H. apply andb_true_iff in H as [Hc Hs]. rewrite (IH Hs).
  apply negb_true_iff in Hc. now rewrite Hc.
Qed.

Lemma find_last_of_last dir sep file chars :
  existsb (Z.eqb sep) chars = true ->
  forallb (fun c => negb (existsb (Z.eqb c) chars)) file = true ->
  find_last_of (dir ++ sep :: file) chars = Some (length dir).
Proof.
  intros Hsep Hfile. induction dir as [|c dir IH].
  - cbn [app find_last_of length]. now rewrite (find_last_of_none file chars Hfile), Hsep.
  - cbn [app find_last_of length]. now rewrite IH.
Qed.

(** X20.  The payload is looked for in the directory of the running
    executable: the path handed to [Initialize] is the path of the
    executable up to and including its last backslash or slash, followed
    by [privacy_payload.dll] (and the whole path of the executable followed
    by that name, when it has no separator at all).  Whatever the path of
    the executable, a module loaded from the path handed over is one the
    remote call recognises as the payload. *)
Theorem payload_is_looked_for_beside_the_executable
    (host : Host) (dir file : list Z) (sep : Z) :
  GetModuleFileNameW host = dir ++ sep :: file ->
  is_separator sep = true ->
  forallb (fun c => negb (is_separator c)) file = true ->
  dllPath host = dir ++ sep :: L "privacy_payload.dll" /\
  (forall host',
      forallb (fun c => negb (is_separator c)) (GetModuleFileNameW host') = true ->
      dllPath host' = GetModuleFileNameW host' ++ L "privacy_payload.dll") /\
  (forall host' hMod rest,
      contains (dllPath host') (L "privacy_payload.dll") = true /\
      find_payload_module ((hMod, Some (dllPath host')) :: rest) = hMod).
Proof.
  intros Hexe Hsep Hfile. split; [|split].
  - unfold dllPath. cbv zeta. rewrite Hexe.
    rewrite (find_last_of_last dir sep file (L "\/") Hsep Hfile).
    replace (length dir + 1)%nat with (length (dir ++ [sep])) by (rewrite length_app; reflexivity).
    change (dir ++ sep :: file) with (dir ++ [sep] ++ file). rewrite app_assoc.
    rewrite take_app_length. now rewrite <- app_assoc.
  - intros host' H. unfold dllPath. cbv zeta.
    now rewrite (find_last_of_none _ (L "\/") H).
  - intros host' hMod rest.
    assert (Hc : contains (dllPath host') (L "privacy_payload.dll") = true).
    { unfold dllPath. cbv zeta. apply contains_app_r, contains_refl. }
    split; [exact Hc|]. cbn [find_payload_module]. now rewrite Hc.
Qed.

Lemma payload_is_looked_for_beside_the_executable_witness :
  dllPath sample_host = L "C:\Program Files\A1 Tools" ++ 92 :: L "privacy_payload.dll" /\
  (forall host',
      forallb (fun c => negb (is_separator c)) (GetModuleFileNameW host') = true ->
      dllPath host' = GetModuleFileNameW host' ++ L "privacy_payload.dll") /\
  (forall host' hMod rest,
      contains (dllPath host') (L "privacy_payload.dll") = true /\
      find_payload_module ((hMod, Some (dllPath host')) :: rest) = hMod).
Proof.
  apply (payload_is_looked_for_beside_the_executable sample_host
           (L "C:\Program Files\A1 Tools") (L "a1_tools.exe") 92); reflexivity.
Defined.

(** *** When the payload is not there *)

Lemma MethodCallHandler_idle host method_name arguments s :
  initialized_ s = false -> hidden_process_names_ s = ∅ -> injected_processes_ s = ∅ ->
  snd (MethodCallHandler host method_name arguments s) = s /\
  forall n, fst (MethodCallHandler host method_name arguments s) = Success (EInt n) -> n = 0.
Proof.
  intros Hi Hh Hj.
  assert (Hhide : forall name hide, HideProcessWindows (os host) name hide s = (0, s)).
  { intros name hide. unfold HideProcessWindows, bind, get. now rewrite Hi. }
  assert (Heach : forall items hide, hide_each host items hide 0 s = (0, s)).
  { intros items hide. induction items as [|item items IH]; [reflexivity|].
    cbn [hide_each]. destruct item; try exact IH.
    cbv zeta. unfold bind. rewrite Hhide. exact IH. }
  unfold MethodCallHandler.
  destruct (String.eqb method_name "hideProcessWindows").
  { repeat match goal with
           | |- context [match ?x with _ => _ end] => destruct x
           end; cbn [ret fst snd]; try (split; [reflexivity|discriminate]).
    cbv zeta. unfold bind. rewrite Hhide. cbn. split; [reflexivity|]. now intros n [= <-]. }
  destruct (String.eqb method_name "hideMultipleProcesses").
  { repeat match goal with
           | |- context [match ?x with _ => _ end] => destruct x
           end; cbn [ret fst snd]; try (split; [reflexivity|discriminate]).
    unfold bind. rewrite Heach. cbn. split; [reflexivity|]. now intros n [= <-]. }
  destruct (String.eqb method_name "getHiddenProcesses").
  { cbn. split; [reflexivity|discriminate]. }
  destruct (String.eqb method_name "restoreAll").
  { unfold RestoreAll, bind, get, modify, ret. rewrite Hh, in_key_order_empty.
    cbn [List.map restore_each ret fst snd]. split; [|discriminate].
    destruct s; cbn in *. now subst. }
  destruct (String.eqb method_name "isProcessHidden").
  { destruct arguments; cbn; split; try reflexivity; discriminate. }
  cbn. split; [reflexivity|discriminate].
Qed.

(** X21.  When no payload is found beside the executable, the injector
    stays uninitialised for good and the channel does not say so: whatever
    is called afterwards leaves the injector as [OnCreate] left it, nothing
    is ever reported hidden, and every number answered is zero (an answer
    of success, not an error). *)
Theorem missing_payload_is_answered_with_zero
    (host : Host) (calls : list (Host * (string * EncodableValue))) :
  file_found (os host) (dllPath host) = false ->
  let s0 := snd (OnCreate host constructed) in
  snd (serve calls s0) = s0 /\
  initialized_ s0 = false /\
  GetHiddenProcesses s0 = [] /\
  List.Forall (fun r => forall n, r = Success (EInt n) -> n = 0) (fst (serve calls s0)).
Proof.
  intros Hf s0.
  assert (E : s0 = add_events
                     [EvOutputDebugStringW (L "[PrivacyInjector] Payload DLL not found" ++ nl)]
                     constructed).
  { subst s0. unfold OnCreate, Initialize. rewrite Hf. reflexivity. }
  assert (Hi : initialized_ s0 = false) by now rewrite E.
  assert (Hh : hidden_process_names_ s0 = ∅) by now rewrite E.
  assert (Hj : injected_processes_ s0 = ∅) by now rewrite E.
  assert (Hserve : snd (serve calls s0) = s0 /\
            List.Forall (fun r => forall n, r = Success (EInt n) -> n = 0)
                        (fst (serve calls s0))).
  { clear E Hf. induction calls as [|[h [m a]] rest IH]; [split; [reflexivity|constructor]|].
    cbn [serve]. destruct (MethodCallHandler_idle h m a s0 Hi Hh Hj) as [Hs Hn].
    destruct (MethodCallHandler h m a s0) as [r s1]. cbn [fst snd] in Hs, Hn. subst s1.
    destruct (serve rest s0) as [rs s2]. cbn [fst snd] in *.
    destruct IH as [-> Hall]. split; [reflexivity|]. constructor; assumption. }
  destruct Hserve as [Hs Hall]. split; [exact Hs|]. split; [exact Hi|]. split; [|exact Hall].
  unfold GetHiddenProcesses. now rewrite Hh, in_key_order_empty.
Qed.

Lemma missing_payload_is_answered_with_zero_witness :
  let s0 := snd (OnCreate sample_host_without_payload constructed) in
  let calls := [(sample_host, ("hideProcessWindows"%string, hide_arguments "notepad" true));
                (sample_host, ("isProcessHidden"%string, EString "notepad"))] in
  snd (serve calls s0) = s0 /\
  initialized_ s0 = false /\
  GetHiddenProcesses s0 = [] /\
  List.Forall (fun r => forall n, r = Success (EInt n) -> n = 0) (fst (serve calls s0)).
Proof.
  apply (missing_payload_is_answered_with_zero sample_host_without_payload
           [(sample_host, ("hideProcessWindows"%string, hide_arguments "notepad" true));
            (sample_host, ("isProcessHidden"%string, EString "notepad"))]).
  reflexivity.
Defined.

End PrivacyChannelFacts.

(** ** The injector and the payload together *)

Module InjectionFacts.
Import Win32 StateMonad PrivacyInjector PrivacyPayload Injection PrivacyInjectorFacts
  InjectorAnswerFacts PrivacyPayloadFacts.

Lemma filter_positive {A} (f : A -> bool) l :
  0 < Z.of_nat (length (List.filter f l)) <-> exists x, In x l /\ f x = true.
Proof.
  split.
  - destruct (List.filter f l) as [|x rest] eqn:E; [cbn; lia|]. intros _.
    exists x. apply List.filter_In. rewrite E. now left.
  - intros (x & Hin & Hf). assert (H : In x (List.filter f l)) by now apply List.filter_In.
    destruct (List.filter f l); [contradiction|]. cbn [length]. lia.
Qed.

(** X22.  When the thread the injector starts in the target runs
    [HideAllProcessWindows] to its end, hiding by process id answers true
    exactly when all the steps up to the remote call succeed and the
    payload has set the affinity of at least one window: a visible window
    of its own process for which the system granted the change.  The
    flag the injector passes ([TRUE] or [FALSE]) is read by the payload as
    the same request, hide or show. *)
Theorem hide_by_pid_answers_what_the_payload_did
    (env : Machine) (pid : Z) (hide : bool) (s : Sys) (d : Desktop) :
  remote_thread env pid (remote_hide_all env pid s) (flag_word hide)
    = Some (Exited (fst (HideAllProcessWindows (flag_word hide) d))) ->
  Z.of_nat (length (top_level d)) < 2 ^ 32 ->
  affinity_for (flag_word hide) = (if hide then WDA_EXCLUDEFROMCAPTURE else WDA_NONE) /\
  (fst (HideProcessWindowsByPid env pid hide s) = true <->
   GetProcessWindows env pid <> [] /\
   fst (InjectDll env pid s) = true /\
   can_open env pid = true /\
   payload_module_in env pid <> 0 /\
   local_module env (payload_dll_path_ s) <> 0 /\
   HideAllProcessWindows_address env (local_module env (payload_dll_path_ s)) <> 0 /\
   exists hwnd,
     In hwnd (top_level d) /\
     selected d (if hide then WDA_EXCLUDEFROMCAPTURE else WDA_NONE) hwnd = true).
Proof.
  intros Hth Hlen.
  assert (Ha : affinity_for (flag_word hide)
               = (if hide then WDA_EXCLUDEFROMCAPTURE else WDA_NONE)) by now destruct hide.
  split; [exact Ha|].
  rewrite HideProcessWindowsByPid_answer, Hth.
  destruct (HideAllProcessWindows_run (flag_word hide) d) as (ws & -> & _). cbn [fst].
  rewrite Ha.
  set (n := Z.of_nat (length (List.filter _ (top_level d)))).
  assert (Hn : 0 <= n < 2 ^ 32).
  { subst n. pose proof (List.filter_length_le
                           (selected d (if hide then WDA_EXCLUDEFROMCAPTURE else WDA_NONE))
                           (top_level d)). lia. }
  assert (Hcode : forall h, Some (Exited (u32 n)) = Some h -> 0 < GetExitCodeThread h <-> 0 < n).
  { intros h [= <-]. cbn [GetExitCodeThread]. unfold u32.
    rewrite (Z.mod_small n) by lia. rewrite (Z.mod_small n) by lia. reflexivity. }
  split.
  - intros (Hw & Hi & Ho & Hm & Hl & Hp & h & Eh & Hc).
    repeat (split; [assumption|]). apply filter_positive. now apply (Hcode h Eh).
  - intros (Hw & Hi & Ho & Hm & Hl & Hp & Hx).
    repeat (split; [assumption|]). eexists. split; [reflexivity|].
    apply (Hcode _ eq_refl). now apply filter_positive.
Qed.

Lemma hide_by_pid_answers_what_the_payload_did_witness :
  affinity_for (flag_word true) = WDA_EXCLUDEFROMCAPTURE /\
  (fst (HideProcessWindowsByPid desktop_with_payload 42 true initialized) = true <->
   GetProcessWindows desktop_with_payload 42 <> [] /\
   fst (InjectDll desktop_with_payload 42 initialized) = true /\
   can_open desktop_with_payload 42 = true /\
   payload_module_in desktop_with_payload 42 <> 0 /\
   local_module desktop_with_payload (payload_dll_path_ initialized) <> 0 /\
   HideAllProcessWindows_address desktop_with_payload
     (local_module desktop_with_payload (payload_dll_path_ initialized)) <> 0 /\
   exists hwnd,
     In hwnd (top_level sample) /\ selected sample WDA_EXCLUDEFROMCAPTURE hwnd = true).
Proof.
  apply (hide_by_pid_answers_what_the_payload_did
           desktop_with_payload 42 true initialized sample).
  - reflexivity.
  - reflexivity.
Defined.

End InjectionFacts.

(** ** The application's entry point *)

Module AppMainFacts.
Import Win32 StateMonad AppMain Win32Facts.

Lemma starts_with_prefix needle hay :
  starts_with needle hay = true -> exists rest, hay = needle ++ rest.
Proof.
  revert hay. induction needle as [|c needle IH]; intros hay H.
  - now exists hay.
  - destruct hay as [|h hay]; [discriminate|]. cbn in H.
    apply andb_true_iff in H as [Hc H]. apply Z.eqb_eq in Hc as ->.
    destruct (IH hay H) as [rest ->]. now exists rest.
Qed.

Lemma contains_occurs hay needle :
  contains hay needle = true <-> exists before after, hay = before ++ needle ++ after.
Proof.
  split.
  - unfold contains. destruct (find hay needle) as [pos|] eqn:E; [|discriminate].
    intros _. destruct (find_Some hay needle pos E) as [H _].
    destruct (starts_with_prefix _ _ H) as [rest Hr].
    exists (take pos hay), rest. now rewrite <- Hr, take_drop.
  - intros (before & after & ->). apply contains_infix.
Qed.

Lemma flagged_occurs command_line :
  (let source := detect_launch_source command_line in
   autoStart source || crashRestart source || serviceRestart source) = true <->
  exists flag before after,
    In flag launch_flags /\ command_line = Some (before ++ flag ++ after).
Proof.
  destruct command_line as [cl|]; cbn [detect_launch_source autoStart crashRestart serviceRestart].
  - rewrite !orb_true_iff, !contains_occurs. split.
    + intros [[(b & a & ->)|(b & a & ->)]|(b & a & ->)]; eexists _, b, a;
        (split; [|reflexivity]); cbn; auto.
    + intros (flag & b & a & Hin & [= ->]).
      destruct Hin as [<-|[<-|[<-|[]]]]; eauto.
  - split; [discriminate|]. now intros (? & ? & ? & _ & [=]).
Qed.

Lemma message_loop_run msgs trace :
  message_loop msgs trace = (tt, trace ++ List.map EvDispatchMessage msgs).
Proof.
  revert trace. induction msgs as [|msg rest IH]; intros trace; cbn [message_loop List.map].
  - now rewrite app_nil_r.
  - unfold bind, emit, modify. rewrite IH. now rewrite <- app_assoc.
Qed.

Lemma not_dispatched hwnd nCmdShow msgs :
  ~ In (EvShowWindow hwnd nCmdShow) (List.map EvDispatchMessage msgs).
Proof. intros H. apply List.in_map_iff in H as (? & [=] & _). Qed.

Ltac in_trace H :=
  repeat first
    [ apply in_app_or in H as [H|H]
    | apply not_dispatched in H; destruct H
    | destruct H as [H|H]
    | discriminate H
    | contradiction H ].

(** X23.  The application minimises a window exactly when it is not a
    second instance, its own window has been created, [FindWindowW] finds
    it, and one of [--auto-start], [--crash-restart], [--service-restart]
    occurs somewhere in the command line (as a part of it, not necessarily
    a word of its own); the window minimised is the one found.  A second
    instance does not look at the command line at all: it restores and
    raises the window of the first, if it finds one, closes its handle and
    returns 0.  When the window cannot be created the run ends with
    [EXIT_FAILURE] and no window is shown, restored or minimised. *)
Theorem minimised_only_by_a_flagged_first_instance
    (env : Machine) (command_line : option (list Z)) :
  let r := wWinMain env command_line [] in
  (forall hwnd,
      In (EvShowWindow hwnd SW_MINIMIZE) (snd r) <->
      CreateMutexW env <> ExistingMutex /\ Create env = true /\
      hwnd = FindWindowW env /\ hwnd <> 0 /\
      exists flag before after,
        In flag launch_flags /\ command_line = Some (before ++ flag ++ after)) /\
  (CreateMutexW env = ExistingMutex ->
   r = (0, (if FindWindowW env =? 0 then []
            else [EvShowWindow (FindWindowW env) SW_RESTORE;
                  EvSetForegroundWindow (FindWindowW env)]) ++ [EvCloseHandle])) /\
  (CreateMutexW env <> ExistingMutex -> Create env = false ->
   fst r = EXIT_FAILURE /\ forall hwnd nCmdShow, ~ In (EvShowWindow hwnd nCmdShow) (snd r)).
Proof.
  intros r. subst r. split; [|split].
  - intros hwnd. rewrite <- flagged_occurs. cbv zeta.
    unfold wWinMain.
    destruct (autoStart (detect_launch_source command_line)
              || crashRestart (detect_launch_source command_line)
              || serviceRestart (detect_launch_source command_line)) eqn:Hflag;
      destruct (CreateMutexW env) eqn:Hm, (Z.eqb_spec (FindWindowW env) 0) as [Hz|Hz],
        (negb (AttachConsole env) && IsDebuggerPresent env), (Create env);
      unfold bind, emit, modify, ret; cbn [fst snd app negb andb orb];
      rewrite ?message_loop_run; cbn [fst snd app];
      (split;
       [ intros H; in_trace H;
         try (injection H as <-; repeat split; try discriminate; try congruence; auto)
       | intros (Hn & Hc & -> & Hh & Hf); try discriminate; try congruence;
         cbn [In]; rewrite ?in_app_iff; cbn [In]; auto 10 ]).
  - intros Hm. unfold wWinMain. rewrite Hm.
    destruct (Z.eqb_spec (FindWindowW env) 0); reflexivity.
  - intros Hm Hc. unfold wWinMain. rewrite Hc.
    destruct (CreateMutexW env); try contradiction;
      destruct (negb (AttachConsole env) && IsDebuggerPresent env);
      unfold bind, emit, modify, ret; cbn [fst snd app negb andb orb];
      (split; [reflexivity|]); intros hwnd n H; in_trace H.
Qed.

End AppMainFacts.

(** ** The supervisor's entry point *)

Module ServiceEntryFacts.
Import Win32 StateMonad ServiceHelper ServiceEntry ServiceHelperFacts.

(** *** At most one launch in a check *)

Lemma launches_ret {A} (a : A) n : launches_at_most n (ret a).
Proof. intros s. exists []. rewrite app_nil_r. split; [reflexivity|cbn; lia]. Qed.

Lemma launches_silent {A} (c : M Sys A) n :
  (forall s, trace (snd (c s)) = trace s) -> launches_at_most n c.
Proof. intros H s. exists []. rewrite app_nil_r. split; [apply H|cbn; lia]. Qed.

Lemma launches_emit e n :
  (Nat.b2n (is_launch e) <= n)%nat -> launches_at_most n (emit e).
Proof.
  intros H s. exists [e]. split; [reflexivity|].
  unfold count. cbn. destruct (is_launch e); cbn in *; lia.
Qed.

Lemma launches_bind {A B} (c : M Sys A) (k : A -> M Sys B) n m :
  launches_at_most n c -> (forall a, launches_at_most m (k a)) ->
  launches_at_most (n + m) (bind c k).
Proof.
  intros Hc Hk s. unfold bind. destruct (Hc s) as (e1 & E1 & H1).
  destruct (c s) as [a s1]. cbn [snd] in E1.
  destruct (Hk a s1) as (e2 & E2 & H2). exists (e1 ++ e2). split.
  - now rewrite E2, E1, app_assoc.
  - rewrite count_app. lia.
Qed.

Lemma launches_then {A B} (c : M Sys A) (k : A -> M Sys B) n :
  launches_at_most 0 c -> (forall a, launches_at_most n (k a)) ->
  launches_at_most n (bind c k).
Proof. intros Hc Hk. apply (launches_bind c k 0 n); assumption. Qed.

Ltac quiet_step :=
  first
    [ apply launches_ret
    | apply launches_emit; cbn; lia
    | apply launches_silent; intros; reflexivity
    | apply launches_then; [|intros ?]
    | progress cbv zeta
    | match goal with
      | |- launches_at_most _ (if ?b then _ else _) => destruct b
      | |- launches_at_most _ (match ?x with _ => _ end) => destruct x
      end ].

Ltac quiet := repeat quiet_step.

Lemma Log_quiet message n : launches_at_most n (Log message).
Proof. unfold Log. quiet. Qed.

Lemma DeleteFileW_quiet path n : launches_at_most n (DeleteFileW path).
Proof. unfold DeleteFileW. quiet. Qed.

Lemma CreateFileW_quiet path n : launches_at_most n (CreateFileW_always path).
Proof.
  unfold CreateFileW_always. apply launches_then; [quiet|]. intros _.
  apply launches_silent. intros s. now destruct (can_create s).
Qed.

Lemma Sleep_quiet ms n : launches_at_most n (Sleep ms).
Proof. unfold Sleep. quiet. Qed.

Lemma IsUpdateInProgress_quiet n : launches_at_most n IsUpdateInProgress.
Proof.
  unfold IsUpdateInProgress, GetFileAttributesExW, GetSystemTimeAsFileTime.
  repeat first [apply Log_quiet | apply DeleteFileW_quiet | quiet_step].
Qed.

Lemma IsRestartPending_quiet n : launches_at_most n IsRestartPending.
Proof.
  unfold IsRestartPending, GetFileAttributesExW, GetSystemTimeAsFileTime.
  repeat first [apply Log_quiet | apply DeleteFileW_quiet | quiet_step].
Qed.

Lemma IsInstallerRunning_quiet n : launches_at_most n IsInstallerRunning.
Proof.
  unfold IsInstallerRunning, CreateToolhelp32Snapshot.
  repeat first [apply Log_quiet | quiet_step].
Qed.

Lemma IsAppRunning_quiet n : launches_at_most n IsAppRunning.
Proof.
  unfold IsAppRunning, OpenMutexW_app, CreateToolhelp32Snapshot.
  repeat first [apply Log_quiet | quiet_step].
Qed.

Lemma CreateRestartLock_quiet n : launches_at_most n CreateRestartLock.
Proof.
  unfold CreateRestartLock. repeat first [apply CreateFileW_quiet | quiet_step].
Qed.

Lemma RemoveRestartLock_quiet n : launches_at_most n RemoveRestartLock.
Proof.
  unfold RemoveRestartLock. repeat first [apply DeleteFileW_quiet | quiet_step].
Qed.

Lemma CreateProcessW_once cmdLine : launches_at_most 1 (CreateProcessW cmdLine).
Proof.
  unfold CreateProcessW. apply (launches_bind _ _ 1 0).
  - apply launches_emit. cbn. lia.
  - intros _. apply launches_silent. intros s. destruct (launch s) as [|pid [|]]; reflexivity.
Qed.

Lemma RecoverApp_once : launches_at_most 1 RecoverApp.
Proof.
  unfold RecoverApp, file_present, GetLastError.
  apply launches_then; [apply CreateRestartLock_quiet|]. intros _.
  apply launches_then; [quiet|]. intros s0.
  apply launches_then; [quiet|]. intros present.
  destruct (negb present).
  - apply launches_then; [apply Log_quiet|]. intros _. apply RemoveRestartLock_quiet.
  - apply launches_then; [apply Log_quiet|]. intros _.
    apply (launches_bind _ _ 1 0); [apply CreateProcessW_once|]. intros pi.
    apply launches_then; [|intros; apply RemoveRestartLock_quiet].
    destruct pi.
    + repeat first [apply Log_quiet | apply Sleep_quiet | apply IsAppRunning_quiet
                   | quiet_step].
    + repeat first [apply Log_quiet | quiet_step].
Qed.

Lemma PerformCheck_once : launches_at_most 1 PerformCheck.
Proof.
  unfold PerformCheck.
  apply launches_then; [apply Log_quiet|]. intros _.
  apply launches_then; [apply IsUpdateInProgress_quiet|]. intros [|]; [apply Log_quiet|].
  apply launches_then; [apply IsRestartPending_quiet|]. intros [|]; [apply Log_quiet|].
  apply launches_then; [apply IsInstallerRunning_quiet|]. intros [|]; [apply Log_quiet|].
  apply launches_then; [apply IsAppRunning_quiet|]. intros [|]; cbn [negb]; [apply Log_quiet|].
  apply launches_then; [apply Log_quiet|]. intros _. apply RecoverApp_once.
Qed.

(** *** Launches and the sleeps between them *)

Lemma spacing_app rested evs1 evs2 :
  spacing rested (evs1 ++ evs2) =
    match spacing rested evs1 with
    | Some rested' => spacing rested' evs2
    | None => None
    end.
Proof.
  revert rested. induction evs1 as [|e evs1 IH]; intros rested; [reflexivity|].
  destruct e; cbn [app spacing]; try apply IH. destruct rested; [apply IH|reflexivity].
Qed.

Lemma spacing_without_launch rested evs :
  count is_launch evs = 0%nat ->
  exists rested', spacing rested evs = Some rested' /\ (rested = true -> rested' = true).
Proof.
  revert rested. induction evs as [|e evs IH]; intros rested H.
  - exists rested. auto.
  - destruct e; unfold count in *; cbn [List.filter is_launch length spacing] in *;
      try discriminate; try (apply IH; exact H).
    destruct (IH (rested || (ms =? CHECK_INTERVAL_MS)) H) as (r & E & Hr).
    exists r. split; [exact E|]. intros ->. now apply Hr.
Qed.

Lemma spacing_with_one_launch evs :
  (count is_launch evs <= 1)%nat -> exists rested', spacing true evs = Some rested'.
Proof.
  induction evs as [|e evs IH]; intros H; [now exists true|].
  destruct e; unfold count in *; cbn [List.filter is_launch length spacing orb] in *;
    try (apply IH; exact H).
  destruct (spacing_without_launch false evs) as (r & E & _); [unfold count; lia|].
  now exists r.
Qed.

Lemma spacing_rested evs :
  spacing false evs = Some true -> In (EvSleep CHECK_INTERVAL_MS) evs.
Proof.
  induction evs as [|e evs IH]; [discriminate|].
  destruct e; cbn [spacing orb]; try (intros H; right; now apply IH); try discriminate.
  destruct (Z.eqb_spec ms CHECK_INTERVAL_MS) as [->|_]; [now left|].
  intros H. right. now apply IH.
Qed.

Lemma spacing_between rested rested' before c1 between c2 after :
  spacing rested (before ++ EvCreateProcessW c1 :: between ++ EvCreateProcessW c2 :: after)
    = Some rested' ->
  In (EvSleep CHECK_INTERVAL_MS) between.
Proof.
  rewrite spacing_app. destruct (spacing rested before) as [[|]|]; try discriminate.
  cbn [spacing]. rewrite spacing_app.
  destruct (spacing false between) as [[|]|] eqn:E; try discriminate.
  intros _. now apply spacing_rested.
Qed.

Lemma service_loop_spaced world s :
  List.Forall outside_change world ->
  exists evs,
    trace (snd (service_loop world s)) = trace s ++ evs /\ spacing true evs = Some true.
Proof.
  intros Hw. revert s. induction Hw as [|outside rest Ho _ IH]; intros s.
  - exists []. now rewrite app_nil_r.
  - cbn [service_loop]. unfold bind at 1. unfold modify at 1. cbv beta iota.
    unfold bind at 1. destruct (PerformCheck_once (outside s)) as (e1 & E1 & H1).
    destruct (PerformCheck (outside s)) as [[] s1]. cbn [snd] in E1.
    unfold bind at 1. rewrite Sleep_run.
    destruct (IH (set_clock (clock s1 + CHECK_INTERVAL_MS * 10000)
                    (add_events [EvSleep CHECK_INTERVAL_MS] s1))) as (e2 & E2 & H2).
    exists (e1 ++ [EvSleep CHECK_INTERVAL_MS] ++ e2). split.
    + rewrite E2. sys_simpl. now rewrite E1, Ho, <- !app_assoc.
    + rewrite spacing_app. destruct (spacing_with_one_launch e1 H1) as (r & ->).
      cbn [app spacing]. now rewrite Z.eqb_refl, orb_true_r.
Qed.

Lemma wWinMain_spaced boot world s :
  List.Forall outside_change world ->
  exists evs rested,
    trace (snd (wWinMain boot world s)) = trace s ++ evs /\ spacing true evs = Some rested.
Proof.
  intros Hw. unfold wWinMain. unfold bind at 1. unfold modify at 1. cbv beta iota.
  unfold bind at 1. unfold get at 1. cbv beta iota.
  set (s0 := set_appDataDir (GetAppDataDir boot) s).
  destruct (g_appDataDir s0) as [|c dir]; [exists [], true; now rewrite app_nil_r|].
  unfold bind at 1. unfold modify at 1. cbv beta iota zeta.
  set (s1 := set_logFilePath _ s0).
  assert (T1 : trace s1 = trace s) by reflexivity.
  assert (Hlog : forall m S, exists evs, Log m S = (tt, add_events evs S) /\
                                         spacing true evs = Some true).
  { intros m S. rewrite Log_run. eexists. split; [reflexivity|].
    unfold logline. now destruct (g_logFilePath S). }
  destruct (CreateMutexW boot).
  - unfold bind. destruct (Hlog (L "Service helper already running, exiting") s1)
      as (e & -> & H). cbn [ret snd]. exists e, true. now rewrite <- T1.
  - unfold bind. destruct (Hlog (L "Service helper already running, exiting") s1)
      as (e & -> & H). cbn [ret snd]. exists e, true. now rewrite <- T1.
  - unfold bind at 1.
    destruct (Hlog (L "A1 Tools Service Helper started") s1) as (e1 & -> & H1).
    cbv beta iota.
    destruct (match lpCmdLine boot with
              | Some cmdLine =>
                  contains cmdLine (L "--check-once") || contains cmdLine (L "--verify")
              | None => false
              end).
    + unfold bind at 1.
      destruct (Hlog (L "Running in verify mode") (add_events e1 s1)) as (e2 & -> & H2).
      cbv beta iota. unfold bind at 1.
      destruct (PerformCheck_once (add_events e2 (add_events e1 s1))) as (e3 & E3 & H3).
      destruct (PerformCheck _) as [[] s2]. cbn [snd ret] in E3 |- *.
      destruct (spacing_with_one_launch e3 H3) as (r & Hr).
      exists (e1 ++ e2 ++ e3), r. split.
      * rewrite E3. cbn [add_events set_trace trace]. now rewrite T1, <- !app_assoc.
      * now rewrite spacing_app, H1, spacing_app, H2.
    + unfold bind at 1.
      destruct (service_loop_spaced world (add_events e1 s1) Hw) as (e2 & E2 & H2).
      destruct (service_loop world _) as [[] s2]. cbn [snd ret] in E2 |- *.
      exists (e1 ++ e2), true. split.
      * rewrite E2. cbn [add_events set_trace trace]. now rewrite T1, <- !app_assoc.
      * now rewrite spacing_app, H1.
Qed.

(** X24.  The supervisor rests between launches: whatever happens outside
    it from round to round, between any two launches of the application
    in a run of [wWinMain] there is a sleep of the whole check interval
    (two minutes).  In particular the application is started at most once
    per check, and never twice in a run with [--check-once] or
    [--verify]. *)
Theorem supervisor_rests_between_launches
    (boot : Boot) (world : list (Sys -> Sys)) (s : Sys)
    (before between after : list event) (cmdLine1 cmdLine2 : list Z) :
  List.Forall outside_change world ->
  new_events s (snd (wWinMain boot world s))
    = before ++ EvCreateProcessW cmdLine1 :: between ++ EvCreateProcessW cmdLine2 :: after ->
  In (EvSleep CHECK_INTERVAL_MS) between.
Proof.
  intros Hw Hev. destruct (wWinMain_spaced boot world s Hw) as (evs & rested & E & H).
  rewrite (new_events_app _ _ _ E) in Hev. subst evs.
  exact (spacing_between _ _ _ _ _ _ _ H).
Qed.

Lemma supervisor_rests_between_launches_witness :
  let s := desktop_with_exe in
  let world := [(fun s => s); app_closed] in
  let evs := new_events s (snd (wWinMain sample_boot world s)) in
  List.Forall outside_change world /\
  In (EvSleep CHECK_INTERVAL_MS) (take 11 (drop 7 evs)).
Proof.
  assert (Hw : List.Forall outside_change [(fun s => s); app_closed])
    by (repeat constructor).
  split; [exact Hw|].
  apply (supervisor_rests_between_launches sample_boot [(fun s => s); app_closed]
           desktop_with_exe
           (take 6 (new_events desktop_with_exe
                      (snd (wWinMain sample_boot [(fun s => s); app_closed]
                              desktop_with_exe))))
           (take 11 (drop 7 (new_events desktop_with_exe
                               (snd (wWinMain sample_boot [(fun s => s); app_closed]
                                       desktop_with_exe)))))
           (drop 19 (new_events desktop_with_exe
                       (snd (wWinMain sample_boot [(fun s => s); app_closed]
                               desktop_with_exe))))
           (dquote ++ sample_dir ++ L "\a1_tools.exe" ++ dquote
              ++ L " --auto-start --service-restart")
           (dquote ++ sample_dir ++ L "\a1_tools.exe" ++ dquote
              ++ L " --auto-start --service-restart") Hw).
  vm_compute. reflexivity.
Defined.

(** *** Before the loop *)

Lemma appdata_not_empty path : exists c dir, path ++ L "\A1 Tools" = c :: dir.
Proof.
  destruct path as [|c path]; [now exists 92, (L "A1 Tools")|].
  now exists c, (path ++ L "\A1 Tools").
Qed.

(** X25.  The helper does nothing at all when the local application data
    folder cannot be found (exit code 1, not even a log line).  When its
    mutex cannot be created or exists already it writes one log line and
    exits with 0 without checking anything, also when it was started with
    [--check-once] or [--verify].  It goes on round after round, without
    returning, exactly when the folder is found, the mutex is new and
    neither flag occurs in the command line. *)
Theorem helper_checks_only_as_first_instance
    (boot : Boot) (world : list (Sys -> Sys)) (s : Sys) :
  (SHGetFolderPathW boot = None ->
   wWinMain boot world s = (Some 1, set_appDataDir [] s)) /\
  (forall path,
      SHGetFolderPathW boot = Some path -> CreateMutexW boot <> MutexCreated ->
      fst (wWinMain boot world s) = Some 0 /\
      new_events s (snd (wWinMain boot world s))
        = [EvLog (L "Service helper already running, exiting")] /\
      files (snd (wWinMain boot world s)) = files s) /\
  (fst (wWinMain boot world s) = None <->
   is_Some (SHGetFolderPathW boot) /\ CreateMutexW boot = MutexCreated /\
   forall cmdLine,
     lpCmdLine boot = Some cmdLine ->
     contains cmdLine (L "--check-once") = false /\ contains cmdLine (L "--verify") = false).
Proof.
  unfold wWinMain, GetAppDataDir.
  destruct (SHGetFolderPathW boot) as [path|].
  2:{ cbn. split; [reflexivity|]. split; [discriminate|].
      split; [discriminate|]. intros [[? [=]] _]. }
  destruct (appdata_not_empty path) as (c & dir & E). rewrite E.
  cbn [bind modify get g_appDataDir set_appDataDir ret fst snd].
  split; [discriminate|]. split.
  - intros path' _ Hm.
    destruct (CreateMutexW boot); try contradiction;
      unfold bind, ret; rewrite Log_run; unfold logline; cbn [g_logFilePath set_logFilePath app fst snd];
      (split; [reflexivity|]); (split; [|reflexivity]);
      apply new_events_app; reflexivity.
  - destruct (CreateMutexW boot); unfold bind, ret.
    + destruct (Log _ _). cbn. split; [discriminate|]. now intros (_ & [=] & _).
    + destruct (Log _ _). cbn. split; [discriminate|]. now intros (_ & [=] & _).
    + destruct (Log _ _) as [[] s1].
      destruct (lpCmdLine boot) as [cmdLine|].
      * destruct (contains cmdLine (L "--check-once") || contains cmdLine (L "--verify"))
          eqn:Hflag.
        -- destruct (Log _ s1) as [[] s2]. destruct (PerformCheck s2).
           cbn. split; [discriminate|]. intros (_ & _ & H).
           destruct (H cmdLine eq_refl) as [H1 H2]. rewrite H1, H2 in Hflag. discriminate.
        -- destruct (service_loop world s1). cbn.
           split; [|reflexivity]. intros _. split; [eauto|]. split; [reflexivity|].
           intros ? [= <-]. now apply orb_false_iff in Hflag.
      * destruct (service_loop world s1). cbn.
        split; [|reflexivity]. intros _. split; [eauto|]. split; [reflexivity|]. discriminate.
Qed.

End ServiceEntryFacts.
